(** * EcoCollect: pickup lifecycle, credit award and e-waste label matching

    A shallow embedding of
    - [src/hooks/use-ewaste-scanner.ts]  (the label matcher inside [scanImage]),
    - [src/lib/firebase/services.ts]     (the Firestore service functions),
    - [handleSubmit] of the pickup form  (the caller of [createPickup] and
      [addPickupItems]),
    followed by the properties of these functions.

    Conventions of the embedding.
    - A JavaScript [number] is an exact rational ([Q]); NaN and the
      infinities of IEEE doubles are outside the model.  The service
      functions only store numbers or hand them to Firestore's [increment],
      and there the rounding of doubles is left out.  [handleSubmit] computes
      with [+], [*] and [Math.round], where the rounding of a double decides
      a whole number of credits: its arithmetic is binary64, operation by
      operation.
    - A JavaScript string is a [string] of 8-bit characters; [toLowerCase]
      acts on the ASCII letters only.
    - A Firestore document is a finite map from field names to values, a
      collection is a finite map from document ids to documents, and an object
      spread [{...a, ...b}] is the union of the two field maps in which [b]
      wins.
    - An [async] service function is a state-and-error computation over the
      database: it returns its outcome together with the database it leaves
      behind. *)

From Stdlib Require Import QArith Qround ZArith String Ascii List Bool Lqa.
From Stdlib Require Import SpecFloat.
From stdpp Require Import base strings gmap list fin_maps.

Open Scope string_scope.

(* ===================================================================== *)
(** ** The label matcher of [use-ewaste-scanner.ts]                      *)
(* ===================================================================== *)

Module Scanner.

(** One entry of [EWASTE_LABEL_MAP]: [{ category, slug }]. *)
Record MapValue := { value_category : string; value_slug : string }.

Definition smartphones := {| value_category := "Smartphones & Tablets"; value_slug := "smartphones" |}.
Definition laptops := {| value_category := "Laptops & Computers"; value_slug := "laptops" |}.
Definition displays := {| value_category := "TVs & Displays"; value_slug := "displays" |}.
Definition audio := {| value_category := "Audio & Wearables"; value_slug := "audio" |}.
Definition gaming := {| value_category := "Gaming Consoles"; value_slug := "gaming" |}.
Definition printers := {| value_category := "Printers & Scanners"; value_slug := "printers" |}.
Definition networking := {| value_category := "Networking Equipment"; value_slug := "networking" |}.
Definition kitchen := {| value_category := "Kitchen Appliances"; value_slug := "kitchen" |}.
Definition cables := {| value_category := "Cables & Chargers"; value_slug := "cables" |}.
Definition batteries := {| value_category := "Batteries"; value_slug := "batteries" |}.

(** [Object.entries(EWASTE_LABEL_MAP)]: no key is an integer index, so the
    entries come in the order in which the literal lists them. *)
Definition EWASTE_LABEL_MAP : list (string * MapValue) :=
  [ ("cellular_telephone", smartphones); ("cell_phone", smartphones);
    ("smartphone", smartphones); ("iPod", smartphones); ("tablet", smartphones);
    ("laptop", laptops); ("notebook", laptops); ("desktop_computer", laptops);
    ("monitor", laptops); ("screen", laptops); ("keyboard", laptops);
    ("mouse", laptops); ("computer_keyboard", laptops);
    ("television", displays); ("TV", displays); ("digital_clock", displays);
    ("headphone", audio); ("earphone", audio); ("speaker", audio);
    ("loudspeaker", audio); ("digital_watch", audio);
    ("joystick", gaming); ("remote_control", gaming);
    ("printer", printers);
    ("modem", networking); ("router", networking);
    ("microwave", kitchen); ("toaster", kitchen); ("coffee_maker", kitchen);
    ("electric_fan", kitchen); ("iron", kitchen); ("vacuum", kitchen);
    ("washer", kitchen); ("refrigerator", kitchen);
    ("power_cord", cables); ("plug", cables); ("adapter", cables);
    ("battery", batteries) ].

(** An element of the array returned by [activeModel.classify]. *)
Record Prediction := { className : string; probability : Q }.

(** [interface ScanResult]. *)
Record ScanResult := {
  label : string;
  confidence : Q;
  isEwaste : bool;
  category : option string;
  categorySlug : option string;
  allPredictions : list Prediction
}.

(** *** String primitives *)

Definition lower_ascii (c : ascii) : ascii :=
  let n := nat_of_ascii c in
  if Nat.leb 65 n && Nat.leb n 90 then ascii_of_nat (n + 32) else c.

(** [s.toLowerCase()]. *)
Fixpoint toLowerCase (s : string) : string :=
  match s with
  | EmptyString => EmptyString
  | String c s' => String (lower_ascii c) (toLowerCase s')
  end.

(** [s.replace(/[,_]/g, ' ')]. *)
Fixpoint replace_comma_underscore (s : string) : string :=
  match s with
  | EmptyString => EmptyString
  | String c s' =>
      String (if Ascii.eqb c "," || Ascii.eqb c "_" then " "%char else c)
             (replace_comma_underscore s')
  end.

(** [s.split(' ')]: the pieces between single spaces.  The empty string
    gives one empty piece, and two adjacent spaces give an empty piece
    between them. *)
Fixpoint split_space (s : string) : list string :=
  match s with
  | EmptyString => [EmptyString]
  | String c s' =>
      if Ascii.eqb c " " then EmptyString :: split_space s'
      else match split_space s' with
           | w :: ws => String c w :: ws
           | [] => [String c EmptyString]
           end
  end.

(** [s.includes(t)]: [t] occurs in [s] as a contiguous piece. *)
Fixpoint includes (s t : string) : bool :=
  if String.prefix t s then true
  else match s with
       | EmptyString => false
       | String _ s' => includes s' t
       end.

(** [pred.className.toLowerCase().replace(/[,_]/g, ' ').split(' ')]. *)
Definition words (name : string) : list string :=
  split_space (replace_comma_underscore (toLowerCase name)).

(** The test of the innermost [if]:
    [word.includes(key.toLowerCase()) || key.toLowerCase().includes(word)]. *)
Definition matches (word key : string) : bool :=
  includes word (toLowerCase key) || includes (toLowerCase key) word.

(** [x > 0.1] on numbers. *)
Definition above_threshold (p : Q) : bool := negb (Qle_bool p (1 # 10)).

(** *** The three nested loops

    Each loop is a search that stops at the first [return]; [None] means that
    the loop ran to its end. *)

Fixpoint scan_keys (predictions : list Prediction) (pred : Prediction)
    (word : string) (entries : list (string * MapValue)) : option ScanResult :=
  match entries with
  | [] => None
  | (key, value) :: rest =>
      if matches word key then
        if above_threshold (probability pred) then
          Some {| label := className pred;
                  confidence := probability pred;
                  isEwaste := true;
                  category := Some (value_category value);
                  categorySlug := Some (value_slug value);
                  allPredictions := predictions |}
        else scan_keys predictions pred word rest
      else scan_keys predictions pred word rest
  end.

Fixpoint scan_words (predictions : list Prediction) (pred : Prediction)
    (ws : list string) : option ScanResult :=
  match ws with
  | [] => None
  | word :: rest =>
      match scan_keys predictions pred word EWASTE_LABEL_MAP with
      | Some r => Some r
      | None => scan_words predictions pred rest
      end
  end.

Fixpoint scan_predictions (predictions : list Prediction)
    (todo : list Prediction) : option ScanResult :=
  match todo with
  | [] => None
  | pred :: rest =>
      match scan_words predictions pred (words (className pred)) with
      | Some r => Some r
      | None => scan_predictions predictions rest
      end
  end.

(** [predictions[0]?.className || 'Unknown']: the empty string is falsy. *)
Definition label_or_unknown (predictions : list Prediction) : string :=
  match predictions with
  | [] => "Unknown"
  | p :: _ => if String.eqb (className p) "" then "Unknown" else className p
  end.

(** [predictions[0]?.probability || 0]: the number zero is falsy. *)
Definition probability_or_zero (predictions : list Prediction) : Q :=
  match predictions with
  | [] => 0
  | p :: _ => if Qeq_bool (probability p) 0 then 0 else probability p
  end.

(** The initial value of [bestMatch]. *)
Definition bestMatch (predictions : list Prediction) : ScanResult :=
  {| label := label_or_unknown predictions;
     confidence := probability_or_zero predictions;
     isEwaste := false;
     category := None;
     categorySlug := None;
     allPredictions := predictions |}.

(** The body of [scanImage] from the point where [predictions] is known. *)
Definition scanImage (predictions : list Prediction) : ScanResult :=
  match scan_predictions predictions predictions with
  | Some r => r
  | None => bestMatch predictions
  end.

(** *** Predicates used to state the properties of the matcher *)

(** Some key of the map matches the word. *)
Definition word_hits (word : string) : bool :=
  existsb (fun entry => matches word (fst entry)) EWASTE_LABEL_MAP.

(** Some word of the prediction's label matches some key of the map. *)
Definition prediction_hits (pred : Prediction) : bool :=
  existsb word_hits (words (className pred)).

(** The prediction is above the 10% threshold and has a matching word. *)
Definition hits_above_threshold (pred : Prediction) : bool :=
  above_threshold (probability pred) && prediction_hits pred.

End Scanner.

(* ===================================================================== *)
(** ** The classifier as the specification words it                      *)
(* ===================================================================== *)

(** The specification calls the matcher [classify] and describes it in
    words: "normalize its label (lowercase; replace commas/underscores with
    spaces; split on whitespace into words)", then test every word against
    every key, predictions outer, words middle, keys inner, and apply the
    10% gate at the first hit.  The definitions of this module follow these
    words and not the code: a word is a maximal run of characters other
    than whitespace, so that no word is empty.  The matcher of [scanImage]
    is compared with them. *)
Module Classify.
Import Scanner.

(** Space, tab, line feed, vertical tab, form feed, carriage return. *)
Definition is_whitespace (c : ascii) : bool :=
  let n := nat_of_ascii c in
  Nat.eqb n 32 || (Nat.leb 9 n && Nat.leb n 13).

(** The pieces between whitespace characters, empty pieces included. *)
Fixpoint pieces (s : string) : list string :=
  match s with
  | EmptyString => [EmptyString]
  | String c s' =>
      if is_whitespace c then EmptyString :: pieces s'
      else match pieces s' with
           | w :: ws => String c w :: ws
           | [] => [String c EmptyString]
           end
  end.

Definition nonempty (w : string) : bool := negb (String.eqb w "").

(** "split on whitespace into words". *)
Definition split_whitespace (s : string) : list string :=
  List.filter nonempty (pieces s).

(** The normalized words of a label. *)
Definition normalized_words (name : string) : list string :=
  split_whitespace (replace_comma_underscore (toLowerCase name)).

(** The first key, in the order of the mapping, that the word matches by
    bidirectional substring containment. *)
Definition first_key (word : string) : option (string * MapValue) :=
  List.find (fun entry => matches word (fst entry)) EWASTE_LABEL_MAP.

(** The first word of the list that matches a key, with that key. *)
Fixpoint first_word (ws : list string) : option (string * (string * MapValue)) :=
  match ws with
  | [] => None
  | word :: rest =>
      match first_key word with
      | Some entry => Some (word, entry)
      | None => first_word rest
      end
  end.

(** "the first (prediction, word, key) hit in scan order (predictions
    outer, words middle, keys inner)", with the value mapped to the key. *)
Fixpoint first_hit (predictions : list Prediction)
    : option (Prediction * string * string * MapValue) :=
  match predictions with
  | [] => None
  | pred :: rest =>
      match first_word (normalized_words (className pred)) with
      | Some (word, (key, value)) => Some (pred, word, key, value)
      | None => first_hit rest
      end
  end.

(** "a mapping keyword matches a normalized word of a prediction with
    probability above the 0.10 threshold". *)
Definition hit_above_threshold (pred : Prediction) : bool :=
  above_threshold (probability pred)
  && existsb word_hits (normalized_words (className pred)).

(** The positive decision for a prediction and the value of the key it
    hit. *)
Definition positive (predictions : list Prediction) (pred : Prediction)
    (value : MapValue) : ScanResult :=
  {| label := className pred;
     confidence := probability pred;
     isEwaste := true;
     category := Some (value_category value);
     categorySlug := Some (value_slug value);
     allPredictions := predictions |}.

(** The negative decision: "the top-ranked prediction's label/probability
    (or a sentinel "Unknown"/0 if the list was empty)". *)
Definition negative (predictions : list Prediction) : ScanResult :=
  {| label := match predictions with [] => "Unknown" | top :: _ => className top end;
     confidence := match predictions with [] => 0%Q | top :: _ => probability top end;
     isEwaste := false;
     category := None;
     categorySlug := None;
     allPredictions := predictions |}.

(** The scan: a prediction whose first hit is at or below the threshold is
    passed over ("the probability gate is evaluated only at the moment of a
    keyword hit"), and the first prediction with a hit above it decides. *)
Fixpoint classify_from (predictions todo : list Prediction) : option ScanResult :=
  match todo with
  | [] => None
  | pred :: rest =>
      match first_word (normalized_words (className pred)) with
      | Some (_, (_, value)) =>
          if above_threshold (probability pred)
          then Some (positive predictions pred value)
          else classify_from predictions rest
      | None => classify_from predictions rest
      end
  end.

Definition classify (predictions : list Prediction) : ScanResult :=
  match classify_from predictions predictions with
  | Some r => r
  | None => negative predictions
  end.

(** Every whitespace character of the string is a space. *)
Fixpoint only_spaces (s : string) : bool :=
  match s with
  | EmptyString => true
  | String c s' => (negb (is_whitespace c) || Ascii.eqb c " ") && only_spaces s'
  end.

(** A label whose pieces in the code are its words: the normalized label
    has no whitespace but spaces, and [split(' ')] leaves no empty piece
    (no separator at either end, no two adjacent separators). *)
Definition clean_label (name : string) : bool :=
  only_spaces (replace_comma_underscore (toLowerCase name))
  && forallb nonempty (words name).

End Classify.

(* ===================================================================== *)
(** ** The Firestore capability used by [services.ts]                    *)
(* ===================================================================== *)

Module Firestore.

(** A template literal keeps its pieces: the decimal rendering of an
    interpolated number is not modelled. *)
Inductive Fragment :=
| Lit (s : string)
| Num (n : Q).

(** A stored field value. *)
#[warnings="-register-all"]
Inductive Value :=
| VNull
| VBool (b : bool)
| VNum (n : Q)
| VStr (s : string)
| VText (t : list Fragment)
| VTime (t : Z)
| VList (l : list Value)
| VMap (m : list (string * Value)).

(** A field of the object handed to [setDoc], [updateDoc], [addDoc] or a
    batch: a plain value or one of the sentinels [serverTimestamp()] and
    [increment(n)]. *)
Inductive Write :=
| WVal (v : Value)
| WServerTimestamp
| WIncrement (n : Q).

Abbreviation Doc := (gmap string Value).
Abbreviation Writes := (gmap string Write).
Abbreviation Docs := (gmap string (gmap string Value)).

(** The keys of [collections]. *)
Inductive Collection :=
| Profiles | Pickups | PickupItems | CreditTransactions | Notifications
| Achievements | EwasteCategories.

Record Database := {
  profiles : Docs;
  pickups : Docs;
  pickupItems : Docs;
  creditTransactions : Docs;
  notifications : Docs;
  achievements : Docs;
  ewasteCategories : Docs
}.

Definition emptyDatabase : Database :=
  {| profiles := ∅; pickups := ∅; pickupItems := ∅; creditTransactions := ∅;
     notifications := ∅; achievements := ∅; ewasteCategories := ∅ |}.

Definition coll (c : Collection) (db : Database) : Docs :=
  match c with
  | Profiles => profiles db
  | Pickups => pickups db
  | PickupItems => pickupItems db
  | CreditTransactions => creditTransactions db
  | Notifications => notifications db
  | Achievements => achievements db
  | EwasteCategories => ewasteCategories db
  end.

Definition set_coll (c : Collection) (m : Docs) (db : Database) : Database :=
  match c with
  | Profiles =>
      {| profiles := m; pickups := pickups db; pickupItems := pickupItems db;
         creditTransactions := creditTransactions db; notifications := notifications db;
         achievements := achievements db; ewasteCategories := ewasteCategories db |}
  | Pickups =>
      {| profiles := profiles db; pickups := m; pickupItems := pickupItems db;
         creditTransactions := creditTransactions db; notifications := notifications db;
         achievements := achievements db; ewasteCategories := ewasteCategories db |}
  | PickupItems =>
      {| profiles := profiles db; pickups := pickups db; pickupItems := m;
         creditTransactions := creditTransactions db; notifications := notifications db;
         achievements := achievements db; ewasteCategories := ewasteCategories db |}
  | CreditTransactions =>
      {| profiles := profiles db; pickups := pickups db; pickupItems := pickupItems db;
         creditTransactions := m; notifications := notifications db;
         achievements := achievements db; ewasteCategories := ewasteCategories db |}
  | Notifications =>
      {| profiles := profiles db; pickups := pickups db; pickupItems := pickupItems db;
         creditTransactions := creditTransactions db; notifications := m;
         achievements := achievements db; ewasteCategories := ewasteCategories db |}
  | Achievements =>
      {| profiles := profiles db; pickups := pickups db; pickupItems := pickupItems db;
         creditTransactions := creditTransactions db; notifications := notifications db;
         achievements := m; ewasteCategories := ewasteCategories db |}
  | EwasteCategories =>
      {| profiles := profiles db; pickups := pickups db; pickupItems := pickupItems db;
         creditTransactions := creditTransactions db; notifications := notifications db;
         achievements := achievements db; ewasteCategories := m |}
  end.

(** What a rejected promise carries. *)
Inductive Error :=
| PickupNotFound                              (* [new Error('Pickup not found')] *)
| NoDocumentToUpdate (c : Collection) (id : string)
                                              (* Firestore: update of a missing document *)
| BadDocument (field : string).               (* a field read through a cast has the wrong type *)

Inductive Result (A : Type) :=
| Ok (a : A)
| Err (e : Error).
Arguments Ok {A} a.
Arguments Err {A} e.

(** An asynchronous operation: its outcome and the database afterwards. *)
Definition M (A : Type) : Type := Database -> Result A * Database.

Definition ret {A} (a : A) : M A := fun db => (Ok a, db).

Definition throw {A} (e : Error) : M A := fun db => (Err e, db).

Definition bind {A B} (m : M A) (k : A -> M B) : M B :=
  fun db =>
    match m db with
    | (Ok a, db') => k a db'
    | (Err e, db') => (Err e, db')
    end.

Notation "x <- m ;; k" := (bind m (fun x => k))
  (at level 90, m at next level, right associativity).
Notation "m ;;; k" := (bind m (fun _ => k))
  (at level 90, right associativity).

(** The value a written field takes, given the field's previous value.
    [increment(n)] adds to a number and replaces anything else. *)
Definition resolve (now : Z) (w : Write) (old : option Value) : Value :=
  match w with
  | WVal v => v
  | WServerTimestamp => VTime now
  | WIncrement n =>
      match old with
      | Some (VNum x) => VNum (x + n)
      | _ => VNum n
      end
  end.

(** The document written by [set]: only the listed fields. *)
Definition fresh_doc (now : Z) (w : Writes) : Doc :=
  (fun x => resolve now x None) <$> w.

(** The document left by [update]: listed fields replaced, the rest kept. *)
Definition apply_writes (now : Z) (w : Writes) (d : Doc) : Doc :=
  merge (fun ow ov =>
           match ow with
           | Some x => Some (resolve now x ov)
           | None => ov
           end) w d.

(** [getDoc(doc(c, id))]: [None] when [snapshot.exists()] is false. *)
Definition getDoc (c : Collection) (id : string) : M (option Doc) :=
  fun db => (Ok (coll c db !! id), db).

(** [doc(c)] without a path: a new document id, not yet used in [c]. *)
Definition newDoc (c : Collection) : M string :=
  fun db => (Ok (fresh (dom (coll c db))), db).

(** [setDoc(doc(c, id), w)] and [batch.set]. *)
Definition setDoc (now : Z) (c : Collection) (id : string) (w : Writes) : M unit :=
  fun db => (Ok tt, set_coll c (<[id := fresh_doc now w]> (coll c db)) db).

(** [updateDoc(doc(c, id), w)] and [batch.update]: the document must exist. *)
Definition updateDoc (now : Z) (c : Collection) (id : string) (w : Writes) : M unit :=
  fun db =>
    match coll c db !! id with
    | Some d => (Ok tt, set_coll c (<[id := apply_writes now w d]> (coll c db)) db)
    | None => (Err (NoDocumentToUpdate c id), db)
    end.

(** [addDoc(c, w)]: a set under a new id, which is returned. *)
Definition addDoc (now : Z) (c : Collection) (w : Writes) : M string :=
  id <- newDoc c ;;
  setDoc now c id w ;;;
  ret id.

(** [writeBatch(db)] ... [batch.commit()]: the queued writes are applied
    together, and when one of them is refused none is applied. *)
Definition commit (batch : M unit) : M unit :=
  fun db =>
    match batch db with
    | (Ok u, db') => (Ok u, db')
    | (Err e, _) => (Err e, db)
    end.

(** An object literal: later fields win over earlier ones with the same name. *)
Definition obj {V} (fields : list (string * V)) : gmap string V :=
  list_to_map (rev fields).

(** [{...a, ...b}]. *)
Definition spread {V} (a b : gmap string V) : gmap string V := b ∪ a.

(** Plain field values as writes. *)
Definition plain (d : Doc) : Writes := WVal <$> d.

(** *** Pre- and postconditions of operations

    From a database that satisfies [P], the operation either returns a value
    [a] and leaves a database that satisfies [Q a], or is refused and leaves a
    database that satisfies [E]. *)
Definition triple {A} (P : Database -> Prop) (m : M A)
    (Q : A -> Database -> Prop) (E : Database -> Prop) : Prop :=
  forall db, P db ->
    match m db with
    | (Ok a, db') => Q a db'
    | (Err _, db') => E db'
    end.

(** The operation keeps the invariant [I], whatever its outcome. *)
Definition keeps {A} (I : Database -> Prop) (m : M A) : Prop :=
  triple I m (fun _ => I) I.

End Firestore.

(* ===================================================================== *)
(** ** The service functions of [services.ts]                            *)
(* ===================================================================== *)

Module Services.
Import Firestore.

(** The two clocks a call reads: the commit time behind [serverTimestamp()]
    and the client's [new Date().toISOString()]. *)
Record Clock := { serverTimestamp : Z; toISOString : string }.

(** *** Profiles *)

Definition createProfile (clock : Clock) (userId : string) (data : Doc) : M Doc :=
  let profileData : Doc :=
    spread
      (obj [ ("id", VStr userId);
             ("role", VStr "donor");
             ("greenCredits", VNum 0);
             ("totalItemsRecycled", VNum 0);
             ("totalWeightKg", VNum 0);
             ("co2SavedKg", VNum 0);
             ("streakDays", VNum 0);
             ("badgeLevel", VStr "seedling");
             ("isVerified", VBool false);
             ("createdAt", VStr (toISOString clock));
             ("updatedAt", VStr (toISOString clock)) ])
      data in
  setDoc (serverTimestamp clock) Profiles userId (plain profileData) ;;;
  ret profileData.

Definition updateProfile (clock : Clock) (userId : string) (data : Doc) : M unit :=
  updateDoc (serverTimestamp clock) Profiles userId
    (plain (spread data (obj [ ("updatedAt", VStr (toISOString clock)) ]))).

(** *** Pickups *)

Definition createPickup (clock : Clock) (data : Doc) : M string :=
  addDoc (serverTimestamp clock) Pickups
    (spread (plain data)
       (obj [ ("createdAt", WServerTimestamp); ("updatedAt", WServerTimestamp) ])).

(** The object [updateData] of [updatePickupStatus], after its four [if]s. *)
Definition statusUpdate (status : string) : Writes :=
  let updateData : Writes :=
    obj [ ("status", WVal (VStr status)); ("updatedAt", WServerTimestamp) ] in
  let updateData :=
    if String.eqb status "matched"
    then <["matchedAt" := WServerTimestamp]> updateData else updateData in
  let updateData :=
    if String.eqb status "collected"
    then <["collectedAt" := WServerTimestamp]> updateData else updateData in
  let updateData :=
    if String.eqb status "completed"
    then <["completedAt" := WServerTimestamp]> updateData else updateData in
  let updateData :=
    if String.eqb status "cancelled"
    then <["cancelledAt" := WServerTimestamp]> updateData else updateData in
  updateData.

(** [additionalData] is optional; spreading [undefined] adds nothing. *)
Definition updatePickupStatus (clock : Clock) (pickupId status : string)
    (additionalData : option Writes) : M unit :=
  updateDoc (serverTimestamp clock) Pickups pickupId
    (spread (statusUpdate status) (default ∅ additionalData)).

Definition acceptPickup (clock : Clock) (pickupId collectorId : string) : M unit :=
  updateDoc (serverTimestamp clock) Pickups pickupId
    (obj [ ("collectorId", WVal (VStr collectorId));
           ("status", WVal (VStr "matched"));
           ("matchedAt", WServerTimestamp);
           ("updatedAt", WServerTimestamp) ]).

(** *** Pickup items *)

(** The body of [items.forEach] in [addPickupItems]. *)
Fixpoint addPickupItems_loop (now : Z) (pickupId : string) (items : list Doc) : M unit :=
  match items with
  | [] => ret tt
  | item :: rest =>
      itemRef <- newDoc PickupItems ;;
      setDoc now PickupItems itemRef
        (spread (plain item)
           (obj [ ("pickupId", WVal (VStr pickupId)); ("createdAt", WServerTimestamp) ])) ;;;
      addPickupItems_loop now pickupId rest
  end.

Definition addPickupItems (clock : Clock) (pickupId : string) (items : list Doc) : M unit :=
  commit (addPickupItems_loop (serverTimestamp clock) pickupId items).

(** *** Credit transactions *)

Definition addCreditTransaction (clock : Clock) (data : Doc) : M string :=
  addDoc (serverTimestamp clock) CreditTransactions
    (spread (plain data) (obj [ ("createdAt", WServerTimestamp) ])).

(** *** Notifications *)

Definition createNotification (clock : Clock) (data : Doc) : M string :=
  addDoc (serverTimestamp clock) Notifications
    (spread (plain data)
       (obj [ ("isRead", WVal (VBool false)); ("createdAt", WServerTimestamp) ])).

Definition markNotificationAsRead (clock : Clock) (notificationId : string) : M unit :=
  updateDoc (serverTimestamp clock) Notifications notificationId
    (obj [ ("isRead", WVal (VBool true)) ]).

(** *** Business logic *)

(** [pickup.donorId] and [pickup.totalItems] are read through the cast
    [pickupSnap.data() as PickupRequest]; a stored document without a string
    [donorId] or a numeric [totalItems] is outside that type and the call is
    refused. *)
Definition read_string (d : Doc) (field : string) : M string :=
  match d !! field with
  | Some (VStr s) => ret s
  | _ => throw (BadDocument field)
  end.

Definition read_number (d : Doc) (field : string) : M Q :=
  match d !! field with
  | Some (VNum n) => ret n
  | _ => throw (BadDocument field)
  end.

(** The four objects written by [completePickupAndAwardCredits].  The
    literals of the description and of the title are taken byte for byte
    from the source file. *)

Definition completedPickup (actualWeightKg actualCredits : Q) : Writes :=
  obj [ ("status", WVal (VStr "completed"));
        ("actualWeightKg", WVal (VNum actualWeightKg));
        ("actualCreditsAwarded", WVal (VNum actualCredits));
        ("completedAt", WServerTimestamp);
        ("updatedAt", WServerTimestamp) ].

Definition donorIncrements (clock : Clock) (totalItems actualWeightKg actualCredits : Q)
    : Writes :=
  obj [ ("greenCredits", WIncrement actualCredits);
        ("totalItemsRecycled", WIncrement totalItems);
        ("totalWeightKg", WIncrement actualWeightKg);
        ("co2SavedKg", WIncrement (actualWeightKg * (3 # 2)));
        ("lastActivityAt", WVal (VStr (toISOString clock)));
        ("updatedAt", WServerTimestamp) ].

Definition creditTransaction (donorId pickupId : string)
    (actualWeightKg actualCredits : Q) : Writes :=
  obj [ ("userId", WVal (VStr donorId));
        ("amount", WVal (VNum actualCredits));
        ("type", WVal (VStr "pickup_completed"));
        ("description",
         WVal (VText [ Lit "Pickup #"; Lit (substring 0 8 pickupId);
                       Lit " completed â€” "; Num actualWeightKg;
                       Lit "kg recycled" ]));
        ("referenceId", WVal (VStr pickupId));
        ("createdAt", WServerTimestamp) ].

Definition creditNotification (donorId pickupId : string)
    (actualWeightKg actualCredits : Q) : Writes :=
  obj [ ("userId", WVal (VStr donorId));
        ("title", WVal (VStr "ðŸŒ¿ Credits Earned!"));
        ("body",
         WVal (VText [ Lit "You earned "; Num actualCredits;
                       Lit " Green Credits for recycling ";
                       Num actualWeightKg; Lit "kg of e-waste!" ]));
        ("type", WVal (VStr "credit_earned"));
        ("data", WVal (VMap [ ("amount", VNum actualCredits);
                              ("pickupId", VStr pickupId) ]));
        ("createdAt", WServerTimestamp) ].

Definition completePickupAndAwardCredits (clock : Clock) (pickupId : string)
    (actualWeightKg actualCredits : Q) : M unit :=
  let now := serverTimestamp clock in
  (* Get pickup data *)
  pickupSnap <- getDoc Pickups pickupId ;;
  match pickupSnap with
  | None => throw PickupNotFound
  | Some pickup =>
      donorId <- read_string pickup "donorId" ;;
      totalItems <- read_number pickup "totalItems" ;;
      commit (
        (* Update pickup *)
        updateDoc now Pickups pickupId
          (completedPickup actualWeightKg actualCredits) ;;;
        (* Update donor profile *)
        updateDoc now Profiles donorId
          (donorIncrements clock totalItems actualWeightKg actualCredits) ;;;
        (* Add credit transaction *)
        txRef <- newDoc CreditTransactions ;;
        setDoc now CreditTransactions txRef
          (creditTransaction donorId pickupId actualWeightKg actualCredits) ;;;
        (* Create notification *)
        notifRef <- newDoc Notifications ;;
        setDoc now Notifications notifRef
          (creditNotification donorId pickupId actualWeightKg actualCredits))
  end.

(** *** Seeding *)

Definition achievement (slug name description iconName requirementType : string)
    (requirementValue creditReward : Q) : Writes :=
  obj [ ("slug", WVal (VStr slug)); ("name", WVal (VStr name));
        ("description", WVal (VStr description)); ("iconName", WVal (VStr iconName));
        ("requirementType", WVal (VStr requirementType));
        ("requirementValue", WVal (VNum requirementValue));
        ("creditReward", WVal (VNum creditReward)) ].

Definition seed_achievements : list Writes :=
  [ achievement "first_drop" "First Drop" "Complete your first pickup" "Leaf" "pickups" 1 50;
    achievement "eco_starter" "Eco Starter" "Recycle 5 items" "Sprout" "items_recycled" 5 100;
    achievement "green_warrior" "Green Warrior" "Recycle 25 items" "TreePine" "items_recycled" 25 250;
    achievement "weight_lifter" "Weight Lifter" "Recycle 10kg of e-waste" "Dumbbell" "weight_kg" 10 200;
    achievement "streak_3" "On a Roll" "3-day activity streak" "Flame" "streak" 3 75;
    achievement "streak_7" "Week Warrior" "7-day activity streak" "Zap" "streak" 7 150;
    achievement "century" "Century Club" "Recycle 100 items" "Trophy" "items_recycled" 100 500;
    achievement "half_ton" "Half Ton Hero" "Recycle 500kg of e-waste" "Medal" "weight_kg" 500 1000 ].

Fixpoint seedAchievements_loop (now : Z) (todo : list Writes) : M unit :=
  match todo with
  | [] => ret tt
  | a :: rest =>
      achievementRef <- newDoc Achievements ;;
      setDoc now Achievements achievementRef a ;;;
      seedAchievements_loop now rest
  end.

Definition seedAchievements (clock : Clock) : M unit :=
  commit (seedAchievements_loop (serverTimestamp clock) seed_achievements).

Definition ewasteCategory (name slug description iconName : string)
    (avgWeightKg greenCreditsPerKg co2SavedPerKg : Q) (hazardLevel : string)
    (estimatedValuePerKg : Q) : string * Writes :=
  (slug,
   obj [ ("name", WVal (VStr name)); ("slug", WVal (VStr slug));
         ("description", WVal (VStr description)); ("iconName", WVal (VStr iconName));
         ("avgWeightKg", WVal (VNum avgWeightKg));
         ("greenCreditsPerKg", WVal (VNum greenCreditsPerKg));
         ("co2SavedPerKg", WVal (VNum co2SavedPerKg));
         ("hazardLevel", WVal (VStr hazardLevel));
         ("estimatedValuePerKg", WVal (VNum estimatedValuePerKg)) ]).

Definition seed_categories : list (string * Writes) :=
  [ ewasteCategory "Smartphones & Tablets" "smartphones" "Mobile phones, tablets, e-readers" "Smartphone" (2 # 10) 25 (25 # 10) "medium" 15;
    ewasteCategory "Laptops & Computers" "laptops" "Laptops, desktops, monitors" "Laptop" 3 30 3 "medium" 12;
    ewasteCategory "Batteries" "batteries" "Li-ion, NiMH, Lead-acid batteries" "Battery" (5 # 10) 40 4 "critical" 8;
    ewasteCategory "Cables & Chargers" "cables" "USB cables, power adapters, chargers" "Cable" (3 # 10) 10 1 "low" 5;
    ewasteCategory "TVs & Displays" "displays" "LED/LCD TVs, monitors, projectors" "Monitor" 8 20 2 "high" 6;
    ewasteCategory "Printers & Scanners" "printers" "Inkjet, laser printers, scanners" "Printer" 5 15 (15 # 10) "medium" 4;
    ewasteCategory "Kitchen Appliances" "kitchen" "Microwaves, toasters, blenders" "UtensilsCrossed" 4 12 (12 # 10) "low" 3;
    ewasteCategory "Audio & Wearables" "audio" "Headphones, speakers, smartwatches" "Headphones" (3 # 10) 20 2 "low" 10;
    ewasteCategory "Gaming Consoles" "gaming" "Consoles, controllers, VR headsets" "Gamepad2" (25 # 10) 25 (25 # 10) "low" 8;
    ewasteCategory "Networking Equipment" "networking" "Routers, modems, switches" "Wifi" 1 15 (15 # 10) "low" 6 ].

Fixpoint seedEwasteCategories_loop (now : Z) (todo : list (string * Writes)) : M unit :=
  match todo with
  | [] => ret tt
  | (slug, c) :: rest =>
      setDoc now EwasteCategories slug c ;;;
      seedEwasteCategories_loop now rest
  end.

Definition seedEwasteCategories (clock : Clock) : M unit :=
  commit (seedEwasteCategories_loop (serverTimestamp clock) seed_categories).

(** *** The writing entry points of the module, as one type *)

Inductive Call :=
| CreateProfile (userId : string) (data : Doc)
| UpdateProfile (userId : string) (data : Doc)
| CreatePickup (data : Doc)
| UpdatePickupStatus (pickupId status : string) (additionalData : option Writes)
| AddPickupItems (pickupId : string) (items : list Doc)
| AddCreditTransaction (data : Doc)
| CreateNotification (data : Doc)
| MarkNotificationAsRead (notificationId : string)
| SeedAchievements
| SeedEwasteCategories
| CompletePickupAndAwardCredits (pickupId : string) (actualWeightKg actualCredits : Q)
| AcceptPickup (pickupId collectorId : string).

Definition ignore {A} (m : M A) : M unit := _ <- m ;; ret tt.

Definition call (clock : Clock) (c : Call) : M unit :=
  match c with
  | CreateProfile userId data => ignore (createProfile clock userId data)
  | UpdateProfile userId data => updateProfile clock userId data
  | CreatePickup data => ignore (createPickup clock data)
  | UpdatePickupStatus pickupId status additionalData =>
      updatePickupStatus clock pickupId status additionalData
  | AddPickupItems pickupId items => addPickupItems clock pickupId items
  | AddCreditTransaction data => ignore (addCreditTransaction clock data)
  | CreateNotification data => ignore (createNotification clock data)
  | MarkNotificationAsRead notificationId => markNotificationAsRead clock notificationId
  | SeedAchievements => seedAchievements clock
  | SeedEwasteCategories => seedEwasteCategories clock
  | CompletePickupAndAwardCredits pickupId actualWeightKg actualCredits =>
      completePickupAndAwardCredits clock pickupId actualWeightKg actualCredits
  | AcceptPickup pickupId collectorId => acceptPickup clock pickupId collectorId
  end.

(** The calls other than [createProfile], [updateProfile] and
    [markNotificationAsRead]. *)
Definition common_call (c : Call) : Prop :=
  match c with
  | CreateProfile _ _ | UpdateProfile _ _ | MarkNotificationAsRead _ => False
  | _ => True
  end.

(** [createProfile] with zero baselines: the caller's [data] overrides none
    of the counters and not the badge. *)
Definition zero_baselines (data : Doc) : Prop :=
  data !! "greenCredits" = None
  /\ data !! "totalItemsRecycled" = None
  /\ data !! "totalWeightKg" = None
  /\ data !! "co2SavedKg" = None
  /\ data !! "streakDays" = None
  /\ data !! "badgeLevel" = None.

(** The calls through which a profile evolves: creation with zero baselines
    and everything else except the free-form [updateProfile]. *)
Definition public_step (c : Call) : Prop :=
  match c with
  | CreateProfile _ data => zero_baselines data
  | UpdateProfile _ _ => False
  | _ => True
  end.

(** The database after a call, whether it succeeded or was refused. *)
Definition after (clock : Clock) (c : Call) (db : Database) : Database :=
  snd (call clock c db).

(** The database after a sequence of calls. *)
Definition after_all (clock : Clock) (cs : list Call) (db : Database) : Database :=
  fold_left (fun db c => after clock c db) cs db.

(** The databases reached from the empty one by such calls. *)
Inductive reachable : Database -> Prop :=
| reachable_empty : reachable emptyDatabase
| reachable_step (clock : Clock) (c : Call) (db : Database) :
    reachable db -> public_step c -> reachable (after clock c db).

(** *** Reads *)


(** [snapshot.exists() ? { id: snapshot.id, ...snapshot.data() } : null]. *)
Definition getPickup (pickupId : string) : M (option Doc) :=
  snapshot <- getDoc Pickups pickupId ;;
  ret (match snapshot with
       | Some data => Some (spread (obj [ ("id", VStr pickupId) ]) data)
       | None => None
       end).

(** *** The ledger against the balance *)

(** What a credit transaction contributes to the ledger of [userId]. *)
Definition amount_for (userId : string) (tx : Doc) : Q :=
  match tx !! "userId", tx !! "amount" with
  | Some (VStr u), Some (VNum a) => if String.eqb u userId then a else 0
  | _, _ => 0
  end.

(** The sum of the amounts of the credit transactions of [userId]. *)
Definition ledger_total (userId : string) (txs : Docs) : Q :=
  map_fold (fun _ tx acc => amount_for userId tx + acc)%Q 0%Q txs.

(** The stored balance of [userId]; 0 without a profile or a number. *)
Definition balance (userId : string) (db : Database) : Q :=
  match profiles db !! userId ≫= (.!! "greenCredits") with
  | Some (VNum g) => g
  | _ => 0
  end.

(** Every balance is the sum of the user's ledger entries. *)
Definition reconciled (db : Database) : Prop :=
  forall userId, (balance userId db == ledger_total userId (creditTransactions db))%Q.

(** The calls that keep the ledger and the balances together: a profile is
    created with zero baselines for a user who has none, [updateProfile]
    leaves [greenCredits] alone, and no ledger entry is written by hand. *)
Definition ledger_step (db : Database) (c : Call) : Prop :=
  match c with
  | CreateProfile userId data => zero_baselines data /\ profiles db !! userId = None
  | UpdateProfile _ data => data !! "greenCredits" = None
  | AddCreditTransaction _ => False
  | _ => True
  end.

Inductive ledger_reachable : Database -> Prop :=
| ledger_reachable_empty : ledger_reachable emptyDatabase
| ledger_reachable_step (clock : Clock) (c : Call) (db : Database) :
    ledger_reachable db -> ledger_step db c -> ledger_reachable (after clock c db).

End Services.

(* ===================================================================== *)
(** ** Binary64 arithmetic                                               *)
(* ===================================================================== *)

(** The doubles and their operations are those of the Standard Library's
    specification of IEEE 754 arithmetic, at precision 53 and maximal
    exponent 1024: every operation returns the double nearest to the exact
    result, ties going to the even mantissa. *)
Module Binary64.

Definition prec : Z := 53.
Definition emax : Z := 1024.

(** The number [0]. *)
Definition zero : spec_float := S754_zero false.

(** [x + y] and [x * y] on doubles. *)
Definition add (x y : spec_float) : spec_float := SFadd prec emax x y.

Definition mul (x y : spec_float) : spec_float := SFmul prec emax x y.

(** The double that stands for a number: the number itself when it is a
    double, and the double nearest to it otherwise, as for a numeric literal
    ([0.2] is the double nearest to 2/10).  It is the correctly rounded
    quotient of the numerator by the denominator. *)
Definition of_number (q : Q) : spec_float :=
  match Qnum q with
  | Z0 => zero
  | Zpos n => SFdiv prec emax (S754_finite false n 0) (S754_finite false (Qden q) 0)
  | Zneg n => SFdiv prec emax (S754_finite true n 0) (S754_finite false (Qden q) 0)
  end.

(** The number that a finite double is: mantissa times two to the exponent,
    in lowest terms.  NaN and the infinities are no numbers. *)
Definition to_number (x : spec_float) : option Q :=
  match x with
  | S754_zero _ => Some 0%Q
  | S754_finite s m e =>
      let n := if s then Zneg m else Zpos m in
      Some (Qred match e with
                 | Z0 => n # 1
                 | Zpos p => (n * 2 ^ Zpos p) # 1
                 | Zneg p => n # (2 ^ p)
                 end)
  | S754_infinity _ | S754_nan => None
  end.

End Binary64.

(* ===================================================================== *)
(** ** [handleSubmit] of the pickup form                                 *)
(* ===================================================================== *)

Module PickupForm.
Import Firestore Services Binary64.

(** An element of [formData.items].  The arithmetic of [handleSubmit] reads
    [quantity] and [estimatedWeight] as doubles ([Binary64.of_number]). *)
Record FormItem := {
  categoryId : string;
  categoryName : string;
  quantity : Q;
  condition : string;
  estimatedWeight : Q
}.

Record Location := {
  address : string; city : string; state : string; zip : string;
  lat : Q; lng : Q; instructions : string
}.

Inductive TimeSlot := morning | afternoon | evening.

Definition timeSlot_name (t : TimeSlot) : string :=
  match t with
  | morning => "morning"
  | afternoon => "afternoon"
  | evening => "evening"
  end.

Record Schedule := { date : string; timeSlot : TimeSlot }.

Record FormData := {
  items : list FormItem;
  location : Location;
  schedule : Schedule
}.

(** The nearest integer to an exact number, a half rounding up. *)
Definition round_half_up (x : Q) : Z := Qfloor (x + (1 # 2)).

(** [Math.round] on a double.  The nearest integer to a finite double, a
    half rounding up, is a double itself (it is below 2^53 in size, or it is
    the argument), so that it is computed on the exact value of the argument
    without further rounding.  NaN and the infinities, which [Math.round]
    returns as they are, have no whole value. *)
Definition Math_round (x : spec_float) : option Z :=
  option_map round_half_up (to_number x).

(** [formData.items.reduce((s, i) => s + i.estimatedWeight * i.quantity, 0)]. *)
Definition totalWeight (l : list FormItem) : spec_float :=
  fold_left
    (fun s i => add s (mul (of_number (estimatedWeight i)) (of_number (quantity i))))
    l zero.

(** [formData.items.reduce((s, i) => s + i.quantity, 0)]. *)
Definition totalItems (l : list FormItem) : spec_float :=
  fold_left (fun s i => add s (of_number (quantity i))) l zero.

(** [Math.round(totalWeight * 20)]. *)
Definition estimatedCredits (l : list FormItem) : option Z :=
  Math_round (mul (totalWeight l) (of_number 20)).

(** The stored value of a double and of a rounded double.  A total that
    overflows is not among the numbers of the model; its field is left
    [VNull], and nothing is stated about it. *)
Definition number (x : spec_float) : Value :=
  match to_number x with
  | Some q => VNum q
  | None => VNull
  end.

Definition whole_number (z : option Z) : Value :=
  match z with
  | Some z => VNum (inject_Z z)
  | None => VNull
  end.

(** The sum of a list of doubles, added one by one from the left to [0]:
    used to state what the two [reduce] calls compute. *)
Definition double_sum (l : list spec_float) : spec_float := fold_left add l zero.

(** The object handed to [createPickup]. *)
Definition pickupData (userId : string) (formData : FormData) : Doc :=
  obj [ ("donorId", VStr userId);
        ("collectorId", VNull);
        ("pickupAddress", VStr (address (location formData)));
        ("pickupCity", VStr (city (location formData)));
        ("pickupState", VStr (state (location formData)));
        ("pickupZip", VStr (zip (location formData)));
        ("pickupLatitude", VNum (lat (location formData)));
        ("pickupLongitude", VNum (lng (location formData)));
        ("pickupInstructions", VStr (instructions (location formData)));
        ("preferredDate", VStr (date (schedule formData)));
        ("preferredTimeSlot", VStr (timeSlot_name (timeSlot (schedule formData))));
        ("status", VStr "pending");
        ("totalItems", number (totalItems (items formData)));
        ("estimatedWeightKg", number (totalWeight (items formData)));
        ("actualWeightKg", VNull);
        ("estimatedCredits", whole_number (estimatedCredits (items formData)));
        ("actualCreditsAwarded", VNull);
        ("aiScanResults", VNull);
        ("itemPhotos", VList []);
        ("donorRating", VNull);
        ("collectorRating", VNull);
        ("matchedAt", VNull);
        ("collectedAt", VNull);
        ("completedAt", VNull) ].

(** The object built for one item by [formData.items.map]. *)
Definition itemData (item : FormItem) : Doc :=
  obj [ ("categoryId", VStr (categoryId item));
        ("description", VNull);
        ("quantity", VNum (quantity item));
        ("condition", VStr (condition item));
        ("estimatedWeightKg",
         number (mul (of_number (estimatedWeight item)) (of_number (quantity item))));
        ("actualWeightKg", VNull);
        ("photoUrl", VNull);
        ("aiDetectedLabel", VNull);
        ("aiConfidence", VNull);
        ("creditsEarned", VNum 0) ].

(** The [try] block of [handleSubmit].  [Ok newPickupId] stands for the
    success toast and [Err] for the error toast of the [catch]; the two
    writes are two separate commits, each with its own clock reading. *)
Definition handleSubmit (clockPickup clockItems : Clock) (userId : string)
    (formData : FormData) : M string :=
  newPickupId <- createPickup clockPickup (pickupData userId formData) ;;
  addPickupItems clockItems newPickupId (map itemData (items formData)) ;;;
  ret newPickupId.

End PickupForm.

(* ===================================================================== *)
(** ** Badge tiers                                                       *)
(* ===================================================================== *)

Module Badges.

(** [type BadgeLevel] of [database.ts]. *)
Inductive BadgeLevel := seedling | sprout | tree | forest | earth_guardian.

Definition badge_name (b : BadgeLevel) : string :=
  match b with
  | seedling => "seedling"
  | sprout => "sprout"
  | tree => "tree"
  | forest => "forest"
  | earth_guardian => "earth_guardian"
  end.

(** Modelled from the spec: the table [badgeLevelConfig] of
    [@/lib/data/categories] is not among the sources.  The spec describes it
    as a fixed ascending table of thresholds for five tiers, without gap or
    overlap; the four thresholds at which a tier begins are left open here. *)
Record BadgeTable := {
  sprout_from : Q;
  tree_from : Q;
  forest_from : Q;
  earth_guardian_from : Q
}.

Definition ascending (t : BadgeTable) : Prop :=
  (sprout_from t < tree_from t /\ tree_from t < forest_from t
   /\ forest_from t < earth_guardian_from t)%Q.

(** Modelled from the spec: the tier whose range contains a balance. *)
Definition tier (t : BadgeTable) (greenCredits : Q) : BadgeLevel :=
  if Qle_bool (earth_guardian_from t) greenCredits then earth_guardian
  else if Qle_bool (forest_from t) greenCredits then forest
  else if Qle_bool (tree_from t) greenCredits then tree
  else if Qle_bool (sprout_from t) greenCredits then sprout
  else seedling.

(** The stored [badgeLevel] of every profile is the tier of its stored
    [greenCredits]. *)
Definition badge_matches (t : BadgeTable) (db : Firestore.Database) : Prop :=
  forall (userId : string) (profile : gmap string Firestore.Value) (g : Q),
    Firestore.profiles db !! userId = Some profile ->
    profile !! "greenCredits" = Some (Firestore.VNum g) ->
    profile !! "badgeLevel" = Some (Firestore.VStr (badge_name (tier t g))).

(** Every stored profile carries the badge 'seedling'. *)
Definition all_seedlings (db : Firestore.Database) : Prop :=
  forall (userId : string) (profile : gmap string Firestore.Value),
    Firestore.profiles db !! userId = Some profile ->
    profile !! "badgeLevel" = Some (Firestore.VStr "seedling").

End Badges.

(* ===================================================================== *)
(** ** The client-side store ([useAppStore])                             *)
(* ===================================================================== *)

Module AppStore.

(** [type UserRole] of [database.ts]. *)
Inductive UserRole := donor | collector | admin.

(** [interface Profile] of [database.ts]. *)
Record Profile := {
  profile_id : string;
  email : string;
  fullName : string;
  avatarUrl : option string;
  phone : option string;
  role : UserRole;
  greenCredits : Q;
  totalItemsRecycled : Q;
  totalWeightKg : Q;
  co2SavedKg : Q;
  streakDays : Q;
  badgeLevel : Badges.BadgeLevel;
  addressLine1 : option string;
  profile_city : option string;
  profile_state : option string;
  latitude : option Q;
  longitude : option Q;
  isVerified : bool;
  profile_createdAt : string;
  profile_updatedAt : string
}.

(** [interface Notification] of [database.ts]. *)
Record Notification := {
  id : string;
  userId : string;
  title : string;
  body : string;
  type : string;
  data : Firestore.Value;
  isRead : bool;
  createdAt : string
}.

(** The data fields of [interface AppState]. *)
Record AppState := {
  profile : option Profile;
  notifications : list Notification;
  unreadCount : Z;
  isOnline : bool
}.

(** The initial state passed to [create]. *)
Definition initial : AppState :=
  {| profile := None; notifications := []; unreadCount := 0; isOnline := true |}.

Definition setProfile (p : option Profile) (state : AppState) : AppState :=
  {| profile := p;
     notifications := notifications state;
     unreadCount := unreadCount state;
     isOnline := isOnline state |}.

(** [{ ...state.profile, greenCredits: state.profile.greenCredits + amount }]. *)
Definition with_credits (p : Profile) (credits : Q) : Profile :=
  {| profile_id := profile_id p; email := email p; fullName := fullName p;
     avatarUrl := avatarUrl p; phone := phone p; role := role p;
     greenCredits := credits;
     totalItemsRecycled := totalItemsRecycled p; totalWeightKg := totalWeightKg p;
     co2SavedKg := co2SavedKg p; streakDays := streakDays p;
     badgeLevel := badgeLevel p; addressLine1 := addressLine1 p;
     profile_city := profile_city p; profile_state := profile_state p;
     latitude := latitude p; longitude := longitude p; isVerified := isVerified p;
     profile_createdAt := profile_createdAt p; profile_updatedAt := profile_updatedAt p |}.

Definition updateCredits (amount : Q) (state : AppState) : AppState :=
  {| profile :=
       match profile state with
       | Some p => Some (with_credits p (greenCredits p + amount))
       | None => None
       end;
     notifications := notifications state;
     unreadCount := unreadCount state;
     isOnline := isOnline state |}.

Definition setNotifications (ns : list Notification) (state : AppState) : AppState :=
  {| profile := profile state;
     notifications := ns;
     unreadCount := Z.of_nat (length (List.filter (fun n => negb (isRead n)) ns));
     isOnline := isOnline state |}.

Definition addNotification (n : Notification) (state : AppState) : AppState :=
  {| profile := profile state;
     notifications := n :: notifications state;
     unreadCount := unreadCount state + 1;
     isOnline := isOnline state |}.

(** [{ ...n, isRead: true }]. *)
Definition read (n : Notification) : Notification :=
  {| id := id n; userId := userId n; title := title n; body := body n;
     type := type n; data := data n; isRead := true; createdAt := createdAt n |}.

Definition markAsRead (notificationId : string) (state : AppState) : AppState :=
  {| profile := profile state;
     notifications :=
       map (fun n => if String.eqb (id n) notificationId then read n else n)
         (notifications state);
     unreadCount := Z.max 0 (unreadCount state - 1);
     isOnline := isOnline state |}.

Definition setIsOnline (online : bool) (state : AppState) : AppState :=
  {| profile := profile state;
     notifications := notifications state;
     unreadCount := unreadCount state;
     isOnline := online |}.

(** The actions of the store, as one type. *)
Inductive Action :=
| SetProfile (p : option Profile)
| UpdateCredits (amount : Q)
| SetNotifications (ns : list Notification)
| AddNotification (n : Notification)
| MarkAsRead (notificationId : string)
| SetIsOnline (online : bool).

Definition dispatch (a : Action) (state : AppState) : AppState :=
  match a with
  | SetProfile p => setProfile p state
  | UpdateCredits amount => updateCredits amount state
  | SetNotifications ns => setNotifications ns state
  | AddNotification n => addNotification n state
  | MarkAsRead notificationId => markAsRead notificationId state
  | SetIsOnline online => setIsOnline online state
  end.

(** The number of unread notifications in the list. *)
Definition unread (ns : list Notification) : Z :=
  Z.of_nat (length (List.filter (fun n => negb (isRead n)) ns)).

(** The state after a sequence of actions. *)
Definition run (actions : list Action) (state : AppState) : AppState :=
  fold_left (fun st a => dispatch a st) actions state.

End AppStore.

(* ===================================================================== *)
(** ** The item step of the pickup form ([StepSelectItems])              *)
(* ===================================================================== *)

Module ItemStep.
Import PickupForm.

(** [interface EwasteCategory] of [database.ts]; the list
    [ewasteCategories] of [@/lib/data/categories] is not among the sources,
    and a category is an argument wherever the code takes one from it. *)
Record EwasteCategory := {
  cat_id : string;
  cat_name : string;
  slug : string;
  description : string;
  iconName : string;
  avgWeightKg : Q;
  greenCreditsPerKg : Q;
  co2SavedPerKg : Q;
  hazardLevel : string;
  estimatedValuePerKg : Q
}.

Definition toggleCategory (items : list FormItem) (cat : EwasteCategory)
    : list FormItem :=
  match List.find (fun i => String.eqb (categoryId i) (cat_id cat)) items with
  | Some _ =>
      List.filter (fun i => negb (String.eqb (categoryId i) (cat_id cat))) items
  | None =>
      (items ++ [ {| categoryId := cat_id cat;
                     categoryName := cat_name cat;
                     quantity := 1;
                     condition := "non_working";
                     estimatedWeight := avgWeightKg cat |} ])%list
  end.

(** The two fields that the buttons pass to [updateItem], with the value. *)
Inductive FieldValue :=
| Quantity (value : Q)
| Condition (value : string).

(** [{ ...i, [field]: value }]. *)
Definition with_field (i : FormItem) (fv : FieldValue) : FormItem :=
  match fv with
  | Quantity value =>
      {| categoryId := categoryId i; categoryName := categoryName i;
         quantity := value; condition := condition i;
         estimatedWeight := estimatedWeight i |}
  | Condition value =>
      {| categoryId := categoryId i; categoryName := categoryName i;
         quantity := quantity i; condition := value;
         estimatedWeight := estimatedWeight i |}
  end.

Definition updateItem (items : list FormItem) (category : string) (fv : FieldValue)
    : list FormItem :=
  map (fun i => if String.eqb (categoryId i) category then with_field i fv else i) items.

(** [Math.max] on two numbers. *)
Definition Math_max (a b : Q) : Q := if Qle_bool a b then b else a.

(** The handlers of the buttons drawn for [item]. *)
Definition minus (items : list FormItem) (item : FormItem) : list FormItem :=
  updateItem items (categoryId item) (Quantity (Math_max 1 (quantity item - 1))).

Definition plus (items : list FormItem) (item : FormItem) : list FormItem :=
  updateItem items (categoryId item) (Quantity (quantity item + 1)).

Definition setCondition (items : list FormItem) (item : FormItem) (cond : string)
    : list FormItem :=
  updateItem items (categoryId item) (Condition cond).

(** The item lists that the step can produce: it starts from the empty
    list, a category tile toggles its category, and the buttons of an item
    exist only for the items of the current list. *)
Inductive produced : list FormItem -> Prop :=
| produced_empty : produced []
| produced_toggle items cat : produced items -> produced (toggleCategory items cat)
| produced_minus items item :
    produced items -> In item items -> produced (minus items item)
| produced_plus items item :
    produced items -> In item items -> produced (plus items item)
| produced_condition items item cond :
    produced items -> In item items -> produced (setCondition items item cond).

(** A quantity that is a whole number, at least 1. *)
Definition whole_quantity (i : FormItem) : Prop :=
  exists z : Z, (1 <= z)%Z /\ (quantity i == inject_Z z)%Q.

End ItemStep.

(* ===================================================================== *)
(** ** A small history, used to run the functions on concrete data       *)
(* ===================================================================== *)

Module Demo.
Import Firestore Services PickupForm.

Definition clock : Clock :=
  {| serverTimestamp := 1700000000; toISOString := "2023-11-14T22:13:20.000Z" |}.

(** One item, quantity 2, 0.2 kg each. *)
Definition form : FormData :=
  {| items := [ {| categoryId := "smartphones";
                   categoryName := "Smartphones & Tablets";
                   quantity := 2;
                   condition := "non_working";
                   estimatedWeight := 2 # 10 |} ];
     location := {| address := "1 Main St"; city := "Springfield"; state := "IL";
                    zip := "62701"; lat := 0; lng := 0; instructions := "" |};
     schedule := {| date := "2023-11-20"; timeSlot := morning |} |}.

(** The donor signs up. *)
Definition signup : list Call :=
  [ CreateProfile "donor"
      (obj [ ("email", VStr "donor@example.org"); ("fullName", VStr "Eco Warrior") ]) ].

(** The donor submits the form: the request gets the id "0". *)
Definition submission : list Call :=
  [ CreatePickup (pickupData "donor" form);
    AddPickupItems "0" (map itemData (items form)) ].

(** A collector accepts, and the request goes through every stage. *)
Definition collection : list Call :=
  [ AcceptPickup "0" "collector";
    UpdatePickupStatus "0" "collector_enroute" None;
    UpdatePickupStatus "0" "arrived" None;
    UpdatePickupStatus "0" "inspecting" None;
    UpdatePickupStatus "0" "collected" None ].

Definition db_profile : Database := after_all clock signup emptyDatabase.

Definition db_pending : Database := after_all clock submission db_profile.

Definition db_collected : Database := after_all clock collection db_pending.

(** The pickup is completed with 0.5 kg and 12 credits. *)
Definition db_completed : Database :=
  after clock (CompletePickupAndAwardCredits "0" (1 # 2) 12) db_collected.

(** The documents of the request and of the donor at these points. *)
Definition pending_pickup : Doc := default ∅ (pickups db_pending !! "0").
Definition collected_pickup : Doc := default ∅ (pickups db_collected !! "0").
Definition completed_pickup : Doc := default ∅ (pickups db_completed !! "0").
Definition new_profile : Doc := default ∅ (profiles db_collected !! "donor").
Definition awarded_profile : Doc := default ∅ (profiles db_completed !! "donor").
Definition award_notification : Doc := default ∅ (notifications db_completed !! "0").

(** The same submission in a database without any profile. *)
Definition db_orphan : Database :=
  after_all clock
    [ CreatePickup (pickupData "stranger" form);
      AddPickupItems "0" (map itemData (items form)) ]
    emptyDatabase.

Definition orphan_pickup : Doc := default ∅ (pickups db_orphan !! "0").

(** Two notifications in the store, the first unread. *)
Definition hello : AppStore.Notification :=
  {| AppStore.id := "n1"; AppStore.userId := "donor"; AppStore.title := "Hello";
     AppStore.body := "Welcome"; AppStore.type := "info";
     AppStore.data := Firestore.VNull; AppStore.isRead := false;
     AppStore.createdAt := "2023-11-14T22:13:20.000Z" |}.

Definition seen : AppStore.Notification :=
  {| AppStore.id := "n2"; AppStore.userId := "donor"; AppStore.title := "Credits";
     AppStore.body := "You earned 12"; AppStore.type := "credit_earned";
     AppStore.data := Firestore.VNull; AppStore.isRead := true;
     AppStore.createdAt := "2023-11-15T08:00:00.000Z" |}.

Definition inbox : AppStore.AppState :=
  AppStore.setNotifications [ hello; seen ] AppStore.initial.

(** Two categories and an item list made with the tiles and buttons. *)
Definition phones : ItemStep.EwasteCategory :=
  {| ItemStep.cat_id := "smartphones"; ItemStep.cat_name := "Smartphones & Tablets";
     ItemStep.slug := "smartphones"; ItemStep.description := "Mobile phones, tablets, e-readers";
     ItemStep.iconName := "Smartphone"; ItemStep.avgWeightKg := 2 # 10;
     ItemStep.greenCreditsPerKg := 25; ItemStep.co2SavedPerKg := 25 # 10;
     ItemStep.hazardLevel := "medium"; ItemStep.estimatedValuePerKg := 15 |}.

Definition one_phone : list FormItem := ItemStep.toggleCategory [] phones.

Definition two_phones : list FormItem :=
  ItemStep.plus one_phone
    {| categoryId := "smartphones"; categoryName := "Smartphones & Tablets";
       quantity := 1; condition := "non_working"; estimatedWeight := 2 # 10 |}.

(** Predictions with labels of the classifier's label table: two cats,
    whose labels list two names, and a laptop. *)
Definition tabby : Scanner.Prediction :=
  {| Scanner.className := "tabby, tabby cat"; Scanner.probability := 5 # 10 |}.

Definition siamese : Scanner.Prediction :=
  {| Scanner.className := "Siamese cat, Siamese"; Scanner.probability := 9 # 10 |}.

Definition laptop : Scanner.Prediction :=
  {| Scanner.className := "laptop, laptop computer"; Scanner.probability := 3 # 10 |}.

(** Forms with one item each: five items at 0.015 kg, three items at
    0.175 kg, and three cables at 0.3 kg. *)
Definition one_item_form (weight quantity : Q) : FormData :=
  {| items := [ {| categoryId := "cables";
                   categoryName := "Cables & Chargers";
                   quantity := quantity;
                   condition := "non_working";
                   estimatedWeight := weight |} ];
     location := location form; schedule := schedule form |}.

Definition five_light_items : FormData := one_item_form (15 # 1000) 5.

Definition three_items : FormData := one_item_form (175 # 1000) 3.

Definition three_cables : FormData := one_item_form (3 # 10) 3.

(** The doubles 0.4, 0.075 and 0.3, and the double below 0.9, as exact
    numbers. *)
Definition kg_04 : Q := 3602879701896397 # 9007199254740992.

Definition kg_0075 : Q := 5404319552844595 # 72057594037927936.

Definition kg_03 : Q := 5404319552844595 # 18014398509481984.

Definition kg_below_09 : Q := 2026619832316723 # 2251799813685248.

(** Two forms that a validation would refuse: no item, and an item with
    quantity 0. *)
Definition empty_form : FormData :=
  {| items := []; location := location form; schedule := schedule form |}.

Definition zero_quantity_form : FormData :=
  {| items := [ {| categoryId := "batteries";
                   categoryName := "Batteries";
                   quantity := 0;
                   condition := "damaged";
                   estimatedWeight := 5 # 10 |} ];
     location := location form; schedule := schedule form |}.

End Demo.

(* ===================================================================== *)
(** * Properties                                                         *)
(* ===================================================================== *)

(** ** The label matcher *)

Section ScannerFacts.
Import Scanner.

Lemma above_threshold_spec (p : Q) :
  above_threshold p = true <-> (1 # 10 < p)%Q.
Proof.
  unfold above_threshold. rewrite negb_true_iff.
  split.
  - intros H. apply Qnot_le_lt. intros Hle.
    apply Qle_bool_iff in Hle. congruence.
  - intros H. destruct (Qle_bool p (1 # 10)) eqn:E; [|reflexivity].
    apply Qle_bool_iff in E. exfalso. exact (Qlt_not_le _ _ H E).
Qed.

Lemma includes_empty (s : string) : includes s "" = true.
Proof. destruct s; reflexivity. Qed.

(** The empty piece that [split(' ')] leaves between two adjacent
    separators matches every key. *)
Lemma empty_word_matches (key : string) : matches "" key = true.
Proof. unfold matches. rewrite includes_empty. apply orb_true_r. Qed.

Lemma scan_keys_below predictions pred word entries :
  above_threshold (probability pred) = false ->
  scan_keys predictions pred word entries = None.
Proof.
  intros Hlow. induction entries as [|[key value] rest IH]; cbn [scan_keys]; [reflexivity|].
  rewrite Hlow, IH. destruct (matches word key); reflexivity.
Qed.

Lemma scan_keys_skip predictions pred word kb entries :
  forallb (fun entry => negb (matches word (fst entry))) kb = true ->
  scan_keys predictions pred word (kb ++ entries)%list
  = scan_keys predictions pred word entries.
Proof.
  induction kb as [|[key value] rest IH]; cbn [scan_keys forallb app fst]; [reflexivity|].
  intros H. apply andb_true_iff in H as [Hk Hrest].
  apply negb_true_iff in Hk. rewrite Hk. auto.
Qed.

Lemma scan_keys_no_match predictions pred word entries :
  existsb (fun entry => matches word (fst entry)) entries = false ->
  scan_keys predictions pred word entries = None.
Proof.
  induction entries as [|[key value] rest IH]; cbn [scan_keys existsb fst]; [reflexivity|].
  intros H. apply orb_false_iff in H as [Hk Hrest].
  rewrite Hk. auto.
Qed.

Lemma scan_words_cons predictions pred word rest :
  scan_words predictions pred (word :: rest)
  = match scan_keys predictions pred word EWASTE_LABEL_MAP with
    | Some r => Some r
    | None => scan_words predictions pred rest
    end.
Proof. reflexivity. Qed.

Lemma scan_predictions_cons predictions pred rest :
  scan_predictions predictions (pred :: rest)
  = match scan_words predictions pred (words (className pred)) with
    | Some r => Some r
    | None => scan_predictions predictions rest
    end.
Proof. reflexivity. Qed.

Lemma scan_words_skip predictions pred wb ws :
  forallb (fun w => negb (word_hits w)) wb = true ->
  scan_words predictions pred (wb ++ ws)%list = scan_words predictions pred ws.
Proof.
  induction wb as [|w rest IH]; [reflexivity|].
  cbn [forallb app]. intros H. apply andb_true_iff in H as [Hw Hrest].
  apply negb_true_iff in Hw.
  rewrite scan_words_cons, (scan_keys_no_match _ _ _ _ Hw). auto.
Qed.

Lemma scan_words_no_hit predictions pred ws :
  existsb word_hits ws = false ->
  scan_words predictions pred ws = None.
Proof.
  induction ws as [|w rest IH]; [reflexivity|].
  cbn [existsb]. intros H. apply orb_false_iff in H as [Hw Hrest].
  rewrite scan_words_cons, (scan_keys_no_match _ _ _ _ Hw). auto.
Qed.

Lemma scan_words_below predictions pred ws :
  above_threshold (probability pred) = false ->
  scan_words predictions pred ws = None.
Proof.
  intros Hlow. induction ws as [|w rest IH]; [reflexivity|].
  rewrite scan_words_cons, (scan_keys_below _ _ _ _ Hlow). exact IH.
Qed.

Lemma scan_predictions_skip predictions before todo :
  forallb (fun p => negb (prediction_hits p)) before = true ->
  scan_predictions predictions (before ++ todo)%list
  = scan_predictions predictions todo.
Proof.
  induction before as [|p rest IH]; [reflexivity|].
  cbn [forallb app]. intros H. apply andb_true_iff in H as [Hp Hrest].
  apply negb_true_iff in Hp.
  rewrite scan_predictions_cons, (scan_words_no_hit _ _ _ Hp). auto.
Qed.

Lemma scan_predictions_none predictions todo :
  forallb (fun p => negb (hits_above_threshold p)) todo = true ->
  scan_predictions predictions todo = None.
Proof.
  induction todo as [|p rest IH]; [reflexivity|].
  cbn [forallb]. intros H. apply andb_true_iff in H as [Hp Hrest].
  apply negb_true_iff in Hp. unfold hits_above_threshold in Hp.
  rewrite scan_predictions_cons.
  apply andb_false_iff in Hp as [Hlow | Hno].
  - rewrite (scan_words_below _ _ _ Hlow). auto.
  - rewrite (scan_words_no_hit _ _ _ Hno). auto.
Qed.

(** The first hit among the pieces of [split(' ')], the empty pieces
    included.  Let [(pred, word, key)] be the first hit of the three loops:
    no prediction before [pred] has a matching piece, no piece of [pred]
    before [word] matches a key, and no key before [key] matches [word].
    If the probability of [pred] exceeds 0.10, [scanImage] returns the
    positive result with the label and probability of [pred] and the
    category and slug mapped to [key], with the whole prediction list as
    evidence.  Nothing is assumed about the predictions after [pred], which
    may have a higher probability. *)
Lemma first_hit_above_threshold_wins
    (before after : list Prediction) (pred : Prediction)
    (wb wa : list string) (word : string)
    (kb ka : list (string * MapValue)) (key : string) (value : MapValue) :
  forallb (fun p => negb (prediction_hits p)) before = true ->
  words (className pred) = (wb ++ word :: wa)%list ->
  forallb (fun w => negb (word_hits w)) wb = true ->
  EWASTE_LABEL_MAP = (kb ++ (key, value) :: ka)%list ->
  forallb (fun entry => negb (matches word (fst entry))) kb = true ->
  matches word key = true ->
  (1 # 10 < probability pred)%Q ->
  scanImage (before ++ pred :: after)%list
  = {| label := className pred;
       confidence := probability pred;
       isEwaste := true;
       category := Some (value_category value);
       categorySlug := Some (value_slug value);
       allPredictions := (before ++ pred :: after)%list |}.
Proof.
  intros Hbefore Hwords Hwb Hmap Hkb Hkey Hprob.
  apply above_threshold_spec in Hprob.
  unfold scanImage.
  rewrite (scan_predictions_skip _ _ _ Hbefore), scan_predictions_cons.
  rewrite Hwords, (scan_words_skip _ _ _ _ Hwb), scan_words_cons.
  rewrite Hmap, (scan_keys_skip _ _ _ _ _ Hkb). cbn [scan_keys].
  rewrite Hkey, Hprob. reflexivity.
Qed.

(** The separator left by [", "] yields an empty word, and the empty word
    matches the first key of the map: a label with two comma-separated names
    none of which names a device is still reported as e-waste. *)
Example comma_separated_label_hits :
  words "tabby, tabby cat" = [ "tabby"; ""; "tabby"; "cat" ]
  /\ scanImage [ {| className := "tabby, tabby cat"; probability := 9 # 10 |} ]
     = {| label := "tabby, tabby cat";
          confidence := 9 # 10;
          isEwaste := true;
          category := Some "Smartphones & Tablets";
          categorySlug := Some "smartphones";
          allPredictions :=
            [ {| className := "tabby, tabby cat"; probability := 9 # 10 |} ] |}.
Proof. split; vm_compute; reflexivity. Qed.

Lemma probability_or_zero_top (top : Prediction) (rest : list Prediction) :
  (probability_or_zero (top :: rest) == probability top)%Q.
Proof.
  unfold probability_or_zero.
  destruct (Qeq_bool (probability top) 0) eqn:E.
  - apply Qeq_bool_iff in E. symmetry. exact E.
  - reflexivity.
Qed.

(** When no prediction above the 0.10 threshold has a piece of
    [split(' ')], the empty pieces included, that matches a key, [scanImage]
    returns the negative result: [isEwaste = false], no category, no slug,
    the prediction list as evidence, and the probability of the top-ranked
    prediction with its label ("Unknown" for a label that is the empty
    string); for the empty list the label is "Unknown" and the confidence
    0. *)
Lemma no_hit_above_threshold_is_negative (predictions : list Prediction) :
  forallb (fun p => negb (hits_above_threshold p)) predictions = true ->
  isEwaste (scanImage predictions) = false
  /\ category (scanImage predictions) = None
  /\ categorySlug (scanImage predictions) = None
  /\ allPredictions (scanImage predictions) = predictions
  /\ match predictions with
     | [] =>
         label (scanImage predictions) = "Unknown"
         /\ confidence (scanImage predictions) = 0%Q
     | top :: _ =>
         label (scanImage predictions)
         = (if String.eqb (className top) "" then "Unknown" else className top)
         /\ (confidence (scanImage predictions) == probability top)%Q
     end.
Proof.
  intros Hno. unfold scanImage.
  rewrite (scan_predictions_none _ _ Hno).
  repeat split; try reflexivity.
  destruct predictions as [|top rest]; [split; reflexivity|].
  split; [reflexivity|]. apply probability_or_zero_top.
Qed.

End ScannerFacts.

(** ** The Firestore capability *)

Section FirestoreFacts.
Import Firestore.

Lemma coll_set_coll_eq (c : Collection) (m : Docs) (db : Database) :
  coll c (set_coll c m db) = m.
Proof. destruct c; reflexivity. Qed.

Lemma coll_set_coll_ne (c c' : Collection) (m : Docs) (db : Database) :
  c <> c' -> coll c' (set_coll c m db) = coll c' db.
Proof. intros Hne. destruct c, c'; try reflexivity; congruence. Qed.

Lemma newDoc_is_new (c : Collection) (db : Database) :
  coll c db !! (fresh (dom (coll c db)) : string) = None.
Proof. apply not_elem_of_dom, is_fresh. Qed.

Lemma lookup_apply_writes (now : Z) (w : Writes) (d : Doc) (field : string) :
  apply_writes now w d !! field
  = match w !! field with
    | Some x => Some (resolve now x (d !! field))
    | None => d !! field
    end.
Proof.
  unfold apply_writes. rewrite lookup_merge.
  destruct (w !! field), (d !! field); reflexivity.
Qed.

Lemma lookup_fresh_doc (now : Z) (w : Writes) (field : string) :
  fresh_doc now w !! field = (fun x => resolve now x None) <$> (w !! field).
Proof. unfold fresh_doc. apply lookup_fmap. Qed.

Lemma lookup_spread {V} (a b : gmap string V) (field : string) :
  spread a b !! field
  = match b !! field with
    | Some v => Some v
    | None => a !! field
    end.
Proof.
  unfold spread. rewrite lookup_union.
  destruct (b !! field), (a !! field); reflexivity.
Qed.

Lemma lookup_plain (d : Doc) (field : string) :
  plain d !! field = WVal <$> (d !! field).
Proof. unfold plain. apply lookup_fmap. Qed.

Lemma lookup_default (m : Docs) (id : string) :
  bool_decide (is_Some (m !! id)) = true -> m !! id = Some (default ∅ (m !! id)).
Proof.
  intros H. apply bool_decide_eq_true_1 in H. destruct H as [d ->]. reflexivity.
Qed.

(** *** Rules for pre- and postconditions *)

Lemma triple_ret {A} (P : Database -> Prop) (Q : A -> Database -> Prop) E (a : A) :
  (forall db, P db -> Q a db) -> triple P (ret a) Q E.
Proof. intros H db HP. apply H, HP. Qed.

Lemma triple_throw {A} (P : Database -> Prop) (Q : A -> Database -> Prop)
    (E : Database -> Prop) (e : Error) :
  (forall db, P db -> E db) -> triple P (throw e) Q E.
Proof. intros H db HP. apply H, HP. Qed.

Lemma triple_bind {A B} (P : Database -> Prop) (m : M A) (Q : A -> Database -> Prop)
    (k : A -> M B) (R : B -> Database -> Prop) (E : Database -> Prop) :
  triple P m Q E -> (forall a, triple (Q a) (k a) R E) -> triple P (bind m k) R E.
Proof.
  intros Hm Hk db HP. unfold bind. specialize (Hm db HP).
  destruct (m db) as [[a|e] db']; [|exact Hm].
  apply (Hk a db' Hm).
Qed.

Lemma triple_commit (P : Database -> Prop) (batch : M unit)
    (Q : unit -> Database -> Prop) (E' E : Database -> Prop) :
  triple P batch Q E' -> (forall db, P db -> E db) -> triple P (commit batch) Q E.
Proof.
  intros Hb HE db HP. unfold commit. specialize (Hb db HP).
  destruct (batch db) as [[u|e] db']; [exact Hb | apply HE, HP].
Qed.

Lemma triple_weaken {A} (P P' : Database -> Prop) (m : M A)
    (Q Q' : A -> Database -> Prop) (E E' : Database -> Prop) :
  triple P' m Q' E' ->
  (forall db, P db -> P' db) ->
  (forall a db, Q' a db -> Q a db) ->
  (forall db, E' db -> E db) ->
  triple P m Q E.
Proof.
  intros Hm HP HQ HE db Hdb. specialize (Hm db (HP db Hdb)).
  destruct (m db) as [[a|e] db']; auto.
Qed.

Lemma keeps_ret {A} (I : Database -> Prop) (a : A) : keeps I (ret a).
Proof. apply triple_ret. auto. Qed.

Lemma keeps_throw {A} (I : Database -> Prop) (e : Error) : keeps I (throw (A := A) e).
Proof. apply triple_throw. auto. Qed.

Lemma keeps_bind {A B} (I : Database -> Prop) (m : M A) (k : A -> M B) :
  keeps I m -> (forall a, keeps I (k a)) -> keeps I (bind m k).
Proof. intros Hm Hk. eapply triple_bind; [exact Hm | exact Hk]. Qed.

Lemma keeps_commit (I : Database -> Prop) (batch : M unit) :
  keeps I batch -> keeps I (commit batch).
Proof. intros Hb. eapply triple_commit; [exact Hb | auto]. Qed.

Lemma keeps_getDoc (I : Database -> Prop) (c : Collection) (id : string) :
  keeps I (getDoc c id).
Proof. intros db HI. exact HI. Qed.

Lemma keeps_newDoc (I : Database -> Prop) (c : Collection) : keeps I (newDoc c).
Proof. intros db HI. exact HI. Qed.

(** A write that an invariant tolerates at every document of [c]. *)
Lemma keeps_setDoc (I : Database -> Prop) (now : Z) (c : Collection) (id : string)
    (w : Writes) :
  (forall db, I db -> I (set_coll c (<[id := fresh_doc now w]> (coll c db)) db)) ->
  keeps I (setDoc now c id w).
Proof. intros H db HI. apply H, HI. Qed.

Lemma keeps_updateDoc (I : Database -> Prop) (now : Z) (c : Collection) (id : string)
    (w : Writes) :
  (forall db d, I db -> coll c db !! id = Some d ->
     I (set_coll c (<[id := apply_writes now w d]> (coll c db)) db)) ->
  keeps I (updateDoc now c id w).
Proof.
  intros H db HI. unfold updateDoc.
  destruct (coll c db !! id) as [d|] eqn:E; [apply (H db d HI E) | exact HI].
Qed.

(** A [set] under a new id. *)
Lemma keeps_newDoc_setDoc {B} (I : Database -> Prop) (now : Z) (c : Collection)
    (w : string -> Writes) (k : string -> M B) :
  (forall db id, I db -> coll c db !! id = None ->
     I (set_coll c (<[id := fresh_doc now (w id)]> (coll c db)) db)) ->
  (forall id, keeps I (k id)) ->
  keeps I (id <- newDoc c ;; setDoc now c id (w id) ;;; k id).
Proof.
  intros H Hk db HI. unfold bind, newDoc, setDoc.
  apply Hk, H; [exact HI | apply newDoc_is_new].
Qed.

Lemma keeps_addDoc (I : Database -> Prop) (now : Z) (c : Collection) (w : Writes) :
  (forall db id, I db -> coll c db !! id = None ->
     I (set_coll c (<[id := fresh_doc now w]> (coll c db)) db)) ->
  keeps I (addDoc now c w).
Proof.
  intros H. unfold addDoc.
  apply (keeps_newDoc_setDoc I now c (fun _ => w) (fun id => ret id)); [exact H|].
  intros id. apply keeps_ret.
Qed.

Lemma keeps_snd {A} (I : Database -> Prop) (m : M A) (db : Database) :
  keeps I m -> I db -> I (snd (m db)).
Proof.
  intros Hm HI. specialize (Hm db HI).
  destruct (m db) as [[a|e] db']; exact Hm.
Qed.

(** A refused [commit] changes nothing. *)
Lemma commit_refused (batch : M unit) (db db' : Database) (e : Error) :
  commit batch db = (Err e, db') -> db' = db.
Proof.
  unfold commit. destruct (batch db) as [[u|e'] db'']; congruence.
Qed.

End FirestoreFacts.

(** ** The credit award *)

Section AwardFacts.
Import Firestore Services.

(** The database left by a successful award, written out. *)
Lemma award_succeeds (clock : Clock) (pickupId : string) (w c : Q) (db : Database)
    (pickup profile : Doc) (donorId : string) (totalItems : Q) :
  pickups db !! pickupId = Some pickup ->
  pickup !! "donorId" = Some (VStr donorId) ->
  pickup !! "totalItems" = Some (VNum totalItems) ->
  profiles db !! donorId = Some profile ->
  completePickupAndAwardCredits clock pickupId w c db
  = (Ok tt,
     {| profiles :=
          <[donorId := apply_writes (serverTimestamp clock)
                         (donorIncrements clock totalItems w c) profile]> (profiles db);
        pickups :=
          <[pickupId := apply_writes (serverTimestamp clock)
                          (completedPickup w c) pickup]> (pickups db);
        pickupItems := pickupItems db;
        creditTransactions :=
          <[fresh (dom (creditTransactions db)) :=
              fresh_doc (serverTimestamp clock)
                (creditTransaction donorId pickupId w c)]> (creditTransactions db);
        notifications :=
          <[fresh (dom (notifications db)) :=
              fresh_doc (serverTimestamp clock)
                (creditNotification donorId pickupId w c)]> (notifications db);
        achievements := achievements db;
        ewasteCategories := ewasteCategories db |}).
Proof.
  intros Hpickup Hdonor Hitems Hprofile.
  unfold completePickupAndAwardCredits, bind, getDoc, read_string, read_number,
    commit, updateDoc, newDoc, setDoc, ret.
  cbn [coll]. rewrite Hpickup, Hdonor, Hitems. cbn [coll set_coll profiles pickups
    pickupItems creditTransactions notifications achievements ewasteCategories].
  rewrite Hpickup. cbn [coll set_coll profiles pickups
    pickupItems creditTransactions notifications achievements ewasteCategories].
  rewrite Hprofile. reflexivity.
Qed.

(** A refused award changes nothing. *)
Lemma award_refused (clock : Clock) (pickupId : string) (w c : Q)
    (db db' : Database) (e : Error) :
  completePickupAndAwardCredits clock pickupId w c db = (Err e, db') -> db' = db.
Proof.
  unfold completePickupAndAwardCredits, bind, getDoc, read_string, read_number, throw, ret.
  destruct (coll Pickups db !! pickupId) as [pickup|]; [|congruence].
  destruct (pickup !! "donorId") as [[]|]; try congruence.
  destruct (pickup !! "totalItems") as [[]|]; try congruence.
  apply commit_refused.
Qed.

Lemma completedPickup_other (w c : Q) (field : string) :
  field <> "status" -> field <> "actualWeightKg" -> field <> "actualCreditsAwarded" ->
  field <> "completedAt" -> field <> "updatedAt" ->
  completedPickup w c !! field = None.
Proof.
  intros. unfold completedPickup, obj. cbn [rev app list_to_map foldr].
  simplify_map_eq. reflexivity.
Qed.

Lemma donorIncrements_other (clock : Clock) (n w c : Q) (field : string) :
  field <> "greenCredits" -> field <> "totalItemsRecycled" -> field <> "totalWeightKg" ->
  field <> "co2SavedKg" -> field <> "lastActivityAt" -> field <> "updatedAt" ->
  donorIncrements clock n w c !! field = None.
Proof.
  intros. unfold donorIncrements, obj. cbn [rev app list_to_map foldr].
  simplify_map_eq. reflexivity.
Qed.

(** How an award changes one numeric field of the profile. *)
Lemma increment_field (now : Z) (writes : Writes) (profile : Doc) (field : string)
    (old by_ : Q) :
  writes !! field = Some (WIncrement by_) ->
  profile !! field = Some (VNum old) ->
  apply_writes now writes profile !! field = Some (VNum (old + by_)).
Proof. intros Hw Hold. rewrite lookup_apply_writes, Hw, Hold. reflexivity. Qed.

Lemma written_field (now : Z) (writes : Writes) (d : Doc) (field : string) (v : Value) :
  writes !! field = Some (WVal v) ->
  apply_writes now writes d !! field = Some v.
Proof. intros Hw. rewrite lookup_apply_writes, Hw. reflexivity. Qed.

Lemma set_field (now : Z) (writes : Writes) (field : string) (v : Value) :
  writes !! field = Some (WVal v) ->
  fresh_doc now writes !! field = Some v.
Proof. intros Hw. rewrite lookup_fresh_doc, Hw. reflexivity. Qed.

(** C2.  On an existing request whose donor has a profile, the award
    succeeds and its commit changes exactly four records: the request gets
    status 'completed', [actualWeightKg = w] and [actualCreditsAwarded = c];
    the donor's profile gets [greenCredits] increased by [c],
    [totalItemsRecycled] by the request's [totalItems], [totalWeightKg] by [w]
    and [co2SavedKg] by [w * 1.5]; one new credit transaction with amount [c]
    refers to the request; one new notification is addressed to the donor;
    no other document of any collection changes.  The commit is all or
    nothing: a refused call, from any database, leaves it as it was. *)
Theorem award_changes_four_records (clock : Clock) (pickupId : string) (w c : Q)
    (db : Database) (pickup profile : Doc) (donorId : string) (totalItems : Q) :
  pickups db !! pickupId = Some pickup ->
  pickup !! "donorId" = Some (VStr donorId) ->
  pickup !! "totalItems" = Some (VNum totalItems) ->
  profiles db !! donorId = Some profile ->
  (exists (db' : Database) (pickup' profile' : Doc) (txId notifId : string)
          (tx notif : Doc),
     completePickupAndAwardCredits clock pickupId w c db = (Ok tt, db')
     (* the request *)
     /\ pickups db' = <[pickupId := pickup']> (pickups db)
     /\ pickup' !! "status" = Some (VStr "completed")
     /\ pickup' !! "actualWeightKg" = Some (VNum w)
     /\ pickup' !! "actualCreditsAwarded" = Some (VNum c)
     (* the profile *)
     /\ profiles db' = <[donorId := profile']> (profiles db)
     /\ (forall g, profile !! "greenCredits" = Some (VNum g) ->
           profile' !! "greenCredits" = Some (VNum (g + c)))
     /\ (forall n, profile !! "totalItemsRecycled" = Some (VNum n) ->
           profile' !! "totalItemsRecycled" = Some (VNum (n + totalItems)))
     /\ (forall kg, profile !! "totalWeightKg" = Some (VNum kg) ->
           profile' !! "totalWeightKg" = Some (VNum (kg + w)))
     /\ (forall kg, profile !! "co2SavedKg" = Some (VNum kg) ->
           profile' !! "co2SavedKg" = Some (VNum (kg + w * (3 # 2))))
     (* the ledger entry *)
     /\ creditTransactions db !! txId = None
     /\ creditTransactions db' = <[txId := tx]> (creditTransactions db)
     /\ tx !! "amount" = Some (VNum c)
     /\ tx !! "type" = Some (VStr "pickup_completed")
     /\ tx !! "referenceId" = Some (VStr pickupId)
     /\ tx !! "userId" = Some (VStr donorId)
     (* the notification *)
     /\ notifications db !! notifId = None
     /\ notifications db' = <[notifId := notif]> (notifications db)
     /\ notif !! "userId" = Some (VStr donorId)
     /\ notif !! "type" = Some (VStr "credit_earned")
     (* nothing else *)
     /\ pickupItems db' = pickupItems db
     /\ achievements db' = achievements db
     /\ ewasteCategories db' = ewasteCategories db)
  /\ (forall db0 e db1,
        completePickupAndAwardCredits clock pickupId w c db0 = (Err e, db1) -> db1 = db0).
Proof.
  intros Hpickup Hdonor Hitems Hprofile. split.
  - eexists _, _, _, _, _, _, _. split.
    { apply (award_succeeds clock pickupId w c db pickup profile donorId totalItems);
        assumption. }
    cbn [profiles pickups pickupItems creditTransactions notifications achievements
           ewasteCategories].
    split; [reflexivity|].
    split; [apply written_field; reflexivity|].
    split; [apply written_field; reflexivity|].
    split; [apply written_field; reflexivity|].
    split; [reflexivity|].
    split; [intros g Hg; apply increment_field; [reflexivity | exact Hg]|].
    split; [intros n Hn; apply increment_field; [reflexivity | exact Hn]|].
    split; [intros kg Hkg; apply increment_field; [reflexivity | exact Hkg]|].
    split; [intros kg Hkg; apply increment_field; [reflexivity | exact Hkg]|].
    split; [apply (newDoc_is_new CreditTransactions)|].
    split; [reflexivity|].
    split; [apply set_field; reflexivity|].
    split; [apply set_field; reflexivity|].
    split; [apply set_field; reflexivity|].
    split; [apply set_field; reflexivity|].
    split; [apply (newDoc_is_new Notifications)|].
    split; [reflexivity|].
    split; [apply set_field; reflexivity|].
    split; [apply set_field; reflexivity|].
    repeat split.
  - intros db0 e db1. apply award_refused.
Qed.

(** The example of the specification: a collected request completed with
    12 kg adds 12 * 1.5 = 18 kg to [co2SavedKg]. *)
Lemma award_changes_four_records_witness :
  exists db' : Database,
    completePickupAndAwardCredits Demo.clock "0" 12 240 Demo.db_collected = (Ok tt, db')
    /\ (pickups db' !! "0" ≫= (.!! "status")) = Some (VStr "completed")
    /\ (profiles db' !! "donor" ≫= (.!! "co2SavedKg")) = Some (VNum (0 + 12 * (3 # 2)))
    /\ (0 + 12 * (3 # 2) == 18)%Q.
Proof.
  destruct (award_changes_four_records Demo.clock "0" 12 240 Demo.db_collected
              Demo.collected_pickup Demo.new_profile "donor" 2)
    as [(db' & pickup' & profile' & txId & notifId & tx & notif & Hrun & Hpickups
         & Hstatus & _ & _ & Hprofiles & _ & _ & _ & Hco2 & _) _].
  - apply lookup_default. vm_compute. reflexivity.
  - vm_compute. reflexivity.
  - vm_compute. reflexivity.
  - apply lookup_default. vm_compute. reflexivity.
  - exists db'. split; [exact Hrun|].
    split; [rewrite Hpickups, lookup_insert_eq; exact Hstatus|].
    split; [|reflexivity].
    rewrite Hprofiles, lookup_insert_eq. apply Hco2. vm_compute. reflexivity.
Defined.

(** C1, as the code has it.  The award does not look at the current status:
    on every existing request whose donor has a profile, whatever the status
    of the request ('completed' included), the call succeeds, sets the status
    to 'completed', adds one credit transaction and one notification, and
    increases [greenCredits] by the passed amount.  The call is refused with
    'Pickup not found' when the request does not exist, and then nothing
    changes. *)
Theorem award_ignores_status (clock : Clock) (pickupId : string) (w c : Q)
    (db : Database) (pickup profile : Doc) (status donorId : string)
    (totalItems g : Q) :
  pickups db !! pickupId = Some pickup ->
  pickup !! "status" = Some (VStr status) ->
  pickup !! "donorId" = Some (VStr donorId) ->
  pickup !! "totalItems" = Some (VNum totalItems) ->
  profiles db !! donorId = Some profile ->
  profile !! "greenCredits" = Some (VNum g) ->
  (exists (db' : Database) (pickup' profile' : Doc),
     completePickupAndAwardCredits clock pickupId w c db = (Ok tt, db')
     /\ pickups db' !! pickupId = Some pickup'
     /\ pickup' !! "status" = Some (VStr "completed")
     /\ profiles db' !! donorId = Some profile'
     /\ profile' !! "greenCredits" = Some (VNum (g + c))
     /\ size (creditTransactions db') = S (size (creditTransactions db))
     /\ size (notifications db') = S (size (notifications db)))
  /\ (forall db0 : Database,
        pickups db0 !! pickupId = None ->
        completePickupAndAwardCredits clock pickupId w c db0 = (Err PickupNotFound, db0)).
Proof.
  intros Hpickup _ Hdonor Hitems Hprofile Hg. split.
  - eexists _, _, _. split.
    { apply (award_succeeds clock pickupId w c db pickup profile donorId totalItems);
        assumption. }
    cbn [profiles pickups creditTransactions notifications].
    split; [apply lookup_insert_eq|].
    split; [apply written_field; reflexivity|].
    split; [apply lookup_insert_eq|].
    split; [apply increment_field; [reflexivity | exact Hg]|].
    split; apply map_size_insert_None.
    + apply (newDoc_is_new CreditTransactions).
    + apply (newDoc_is_new Notifications).
  - intros db0 Hnone.
    unfold completePickupAndAwardCredits, bind, getDoc. cbn [coll].
    rewrite Hnone. reflexivity.
Qed.

(** The request of the small history is already 'completed' with a balance
    of 12; completing it once more succeeds and the balance is 12 + 12. *)
Lemma award_ignores_status_witness :
  exists (db' : Database) (profile' : Doc),
    completePickupAndAwardCredits Demo.clock "0" (1 # 2) 12 Demo.db_completed = (Ok tt, db')
    /\ profiles db' !! "donor" = Some profile'
    /\ profile' !! "greenCredits" = Some (VNum (12 + 12)).
Proof.
  destruct (award_ignores_status Demo.clock "0" (1 # 2) 12 Demo.db_completed
              Demo.completed_pickup Demo.awarded_profile "completed" "donor" 2 12)
    as [(db' & pickup' & profile' & Hrun & _ & _ & Hprofile & Hg & _) _].
  - apply lookup_default. vm_compute. reflexivity.
  - vm_compute. reflexivity.
  - vm_compute. reflexivity.
  - vm_compute. reflexivity.
  - apply lookup_default. vm_compute. reflexivity.
  - vm_compute. reflexivity.
  - exists db', profile'. split; [exact Hrun|]. split; [exact Hprofile | exact Hg].
Defined.

(** C1 as claimed fails: a second completion of a 'completed' request is
    accepted, writes a second credit transaction and doubles the balance. *)
Lemma second_completion_is_accepted :
  (pickups Demo.db_completed !! "0" ≫= (.!! "status")) = Some (VStr "completed")
  /\ size (creditTransactions Demo.db_completed) = 1%nat
  /\ (profiles Demo.db_completed !! "donor" ≫= (.!! "greenCredits")) = Some (VNum 12)
  /\ fst (completePickupAndAwardCredits Demo.clock "0" (1 # 2) 12 Demo.db_completed)
     = Ok tt
  /\ size (creditTransactions
             (snd (completePickupAndAwardCredits Demo.clock "0" (1 # 2) 12
                     Demo.db_completed))) = 2%nat
  /\ (profiles (snd (completePickupAndAwardCredits Demo.clock "0" (1 # 2) 12
                       Demo.db_completed)) !! "donor" ≫= (.!! "greenCredits"))
     = Some (VNum 24).
Proof. vm_compute. repeat split. Qed.

(** C9, as the code has it.  The award does not check the sign of its
    arguments: with a negative weight or a negative credit amount, on an
    existing request whose donor has a profile, the call succeeds, stores the
    negative values in the request and adds them to the profile, and writes
    the credit transaction and the notification.  A call that is refused,
    from any database, has no partial effect. *)
Theorem negative_award_is_applied (clock : Clock) (pickupId : string) (w c : Q)
    (db : Database) (pickup profile : Doc) (donorId : string)
    (totalItems g kg : Q) :
  (w < 0 \/ c < 0)%Q ->
  pickups db !! pickupId = Some pickup ->
  pickup !! "donorId" = Some (VStr donorId) ->
  pickup !! "totalItems" = Some (VNum totalItems) ->
  profiles db !! donorId = Some profile ->
  profile !! "greenCredits" = Some (VNum g) ->
  profile !! "totalWeightKg" = Some (VNum kg) ->
  (exists (db' : Database) (pickup' profile' : Doc),
     completePickupAndAwardCredits clock pickupId w c db = (Ok tt, db')
     /\ pickups db' !! pickupId = Some pickup'
     /\ pickup' !! "actualWeightKg" = Some (VNum w)
     /\ pickup' !! "actualCreditsAwarded" = Some (VNum c)
     /\ profiles db' !! donorId = Some profile'
     /\ profile' !! "greenCredits" = Some (VNum (g + c))
     /\ profile' !! "totalWeightKg" = Some (VNum (kg + w))
     /\ size (creditTransactions db') = S (size (creditTransactions db))
     /\ size (notifications db') = S (size (notifications db)))
  /\ (forall db0 e db1,
        completePickupAndAwardCredits clock pickupId w c db0 = (Err e, db1) -> db1 = db0).
Proof.
  intros _ Hpickup Hdonor Hitems Hprofile Hg Hkg. split.
  - eexists _, _, _. split.
    { apply (award_succeeds clock pickupId w c db pickup profile donorId totalItems);
        assumption. }
    cbn [profiles pickups creditTransactions notifications].
    split; [apply lookup_insert_eq|].
    split; [apply written_field; reflexivity|].
    split; [apply written_field; reflexivity|].
    split; [apply lookup_insert_eq|].
    split; [apply increment_field; [reflexivity | exact Hg]|].
    split; [apply increment_field; [reflexivity | exact Hkg]|].
    split; apply map_size_insert_None.
    + apply (newDoc_is_new CreditTransactions).
    + apply (newDoc_is_new Notifications).
  - intros db0 e db1. apply award_refused.
Qed.

(** A collected request completed with -1 kg and -5 credits. *)
Lemma negative_award_is_applied_witness :
  exists (db' : Database) (profile' : Doc),
    completePickupAndAwardCredits Demo.clock "0" (-1) (-5) Demo.db_collected = (Ok tt, db')
    /\ profiles db' !! "donor" = Some profile'
    /\ profile' !! "greenCredits" = Some (VNum (0 + -5))
    /\ profile' !! "totalWeightKg" = Some (VNum (0 + -1)).
Proof.
  destruct (negative_award_is_applied Demo.clock "0" (-1) (-5) Demo.db_collected
              Demo.collected_pickup Demo.new_profile "donor" 2 0 0)
    as [(db' & pickup' & profile' & Hrun & _ & _ & _ & Hprofile & Hg & Hkg & _) _].
  - left. reflexivity.
  - apply lookup_default. vm_compute. reflexivity.
  - vm_compute. reflexivity.
  - vm_compute. reflexivity.
  - apply lookup_default. vm_compute. reflexivity.
  - vm_compute. reflexivity.
  - vm_compute. reflexivity.
  - exists db', profile'. split; [exact Hrun|].
    split; [exact Hprofile|]. split; [exact Hg | exact Hkg].
Defined.

(** C9 as claimed fails: the call with -1 kg and -5 credits is not refused,
    and the donor's balance goes from 0 to -5. *)
Lemma negative_award_is_not_refused :
  (-1 < 0)%Q /\ (-5 < 0)%Q
  /\ (profiles Demo.db_collected !! "donor" ≫= (.!! "greenCredits")) = Some (VNum 0)
  /\ fst (completePickupAndAwardCredits Demo.clock "0" (-1) (-5) Demo.db_collected)
     = Ok tt
  /\ (profiles (snd (completePickupAndAwardCredits Demo.clock "0" (-1) (-5)
                       Demo.db_collected)) !! "donor" ≫= (.!! "greenCredits"))
     = Some (VNum (-5))
  /\ size (creditTransactions
             (snd (completePickupAndAwardCredits Demo.clock "0" (-1) (-5)
                     Demo.db_collected))) = 1%nat.
Proof.
  split; [reflexivity|]. split; [reflexivity|]. vm_compute. repeat split.
Qed.

End AwardFacts.

(** ** The pickup lifecycle *)

Section LifecycleFacts.
Import Firestore Services.

Lemma statusUpdate_status (status : string) :
  statusUpdate status !! "status" = Some (WVal (VStr status)).
Proof.
  unfold statusUpdate. cbv zeta.
  destruct (String.eqb status "matched"), (String.eqb status "collected"),
    (String.eqb status "completed"), (String.eqb status "cancelled");
    repeat (rewrite lookup_insert_ne by discriminate); reflexivity.
Qed.

Lemma statusUpdate_collectedAt :
  statusUpdate "collected" !! "collectedAt" = Some WServerTimestamp.
Proof. reflexivity. Qed.

(** C3, as the code has it.  [updatePickupStatus] does not check the
    transition: for every existing request in any state [X] and every target
    [Y] (on the chain or not, [X] terminal or not), the call succeeds and the
    status becomes [Y]; entering 'collected' stamps [collectedAt] with the
    server time; no profile, credit transaction or notification changes.
    The call is refused only when the request does not exist, and then
    nothing changes. *)
Theorem status_update_is_unchecked (clock : Clock) (pickupId X Y : string)
    (additionalData : option Writes) (db : Database) (pickup : Doc) :
  pickups db !! pickupId = Some pickup ->
  pickup !! "status" = Some (VStr X) ->
  default ∅ additionalData !! "status" = None ->
  (exists (db' : Database) (pickup' : Doc),
     updatePickupStatus clock pickupId Y additionalData db = (Ok tt, db')
     /\ pickups db' = <[pickupId := pickup']> (pickups db)
     /\ pickup' !! "status" = Some (VStr Y)
     /\ (Y = "collected" -> default ∅ additionalData !! "collectedAt" = None ->
         pickup' !! "collectedAt" = Some (VTime (serverTimestamp clock)))
     /\ profiles db' = profiles db
     /\ creditTransactions db' = creditTransactions db
     /\ notifications db' = notifications db)
  /\ (forall db0 : Database,
        pickups db0 !! pickupId = None ->
        updatePickupStatus clock pickupId Y additionalData db0
        = (Err (NoDocumentToUpdate Pickups pickupId), db0)).
Proof.
  intros Hpickup _ Hextra. split.
  - eexists _, _. split.
    { unfold updatePickupStatus, updateDoc. cbn [coll]. rewrite Hpickup. reflexivity. }
    cbn [set_coll coll pickups profiles creditTransactions notifications].
    split; [reflexivity|].
    split.
    { rewrite lookup_apply_writes, lookup_spread, Hextra, statusUpdate_status.
      reflexivity. }
    split; [|repeat split].
    intros -> Hstamp.
    rewrite lookup_apply_writes, lookup_spread, Hstamp, statusUpdate_collectedAt.
    reflexivity.
  - intros db0 Hnone. unfold updatePickupStatus, updateDoc. cbn [coll].
    rewrite Hnone. reflexivity.
Qed.

(** The example of the specification: the pending request of the small
    history is advanced directly to 'collected'. *)
Lemma status_update_is_unchecked_witness :
  exists (db' : Database) (pickup' : Doc),
    updatePickupStatus Demo.clock "0" "collected" None Demo.db_pending = (Ok tt, db')
    /\ pickups db' !! "0" = Some pickup'
    /\ pickup' !! "status" = Some (VStr "collected").
Proof.
  destruct (status_update_is_unchecked Demo.clock "0" "pending" "collected" None
              Demo.db_pending Demo.pending_pickup)
    as [(db' & pickup' & Hrun & Hpickups & Hstatus & _) _].
  - apply lookup_default. vm_compute. reflexivity.
  - vm_compute. reflexivity.
  - reflexivity.
  - exists db', pickup'. split; [exact Hrun|].
    split; [rewrite Hpickups; apply lookup_insert_eq | exact Hstatus].
Defined.

(** C3 as claimed fails: a 'pending' request advanced directly to
    'collected' is accepted and becomes 'collected', and a 'completed'
    request can be put back to 'pending'. *)
Lemma pending_jumps_to_collected :
  (pickups Demo.db_pending !! "0" ≫= (.!! "status")) = Some (VStr "pending")
  /\ fst (updatePickupStatus Demo.clock "0" "collected" None Demo.db_pending) = Ok tt
  /\ (pickups (snd (updatePickupStatus Demo.clock "0" "collected" None Demo.db_pending))
        !! "0" ≫= (.!! "status")) = Some (VStr "collected")
  /\ (pickups Demo.db_completed !! "0" ≫= (.!! "status")) = Some (VStr "completed")
  /\ fst (updatePickupStatus Demo.clock "0" "pending" None Demo.db_completed) = Ok tt
  /\ (pickups (snd (updatePickupStatus Demo.clock "0" "pending" None Demo.db_completed))
        !! "0" ≫= (.!! "status")) = Some (VStr "pending").
Proof. vm_compute. repeat split. Qed.

End LifecycleFacts.

(** ** What the calls leave alone *)

Section CallsKeep.
Import Firestore Services.

(** An invariant that tolerates every write outside the profiles and the
    notifications, a new notification, and the increments of an award. *)
Variable I : Database -> Prop.

Hypothesis I_other :
  forall (c : Collection) (m : Docs) (db : Database),
    c <> Profiles -> c <> Notifications -> I db -> I (set_coll c m db).

Hypothesis I_new_notification :
  forall (db : Database) (id : string) (notif : Doc),
    I db -> notifications db !! id = None ->
    I (set_coll Notifications (<[id := notif]> (notifications db)) db).

Hypothesis I_award :
  forall (db : Database) (clock : Clock) (donorId : string) (profile : Doc) (n w c : Q),
    I db -> profiles db !! donorId = Some profile ->
    I (set_coll Profiles
         (<[donorId := apply_writes (serverTimestamp clock)
                         (donorIncrements clock n w c) profile]> (profiles db)) db).

Lemma keeps_addPickupItems_loop (now : Z) (pickupId : string) (items : list Doc) :
  keeps I (addPickupItems_loop now pickupId items).
Proof.
  induction items as [|item rest IH]; cbn [addPickupItems_loop].
  - apply keeps_ret.
  - apply (keeps_newDoc_setDoc I now PickupItems
             (fun _ => spread (plain item)
                         (obj [ ("pickupId", WVal (VStr pickupId));
                                ("createdAt", WServerTimestamp) ]))
             (fun _ => addPickupItems_loop now pickupId rest)).
    + intros db id HI _. apply I_other; [discriminate | discriminate | exact HI].
    + intros _. exact IH.
Qed.

Lemma keeps_seedAchievements_loop (now : Z) (todo : list Writes) :
  keeps I (seedAchievements_loop now todo).
Proof.
  induction todo as [|a rest IH]; cbn [seedAchievements_loop].
  - apply keeps_ret.
  - apply (keeps_newDoc_setDoc I now Achievements (fun _ => a)
             (fun _ => seedAchievements_loop now rest)).
    + intros db id HI _. apply I_other; [discriminate | discriminate | exact HI].
    + intros _. exact IH.
Qed.

Lemma keeps_seedEwasteCategories_loop (now : Z) (todo : list (string * Writes)) :
  keeps I (seedEwasteCategories_loop now todo).
Proof.
  induction todo as [|[slug c] rest IH]; cbn [seedEwasteCategories_loop].
  - apply keeps_ret.
  - apply keeps_bind; [|intros _; exact IH].
    apply keeps_setDoc. intros db HI.
    apply I_other; [discriminate | discriminate | exact HI].
Qed.

Lemma keeps_award (clock : Clock) (pickupId : string) (w c : Q) :
  keeps I (completePickupAndAwardCredits clock pickupId w c).
Proof.
  unfold completePickupAndAwardCredits.
  apply keeps_bind; [apply keeps_getDoc|]. intros [pickup|]; [|apply keeps_throw].
  apply keeps_bind.
  { unfold read_string. destruct (pickup !! "donorId") as [[]|];
      first [apply keeps_ret | apply keeps_throw]. }
  intros donorId. apply keeps_bind.
  { unfold read_number. destruct (pickup !! "totalItems") as [[]|];
      first [apply keeps_ret | apply keeps_throw]. }
  intros totalItems. apply keeps_commit.
  apply keeps_bind.
  { apply keeps_updateDoc. intros db d HI _.
    apply I_other; [discriminate | discriminate | exact HI]. }
  intros _. apply keeps_bind.
  { apply keeps_updateDoc. intros db d HI Hd. apply I_award; assumption. }
  intros _.
  apply (keeps_newDoc_setDoc I (serverTimestamp clock) CreditTransactions
           (fun _ => creditTransaction donorId pickupId w c)
           (fun _ => notifRef <- newDoc Notifications ;;
                     setDoc (serverTimestamp clock) Notifications notifRef
                       (creditNotification donorId pickupId w c))).
  { intros db id HI _. apply I_other; [discriminate | discriminate | exact HI]. }
  intros _ db HI. unfold bind, newDoc, setDoc.
  apply I_new_notification; [exact HI | apply (newDoc_is_new Notifications)].
Qed.

Lemma keeps_common_call (clock : Clock) (c : Call) :
  common_call c -> keeps I (call clock c).
Proof.
  destruct c; cbn [common_call call]; intros Hc; try contradiction.
  - (* createPickup *)
    unfold ignore, createPickup. apply keeps_bind; [|intros _; apply keeps_ret].
    apply keeps_addDoc. intros db id HI _.
    apply I_other; [discriminate | discriminate | exact HI].
  - (* updatePickupStatus *)
    unfold updatePickupStatus. apply keeps_updateDoc. intros db d HI _.
    apply I_other; [discriminate | discriminate | exact HI].
  - (* addPickupItems *)
    unfold addPickupItems. apply keeps_commit, keeps_addPickupItems_loop.
  - (* addCreditTransaction *)
    unfold ignore, addCreditTransaction. apply keeps_bind; [|intros _; apply keeps_ret].
    apply keeps_addDoc. intros db id HI _.
    apply I_other; [discriminate | discriminate | exact HI].
  - (* createNotification *)
    unfold ignore, createNotification. apply keeps_bind; [|intros _; apply keeps_ret].
    apply keeps_addDoc. intros db id HI Hnew.
    apply I_new_notification; assumption.
  - (* seedAchievements *)
    unfold seedAchievements. apply keeps_commit, keeps_seedAchievements_loop.
  - (* seedEwasteCategories *)
    unfold seedEwasteCategories. apply keeps_commit, keeps_seedEwasteCategories_loop.
  - (* completePickupAndAwardCredits *)
    apply keeps_award.
  - (* acceptPickup *)
    unfold acceptPickup. apply keeps_updateDoc. intros db d HI _.
    apply I_other; [discriminate | discriminate | exact HI].
Qed.

End CallsKeep.

(** ** Notifications *)

Section NotificationFacts.
Import Firestore Services.

(** The document that [createNotification] stores for [data]. *)
Lemma createNotification_stores (clock : Clock) (data : Doc) (db : Database) :
  createNotification clock data db
  = (Ok (fresh (dom (notifications db))),
     set_coll Notifications
       (<[fresh (dom (notifications db)) :=
            fresh_doc (serverTimestamp clock)
              (spread (plain data)
                 (obj [ ("isRead", WVal (VBool false));
                        ("createdAt", WServerTimestamp) ]))]> (notifications db)) db).
Proof. reflexivity. Qed.

Lemma unread_fields_other (field : string) :
  field <> "isRead" -> field <> "createdAt" ->
  (obj [ ("isRead", WVal (VBool false)); ("createdAt", WServerTimestamp) ] : Writes)
    !! field = None.
Proof.
  intros. unfold obj. cbn [rev app list_to_map foldr].
  simplify_map_eq. reflexivity.
Qed.

(** Writing [isRead: true] over a document. *)
Lemma mark_read_doc (now : Z) (notif : Doc) :
  apply_writes now (obj [ ("isRead", WVal (VBool true)) ]) notif
  = <["isRead" := VBool true]> notif.
Proof.
  apply map_eq. intros field. rewrite lookup_apply_writes.
  destruct (decide (field = "isRead")) as [->|Hne].
  - rewrite lookup_insert_eq. reflexivity.
  - unfold obj. cbn [rev app list_to_map foldr].
    simplify_map_eq. reflexivity.
Qed.

(** A stored notification stays as it is through every call of the first
    kind, through a new profile and through a profile update. *)
Lemma notification_kept (clock : Clock) (c : Call) (db : Database)
    (id : string) (notif : Doc) :
  (forall notificationId, c <> MarkNotificationAsRead notificationId) ->
  notifications db !! id = Some notif ->
  notifications (after clock c db) !! id = Some notif.
Proof.
  intros Hc Hnotif. unfold after.
  apply (keeps_snd (fun db => notifications db !! id = Some notif)); [|exact Hnotif].
  assert (Hother : forall (col : Collection) (m : Docs) (db0 : Database),
             col <> Notifications ->
             notifications db0 !! id = Some notif ->
             notifications (set_coll col m db0) !! id = Some notif).
  { intros col m db0 Hcol H. destruct col; try exact H. congruence. }
  destruct c;
    try (apply keeps_common_call;
         [ intros col m db0 _ Hcol; apply Hother; exact Hcol
         | intros db0 id0 n0 H Hnew; cbn [set_coll notifications];
           rewrite lookup_insert_ne; [exact H | congruence]
         | intros db0 clock0 u p n w c0 H _; apply Hother; [discriminate | exact H]
         | exact Logic.I ]).
  - (* createProfile *)
    cbn [call]. unfold ignore, createProfile.
    apply keeps_bind; [|intros _; apply keeps_ret].
    apply keeps_bind; [|intros _; apply keeps_ret].
    apply keeps_setDoc. intros db0 H. apply Hother; [discriminate | exact H].
  - (* updateProfile *)
    cbn [call]. unfold updateProfile.
    apply keeps_updateDoc. intros db0 d H _. apply Hother; [discriminate | exact H].
  - (* markNotificationAsRead *)
    exfalso. exact (Hc notificationId eq_refl).
Qed.

(** C10.  Whatever record is passed to [createNotification], the stored
    notification has [isRead = false], also when the record carries
    [isRead = true]; its other fields, apart from the timestamp
    [createdAt], are those of the record.  [markNotificationAsRead] sets
    [isRead] to true on an existing notification and changes no other field
    of it, no other notification and no other collection.  No other call of
    the service module changes a stored notification, so the flag becomes
    true through [markNotificationAsRead] only. *)
Theorem notification_read_flag (clock : Clock) (db : Database) :
  (forall data : Doc,
     exists (id : string) (notif : Doc),
       createNotification clock data db
       = (Ok id, set_coll Notifications (<[id := notif]> (notifications db)) db)
       /\ notifications db !! id = None
       /\ notif !! "isRead" = Some (VBool false)
       /\ forall field, field <> "isRead" -> field <> "createdAt" ->
            notif !! field = data !! field)
  /\ (forall (id : string) (notif : Doc),
        notifications db !! id = Some notif ->
        markNotificationAsRead clock id db
        = (Ok tt,
           set_coll Notifications
             (<[id := <["isRead" := VBool true]> notif]> (notifications db)) db))
  /\ (forall (c : Call) (id : string) (notif : Doc),
        (forall notificationId, c <> MarkNotificationAsRead notificationId) ->
        notifications db !! id = Some notif ->
        notifications (after clock c db) !! id = Some notif).
Proof.
  split; [|split].
  - intros data. eexists _, _. split; [apply createNotification_stores|].
    split; [apply (newDoc_is_new Notifications)|].
    split.
    + rewrite lookup_fresh_doc, lookup_spread. reflexivity.
    + intros field Hr Hc.
      rewrite lookup_fresh_doc, lookup_spread, (unread_fields_other _ Hr Hc), lookup_plain.
      destruct (data !! field); reflexivity.
  - intros id notif Hnotif.
    unfold markNotificationAsRead, updateDoc. cbn [coll]. rewrite Hnotif.
    rewrite mark_read_doc. reflexivity.
  - intros c id notif. apply notification_kept.
Qed.

(** A record that carries [isRead = true] is stored unread; marking it sets
    the flag; an award in between leaves it unread. *)
Lemma notification_read_flag_witness :
  (exists (id : string) (notif : Doc),
     createNotification Demo.clock
       (obj [ ("userId", VStr "donor"); ("title", VStr "Hello"); ("isRead", VBool true) ])
       Demo.db_completed
     = (Ok id, set_coll Notifications (<[id := notif]> (notifications Demo.db_completed))
                 Demo.db_completed)
     /\ notif !! "isRead" = Some (VBool false)
     /\ notif !! "title" = Some (VStr "Hello"))
  /\ notifications
       (after Demo.clock (CompletePickupAndAwardCredits "0" 1 1) Demo.db_completed) !! "0"
     = Some Demo.award_notification.
Proof.
  destruct (notification_read_flag Demo.clock Demo.db_completed) as (Hcreate & _ & Hkept).
  split.
  - destruct (Hcreate (obj [ ("userId", VStr "donor"); ("title", VStr "Hello");
                             ("isRead", VBool true) ]))
      as (id & notif & Hrun & _ & Hread & Hother).
    exists id, notif. split; [exact Hrun|]. split; [exact Hread|].
    rewrite (Hother "title"); [reflexivity | discriminate | discriminate].
  - apply Hkept; [discriminate|].
    apply lookup_default. vm_compute. reflexivity.
Defined.

End NotificationFacts.

(** ** The stored badge *)

Section BadgeFacts.
Import Firestore Services Badges.

Lemma all_seedlings_other (c : Collection) (m : Docs) (db : Database) :
  c <> Profiles -> all_seedlings db -> all_seedlings (set_coll c m db).
Proof. intros Hc H. destruct c; try exact H. congruence. Qed.

Lemma all_seedlings_award (db : Database) (clock : Clock) (donorId : string)
    (profile : Doc) (n w c : Q) :
  all_seedlings db -> profiles db !! donorId = Some profile ->
  all_seedlings
    (set_coll Profiles
       (<[donorId := apply_writes (serverTimestamp clock)
                       (donorIncrements clock n w c) profile]> (profiles db)) db).
Proof.
  intros H Hprofile userId p. cbn [set_coll profiles].
  destruct (decide (donorId = userId)) as [->|Hne].
  - rewrite lookup_insert_eq. intros [= <-].
    rewrite lookup_apply_writes.
    change (donorIncrements clock n w c !! "badgeLevel") with (@None Write).
    apply (H userId profile Hprofile).
  - rewrite lookup_insert_ne by exact Hne. apply H.
Qed.

Lemma all_seedlings_createProfile (clock : Clock) (userId : string) (data : Doc) :
  zero_baselines data ->
  keeps all_seedlings (createProfile clock userId data).
Proof.
  intros (_ & _ & _ & _ & _ & Hbadge). unfold createProfile.
  apply keeps_bind; [|intros _; apply keeps_ret].
  apply keeps_setDoc. intros db H u p. cbn [set_coll coll profiles].
  destruct (decide (userId = u)) as [->|Hne].
  - rewrite lookup_insert_eq. intros [= <-].
    rewrite lookup_fresh_doc, lookup_plain, lookup_spread, Hbadge. reflexivity.
  - rewrite lookup_insert_ne by exact Hne. apply H.
Qed.

Lemma all_seedlings_step (clock : Clock) (c : Call) (db : Database) :
  public_step c -> all_seedlings db -> all_seedlings (after clock c db).
Proof.
  intros Hc H. unfold after. apply keeps_snd; [|exact H].
  destruct c;
    try (apply keeps_common_call;
         [ intros col m db0 Hcol _; apply all_seedlings_other; exact Hcol
         | intros db0 id0 n0 H0 _; apply all_seedlings_other; [discriminate | exact H0]
         | intros db0 clock0 u p n w c0; apply all_seedlings_award
         | exact Logic.I ]).
  - (* createProfile *)
    cbn [call]. unfold ignore. apply keeps_bind; [|intros _; apply keeps_ret].
    apply all_seedlings_createProfile. exact Hc.
  - (* updateProfile *)
    contradiction.
  - (* markNotificationAsRead *)
    cbn [call]. unfold markNotificationAsRead.
    apply keeps_updateDoc. intros db0 d H0 _.
    apply all_seedlings_other; [discriminate | exact H0].
Qed.

Lemma reachable_all_seedlings (db : Database) : reachable db -> all_seedlings db.
Proof.
  induction 1 as [|clock c db Hreach IH Hc].
  - intros userId profile Hlookup. cbn [emptyDatabase profiles] in Hlookup.
    rewrite lookup_empty in Hlookup. discriminate.
  - apply all_seedlings_step; assumption.
Qed.

Lemma reachable_after_all (clock : Clock) (cs : list Call) (db : Database) :
  reachable db -> Forall public_step cs -> reachable (after_all clock cs db).
Proof.
  intros Hdb Hcs. revert db Hdb.
  induction Hcs as [|c cs Hc Hcs IH]; intros db Hdb; [exact Hdb|].
  cbn [after_all fold_left]. apply IH. apply reachable_step; assumption.
Qed.

Lemma reachable_db_collected : reachable Demo.db_collected.
Proof.
  unfold Demo.db_collected, Demo.db_pending, Demo.db_profile.
  repeat apply reachable_after_all; [apply reachable_empty | | |].
  - repeat constructor; vm_compute; reflexivity.
  - repeat constructor.
  - repeat constructor.
Qed.

Lemma reachable_db_completed : reachable Demo.db_completed.
Proof.
  unfold Demo.db_completed.
  apply reachable_step; [apply reachable_db_collected | exact Logic.I].
Qed.

(** In an ascending table a balance is in the first tier exactly when it is
    below the threshold of the second. *)
Lemma tier_seedling (t : BadgeTable) (g : Q) :
  ascending t ->
  (badge_name (tier t g) = "seedling" <-> (g < sprout_from t)%Q).
Proof.
  intros (H12 & H23 & H34). unfold tier.
  destruct (Qle_bool (earth_guardian_from t) g) eqn:E4.
  { split; [discriminate|]. intros Hg. apply Qle_bool_iff in E4.
    exfalso. apply (Qlt_irrefl g).
    eapply Qlt_le_trans; [|exact E4].
    eapply Qlt_trans; [exact Hg|]. eapply Qlt_trans; [exact H12|].
    eapply Qlt_trans; [exact H23 | exact H34]. }
  destruct (Qle_bool (forest_from t) g) eqn:E3.
  { split; [discriminate|]. intros Hg. apply Qle_bool_iff in E3.
    exfalso. apply (Qlt_irrefl g).
    eapply Qlt_le_trans; [|exact E3].
    eapply Qlt_trans; [exact Hg|]. eapply Qlt_trans; [exact H12 | exact H23]. }
  destruct (Qle_bool (tree_from t) g) eqn:E2.
  { split; [discriminate|]. intros Hg. apply Qle_bool_iff in E2.
    exfalso. apply (Qlt_irrefl g).
    eapply Qlt_le_trans; [|exact E2].
    eapply Qlt_trans; [exact Hg | exact H12]. }
  destruct (Qle_bool (sprout_from t) g) eqn:E1.
  { split; [discriminate|]. intros Hg. apply Qle_bool_iff in E1.
    exfalso. apply (Qlt_irrefl g).
    eapply Qlt_le_trans; [exact Hg | exact E1]. }
  split; [|reflexivity]. intros _.
  apply Qnot_le_lt. intros Hle. apply Qle_bool_iff in Hle. congruence.
Qed.

(** C5, as the code has it.  [createProfile] with zero baselines stores the
    badge 'seedling' and no later call changes it: in every reachable
    database the stored [badgeLevel] of every profile is 'seedling', whatever
    its [greenCredits].  For an ascending threshold table the stored badge
    is therefore the tier of the balance exactly as long as the balance is
    below the threshold of the second tier. *)
Theorem stored_badge_stays_seedling (db : Database) (userId : string) (profile : Doc) :
  reachable db ->
  profiles db !! userId = Some profile ->
  profile !! "badgeLevel" = Some (VStr "seedling")
  /\ forall (t : BadgeTable) (g : Q),
       ascending t ->
       profile !! "greenCredits" = Some (VNum g) ->
       (profile !! "badgeLevel" = Some (VStr (badge_name (tier t g)))
        <-> (g < sprout_from t)%Q).
Proof.
  intros Hreach Hprofile.
  pose proof (reachable_all_seedlings db Hreach userId profile Hprofile) as Hbadge.
  split; [exact Hbadge|].
  intros t g Hasc _. rewrite Hbadge. rewrite <- (tier_seedling t g Hasc).
  split.
  - intros [= Heq]. symmetry. exact Heq.
  - intros ->. reflexivity.
Qed.

(** After the award of the small history the donor has 12 credits and the
    badge 'seedling'. *)
Lemma stored_badge_stays_seedling_witness :
  Demo.awarded_profile !! "greenCredits" = Some (VNum 12)
  /\ Demo.awarded_profile !! "badgeLevel" = Some (VStr "seedling").
Proof.
  split; [vm_compute; reflexivity|].
  apply (stored_badge_stays_seedling Demo.db_completed "donor" Demo.awarded_profile).
  - apply reachable_db_completed.
  - apply lookup_default. vm_compute. reflexivity.
Defined.

(** C5 as claimed fails for every ascending threshold table: awarding the
    threshold of the second tier to the new donor of the small history
    leaves a profile whose balance is in the second tier and whose stored
    badge is still 'seedling'. *)
Lemma badge_falls_behind_balance :
  ~ exists t : BadgeTable,
      ascending t /\ forall db : Database, reachable db -> badge_matches t db.
Proof.
  intros (t & Hasc & Hmatch).
  pose (c := CompletePickupAndAwardCredits "0" 0 (sprout_from t)).
  assert (Hreach : reachable (after Demo.clock c Demo.db_collected)).
  { apply reachable_step; [apply reachable_db_collected | exact Logic.I]. }
  assert (Hrun := award_succeeds Demo.clock "0" 0 (sprout_from t) Demo.db_collected
                    Demo.collected_pickup Demo.new_profile "donor" 2).
  assert (Hprofile :
            profiles (after Demo.clock c Demo.db_collected) !! "donor"
            = Some (apply_writes (serverTimestamp Demo.clock)
                      (donorIncrements Demo.clock 2 0 (sprout_from t)) Demo.new_profile)).
  { unfold after, c. cbn [call]. rewrite Hrun.
    - cbn [snd profiles]. apply lookup_insert_eq.
    - apply lookup_default. vm_compute. reflexivity.
    - vm_compute. reflexivity.
    - vm_compute. reflexivity.
    - apply lookup_default. vm_compute. reflexivity. }
  assert (Hg : apply_writes (serverTimestamp Demo.clock)
                 (donorIncrements Demo.clock 2 0 (sprout_from t)) Demo.new_profile
                 !! "greenCredits" = Some (VNum (0 + sprout_from t))).
  { apply increment_field; [reflexivity | vm_compute; reflexivity]. }
  specialize (Hmatch _ Hreach "donor" _ (0 + sprout_from t)%Q Hprofile Hg).
  rewrite lookup_apply_writes in Hmatch.
  change (donorIncrements Demo.clock 2 0 (sprout_from t) !! "badgeLevel")
    with (@None Write) in Hmatch.
  assert (Hbadge : Demo.new_profile !! "badgeLevel" = Some (VStr "seedling"))
    by (vm_compute; reflexivity).
  rewrite Hbadge in Hmatch.
  injection Hmatch as Hname. symmetry in Hname.
  apply (tier_seedling t _ Hasc) in Hname.
  rewrite Qplus_0_l in Hname. exact (Qlt_irrefl _ Hname).
Qed.

End BadgeFacts.

(** ** The pickup form *)

Section FormFacts.
Import Firestore Services Binary64 PickupForm.

Lemma fold_left_double_sum {A} (f : A -> spec_float) (l : list A) (a : spec_float) :
  fold_left (fun s i => add s (f i)) l a = fold_left add (map f l) a.
Proof.
  revert a. induction l as [|x l IH]; intros a; [reflexivity|].
  cbn [fold_left map]. apply IH.
Qed.

(** The two [reduce] calls add the doubles from left to right. *)
Lemma totalItems_sum (l : list FormItem) :
  totalItems l = double_sum (map (fun i => of_number (quantity i)) l).
Proof. apply (fold_left_double_sum (fun i => of_number (quantity i))). Qed.

Lemma totalWeight_sum (l : list FormItem) :
  totalWeight l
  = double_sum (map (fun i => mul (of_number (estimatedWeight i)) (of_number (quantity i))) l).
Proof.
  apply (fold_left_double_sum
           (fun i => mul (of_number (estimatedWeight i)) (of_number (quantity i)))).
Qed.

(** [round_half_up x] is the integer [z] with [z - 1/2 <= x < z + 1/2]. *)
Lemma round_half_up_nearest (x : Q) :
  (inject_Z (round_half_up x) - (1 # 2) <= x
   /\ x < inject_Z (round_half_up x) + (1 # 2))%Q.
Proof.
  unfold round_half_up.
  pose proof (Qfloor_le (x + (1 # 2))) as Hle.
  pose proof (Qlt_floor (x + (1 # 2))) as Hlt.
  rewrite inject_Z_plus in Hlt. change (inject_Z 1) with 1%Q in Hlt.
  split; lra.
Qed.

(** The batch of [addPickupItems] is never refused: it adds one document
    per item and touches nothing else. *)
Lemma addPickupItems_loop_run (now : Z) (pickupId : string) (docs : list Doc)
    (db : Database) :
  exists db' : Database,
    addPickupItems_loop now pickupId docs db = (Ok tt, db')
    /\ size (pickupItems db') = (size (pickupItems db) + length docs)%nat
    /\ (forall id d, pickupItems db' !! id = Some d -> pickupItems db !! id = None ->
          d !! "pickupId" = Some (VStr pickupId))
    /\ (forall id d, pickupItems db !! id = Some d -> pickupItems db' !! id = Some d)
    /\ pickups db' = pickups db
    /\ profiles db' = profiles db
    /\ creditTransactions db' = creditTransactions db
    /\ notifications db' = notifications db.
Proof.
  revert db. induction docs as [|item rest IH]; intros db.
  - exists db. cbn [addPickupItems_loop length]. rewrite Nat.add_0_r.
    repeat split; try reflexivity; try (intros; assumption).
    intros id d Hsome Hnone. congruence.
  - cbn [addPickupItems_loop]. unfold bind at 1 2. unfold newDoc at 1. unfold setDoc at 1.
    cbn [coll].
    set (id0 := fresh (dom (pickupItems db))).
    set (d0 := fresh_doc now
                 (spread (plain item)
                    (obj [ ("pickupId", WVal (VStr pickupId));
                           ("createdAt", WServerTimestamp) ]))).
    assert (Hnew : pickupItems db !! id0 = None) by apply (newDoc_is_new PickupItems).
    destruct (IH (set_coll PickupItems (<[id0 := d0]> (pickupItems db)) db))
      as (db' & Hrun & Hsize & Hnewdocs & Hold & Hp & Hpr & Hct & Hn).
    cbn [set_coll pickupItems pickups profiles creditTransactions notifications] in *.
    exists db'. split; [exact Hrun|].
    split.
    { rewrite Hsize, (map_size_insert_None _ _ _ Hnew). cbn [length]. lia. }
    split.
    { intros id d Hsome Hnone.
      destruct (decide (id0 = id)) as [<-|Hne].
      - specialize (Hold id0 d0). rewrite lookup_insert_eq in Hold.
        specialize (Hold eq_refl). rewrite Hold in Hsome. injection Hsome as <-.
        unfold d0. rewrite lookup_fresh_doc, lookup_spread. reflexivity.
      - apply (Hnewdocs id d Hsome). rewrite lookup_insert_ne by exact Hne. exact Hnone. }
    split.
    { intros id d Hsome. apply Hold.
      rewrite lookup_insert_ne; [exact Hsome | congruence]. }
    repeat split; assumption.
Qed.

(** The database left by [handleSubmit], and the stored request. *)
Lemma handleSubmit_run (clockPickup clockItems : Clock) (userId : string)
    (formData : FormData) (db : Database) :
  exists db' : Database,
    handleSubmit clockPickup clockItems userId formData db
    = (Ok (fresh (dom (pickups db))), db')
    /\ pickups db'
       = <[fresh (dom (pickups db)) :=
             fresh_doc (serverTimestamp clockPickup)
               (spread (plain (pickupData userId formData))
                  (obj [ ("createdAt", WServerTimestamp);
                         ("updatedAt", WServerTimestamp) ]))]> (pickups db)
    /\ size (pickupItems db')
       = (size (pickupItems db) + length (items formData))%nat
    /\ (forall id d, pickupItems db' !! id = Some d -> pickupItems db !! id = None ->
          d !! "pickupId" = Some (VStr (fresh (dom (pickups db)))))
    /\ profiles db' = profiles db
    /\ creditTransactions db' = creditTransactions db
    /\ notifications db' = notifications db.
Proof.
  unfold handleSubmit, createPickup, addDoc, addPickupItems.
  unfold bind at 1 2 3 4. unfold newDoc, setDoc, ret at 1. cbn [coll].
  set (id := fresh (dom (pickups db))).
  set (request := fresh_doc _ _).
  destruct (addPickupItems_loop_run (serverTimestamp clockItems) id
              (map itemData (items formData))
              (set_coll Pickups (<[id := request]> (pickups db)) db))
    as (db' & Hrun & Hsize & Hnewdocs & _ & Hp & Hpr & Hct & Hn).
  cbn [set_coll pickupItems pickups profiles creditTransactions notifications] in *.
  exists db'. unfold commit, ret. rewrite Hrun.
  split; [reflexivity|]. split; [exact Hp|].
  split; [rewrite Hsize, length_map; reflexivity|].
  repeat split; assumption.
Qed.

Lemma request_field (now : Z) (userId : string) (formData : FormData)
    (field : string) (v : Value) :
  field <> "createdAt" -> field <> "updatedAt" ->
  pickupData userId formData !! field = Some v ->
  fresh_doc now
    (spread (plain (pickupData userId formData))
       (obj [ ("createdAt", WServerTimestamp); ("updatedAt", WServerTimestamp) ]))
    !! field = Some v.
Proof.
  intros Hc Hu Hv. rewrite lookup_fresh_doc, lookup_spread.
  replace ((obj [ ("createdAt", WServerTimestamp); ("updatedAt", WServerTimestamp) ]
              : Writes) !! field) with (@None Write).
  - rewrite lookup_plain, Hv. reflexivity.
  - unfold obj. cbn [rev app list_to_map foldr]. simplify_map_eq. reflexivity.
Qed.

(** C4, as the code has it.  [handleSubmit] and [createPickup] do not
    validate the items: for every form, with an empty item list or with
    quantities below 1 as with any other, the submission succeeds, creates
    one pickup request in status 'pending' under a new id and one pickup
    item per element of the list, each referring to that request. *)
Theorem submit_is_unvalidated (clockPickup clockItems : Clock) (userId : string)
    (formData : FormData) (db : Database) :
  exists (id : string) (db' : Database) (request : Doc),
    handleSubmit clockPickup clockItems userId formData db = (Ok id, db')
    /\ pickups db !! id = None
    /\ pickups db' = <[id := request]> (pickups db)
    /\ request !! "status" = Some (VStr "pending")
    /\ request !! "donorId" = Some (VStr userId)
    /\ size (pickupItems db') = (size (pickupItems db) + length (items formData))%nat
    /\ (forall itemId item,
          pickupItems db' !! itemId = Some item -> pickupItems db !! itemId = None ->
          item !! "pickupId" = Some (VStr id)).
Proof.
  destruct (handleSubmit_run clockPickup clockItems userId formData db)
    as (db' & Hrun & Hpickups & Hsize & Hitems & _).
  eexists _, db', _. split; [exact Hrun|].
  split; [apply (newDoc_is_new Pickups)|].
  split; [exact Hpickups|].
  split; [apply request_field; [discriminate | discriminate | reflexivity]|].
  split; [apply request_field; [discriminate | discriminate | reflexivity]|].
  split; [exact Hsize | exact Hitems].
Qed.

(** C4 as claimed fails: the form without items and the form with an item
    of quantity 0 are both accepted; each creates a pickup request, and the
    second one a pickup item as well. *)
Lemma invalid_forms_are_submitted :
  items Demo.empty_form = []
  /\ fst (handleSubmit Demo.clock Demo.clock "donor" Demo.empty_form Demo.db_profile)
     = Ok "0"
  /\ size (pickups Demo.db_profile) = 0%nat
  /\ size (pickups (snd (handleSubmit Demo.clock Demo.clock "donor" Demo.empty_form
                           Demo.db_profile))) = 1%nat
  /\ map quantity (items Demo.zero_quantity_form) = [ 0%Q ]
  /\ fst (handleSubmit Demo.clock Demo.clock "donor" Demo.zero_quantity_form
            Demo.db_profile) = Ok "0"
  /\ size (pickups (snd (handleSubmit Demo.clock Demo.clock "donor"
                           Demo.zero_quantity_form Demo.db_profile))) = 1%nat
  /\ size (pickupItems (snd (handleSubmit Demo.clock Demo.clock "donor"
                               Demo.zero_quantity_form Demo.db_profile))) = 1%nat.
Proof. vm_compute. repeat split. Qed.

(** C8, as the code has it.  For every form whose totals are finite, the
    pickup request created by [handleSubmit] has status 'pending';
    [totalItems] is the sum of the quantities and [estimatedWeightKg] the sum
    of per-unit weight times quantity, both computed in double arithmetic,
    every product and every partial sum, from the left, rounded to the
    nearest double; and [estimatedCredits] is the nearest integer (a half
    rounding up) to the double product of [estimatedWeightKg] and 20.  One
    item of quantity 2 at 0.2 kg gives the double 0.4 and 8 credits. *)
Theorem submitted_request_totals :
  (forall (clockPickup clockItems : Clock) (userId : string) (formData : FormData)
          (db : Database) (n kg product : Q),
     to_number (totalItems (items formData)) = Some n ->
     to_number (totalWeight (items formData)) = Some kg ->
     to_number (mul (totalWeight (items formData)) (of_number 20)) = Some product ->
     exists (id : string) (db' : Database) (request : Doc) (credits : Z),
       handleSubmit clockPickup clockItems userId formData db = (Ok id, db')
       /\ pickups db' !! id = Some request
       /\ request !! "status" = Some (VStr "pending")
       /\ totalItems (items formData)
          = double_sum (map (fun i => of_number (quantity i)) (items formData))
       /\ request !! "totalItems" = Some (VNum n)
       /\ totalWeight (items formData)
          = double_sum (map (fun i => mul (of_number (estimatedWeight i))
                                         (of_number (quantity i)))
                           (items formData))
       /\ request !! "estimatedWeightKg" = Some (VNum kg)
       /\ request !! "estimatedCredits" = Some (VNum (inject_Z credits))
       /\ (inject_Z credits - (1 # 2) <= product)%Q
       /\ (product < inject_Z credits + (1 # 2))%Q)
  /\ totalWeight (items Demo.form) = of_number (4 # 10)
  /\ estimatedCredits (items Demo.form) = Some 8%Z
  /\ (pickups Demo.db_pending !! "0" ≫= (.!! "totalItems")) = Some (VNum 2)
  /\ (pickups Demo.db_pending !! "0" ≫= (.!! "estimatedWeightKg"))
     = Some (VNum Demo.kg_04)
  /\ to_number (of_number (4 # 10)) = Some Demo.kg_04
  /\ (pickups Demo.db_pending !! "0" ≫= (.!! "estimatedCredits")) = Some (VNum 8).
Proof.
  split; [|repeat split; vm_compute; reflexivity].
  intros clockPickup clockItems userId formData db n kg product Hn Hkg Hproduct.
  destruct (handleSubmit_run clockPickup clockItems userId formData db)
    as (db' & Hrun & Hpickups & _).
  eexists _, db', _, (round_half_up product). split; [exact Hrun|].
  split; [rewrite Hpickups; apply lookup_insert_eq|].
  split; [apply request_field; [discriminate | discriminate | reflexivity]|].
  split; [apply totalItems_sum|].
  split.
  { apply request_field; [discriminate | discriminate |].
    replace (VNum n) with (number (totalItems (items formData)))
      by (unfold number; rewrite Hn; reflexivity).
    reflexivity. }
  split; [apply totalWeight_sum|].
  split.
  { apply request_field; [discriminate | discriminate |].
    replace (VNum kg) with (number (totalWeight (items formData)))
      by (unfold number; rewrite Hkg; reflexivity).
    reflexivity. }
  split.
  { apply request_field; [discriminate | discriminate |].
    replace (VNum (inject_Z (round_half_up product)))
      with (whole_number (estimatedCredits (items formData)))
      by (unfold whole_number, estimatedCredits, Math_round; rewrite Hproduct;
          reflexivity).
    reflexivity. }
  apply round_half_up_nearest.
Qed.

(** The form of the example, submitted by the donor of the demo history. *)
Lemma submitted_request_totals_witness :
  exists (id : string) (db' : Database) (request : Doc) (credits : Z),
    handleSubmit Demo.clock Demo.clock "donor" Demo.form Demo.db_profile = (Ok id, db')
    /\ pickups db' !! id = Some request
    /\ request !! "status" = Some (VStr "pending")
    /\ request !! "totalItems" = Some (VNum 2)
    /\ request !! "estimatedWeightKg" = Some (VNum Demo.kg_04)
    /\ request !! "estimatedCredits" = Some (VNum (inject_Z credits))
    /\ (inject_Z credits - (1 # 2) <= 8)%Q
    /\ (8 < inject_Z credits + (1 # 2))%Q.
Proof.
  destruct (proj1 submitted_request_totals Demo.clock Demo.clock "donor" Demo.form
              Demo.db_profile 2%Q Demo.kg_04 8%Q)
    as (id & db' & request & credits & Hrun & Hreq & Hstatus & _ & Hn & _ & Hkg
        & Hcredits & Hlow & Hhigh).
  - vm_compute. reflexivity.
  - vm_compute. reflexivity.
  - vm_compute. reflexivity.
  - exists id, db', request, credits. repeat split; assumption.
Defined.

(** C8 as claimed fails when the sums and the rounding are read on exact
    numbers.  Five items at 0.015 kg each: the stored weight is the double
    0.075 and the stored credits are 2, although the stored weight times 20
    is below 1.5, so that its nearest integer is 1; the double product is
    1.5, which [Math.round] takes to 2.  Three items at 0.175 kg each: the
    stored credits are 10, although 0.175 times 3 times 20 is 10.5, which
    rounds to 11.  Three items at 0.3 kg each, the average weight of a
    cable: the stored weight is the double below 0.9, which is neither
    three times the double 0.3 nor the double 0.9. *)
Lemma credits_round_the_double_product :
  (pickups (snd (handleSubmit Demo.clock Demo.clock "donor" Demo.five_light_items
                   Demo.db_profile)) !! "0" ≫= (.!! "estimatedWeightKg"))
  = Some (VNum Demo.kg_0075)
  /\ (pickups (snd (handleSubmit Demo.clock Demo.clock "donor" Demo.five_light_items
                      Demo.db_profile)) !! "0" ≫= (.!! "estimatedCredits"))
     = Some (VNum 2)
  /\ round_half_up (Demo.kg_0075 * 20) = 1%Z
  /\ to_number (mul (mul (of_number (15 # 1000)) (of_number 5)) (of_number 20))
     = Some (3 # 2)
  /\ (pickups (snd (handleSubmit Demo.clock Demo.clock "donor" Demo.three_items
                      Demo.db_profile)) !! "0" ≫= (.!! "estimatedCredits"))
     = Some (VNum 10)
  /\ round_half_up ((175 # 1000) * 3 * 20) = 11%Z
  /\ (pickups (snd (handleSubmit Demo.clock Demo.clock "donor" Demo.three_cables
                      Demo.db_profile)) !! "0" ≫= (.!! "estimatedWeightKg"))
     = Some (VNum Demo.kg_below_09)
  /\ to_number (of_number (3 # 10)) = Some Demo.kg_03
  /\ ~ (Demo.kg_below_09 == Demo.kg_03 * 3)%Q
  /\ to_number (of_number (9 # 10)) <> Some Demo.kg_below_09.
Proof.
  repeat split; try (vm_compute; reflexivity).
  - vm_compute. discriminate.
  - vm_compute. discriminate.
Qed.

End FormFacts.

(** ** More on the label matcher *)

Section ScannerMore.
Import Scanner.

(** What a [return] from the innermost loop carries. *)
Lemma scan_keys_some predictions pred word entries (r : ScanResult) :
  scan_keys predictions pred word entries = Some r ->
  above_threshold (probability pred) = true
  /\ exists key value,
       In (key, value) entries
       /\ matches word key = true
       /\ r = {| label := className pred;
                 confidence := probability pred;
                 isEwaste := true;
                 category := Some (value_category value);
                 categorySlug := Some (value_slug value);
                 allPredictions := predictions |}.
Proof.
  induction entries as [|[key value] rest IH]; cbn [scan_keys]; [discriminate|].
  destruct (matches word key) eqn:Hm.
  - destruct (above_threshold (probability pred)) eqn:Ha.
    + intros [= <-]. split; [reflexivity|].
      exists key, value. split; [left; reflexivity|]. split; [exact Hm | reflexivity].
    + intros H. destruct (IH H) as (Habove & _). discriminate.
  - intros H. destruct (IH H) as (Habove & key' & value' & Hin & Hrest).
    split; [exact Habove|]. exists key', value'. split; [right; exact Hin | exact Hrest].
Qed.

Lemma scan_words_some predictions pred ws (r : ScanResult) :
  scan_words predictions pred ws = Some r ->
  above_threshold (probability pred) = true
  /\ exists word key value,
       In word ws
       /\ In (key, value) EWASTE_LABEL_MAP
       /\ matches word key = true
       /\ r = {| label := className pred;
                 confidence := probability pred;
                 isEwaste := true;
                 category := Some (value_category value);
                 categorySlug := Some (value_slug value);
                 allPredictions := predictions |}.
Proof.
  induction ws as [|w rest IH]; [discriminate|].
  rewrite scan_words_cons.
  destruct (scan_keys predictions pred w EWASTE_LABEL_MAP) as [r'|] eqn:Hk.
  - intros [= <-]. destruct (scan_keys_some _ _ _ _ _ Hk) as (Ha & key & value & Hin & Hm & Hr).
    split; [exact Ha|]. exists w, key, value.
    split; [left; reflexivity|]. split; [exact Hin|]. split; [exact Hm | exact Hr].
  - intros H. destruct (IH H) as (Ha & word & key & value & Hin & Hrest).
    split; [exact Ha|]. exists word, key, value. split; [right; exact Hin | exact Hrest].
Qed.

Lemma scan_predictions_some predictions todo (r : ScanResult) :
  scan_predictions predictions todo = Some r ->
  exists pred word key value,
    In pred todo
    /\ above_threshold (probability pred) = true
    /\ In word (words (className pred))
    /\ In (key, value) EWASTE_LABEL_MAP
    /\ matches word key = true
    /\ r = {| label := className pred;
              confidence := probability pred;
              isEwaste := true;
              category := Some (value_category value);
              categorySlug := Some (value_slug value);
              allPredictions := predictions |}.
Proof.
  induction todo as [|p rest IH]; [discriminate|].
  rewrite scan_predictions_cons.
  destruct (scan_words predictions p (words (className p))) as [r'|] eqn:Hw.
  - intros [= <-].
    destruct (scan_words_some _ _ _ _ Hw) as (Ha & word & key & value & Hin & Hk & Hm & Hr).
    exists p, word, key, value. split; [left; reflexivity|]. repeat split; assumption.
  - intros H. destruct (IH H) as (pred & word & key & value & Hin & Hrest).
    exists pred, word, key, value. split; [right; exact Hin | exact Hrest].
Qed.

(** A prediction above the threshold with a matching word stops the scan. *)
Lemma scan_words_hit predictions pred :
  hits_above_threshold pred = true ->
  exists r, scan_words predictions pred (words (className pred)) = Some r
            /\ label r = className pred
            /\ confidence r = probability pred
            /\ isEwaste r = true.
Proof.
  unfold hits_above_threshold, prediction_hits. intros H.
  apply andb_true_iff in H as [Ha Hhit].
  induction (words (className pred)) as [|w rest IH]; [discriminate|].
  rewrite scan_words_cons. cbn [existsb] in Hhit.
  destruct (scan_keys predictions pred w EWASTE_LABEL_MAP) as [r|] eqn:Hk.
  - exists r. split; [reflexivity|].
    destruct (scan_keys_some _ _ _ _ _ Hk) as (_ & key & value & _ & _ & ->).
    repeat split.
  - apply IH. destruct (word_hits w) eqn:Hw; [|exact Hhit].
    exfalso. unfold word_hits in Hw. clear IH Hhit.
    revert Hk Hw. generalize EWASTE_LABEL_MAP as entries.
    induction entries as [|[key value] es IHe]; cbn [scan_keys existsb fst]; [discriminate|].
    rewrite Ha. destruct (matches w key); [discriminate|]. cbn [orb]. exact IHe.
Qed.

Lemma scanImage_outcome (predictions : list Prediction) :
  isEwaste (scanImage predictions) = existsb hits_above_threshold predictions
  /\ allPredictions (scanImage predictions) = predictions.
Proof.
  unfold scanImage.
  destruct (scan_predictions predictions predictions) as [r|] eqn:Hscan.
  - destruct (scan_predictions_some _ _ _ Hscan)
      as (pred & word & key & value & Hin & Ha & Hw & Hk & Hm & ->).
    cbn [isEwaste allPredictions]. split; [|reflexivity].
    symmetry. apply existsb_exists. exists pred. split; [exact Hin|].
    unfold hits_above_threshold. rewrite Ha. cbn [andb].
    unfold prediction_hits. apply existsb_exists. exists word. split; [exact Hw|].
    unfold word_hits. apply existsb_exists. exists (key, value). split; [exact Hk | exact Hm].
  - cbn [bestMatch isEwaste allPredictions]. split; [|reflexivity].
    symmetry. destruct (existsb hits_above_threshold predictions) eqn:He; [|reflexivity].
    exfalso. revert Hscan. generalize predictions at 1 as all.
    induction predictions as [|p rest IH]; [discriminate|].
    intros all. rewrite scan_predictions_cons. cbn [existsb] in He.
    destruct (hits_above_threshold p) eqn:Hp.
    + destruct (scan_words_hit all p Hp) as (r & -> & _). discriminate.
    + destruct (scan_words all p (words (className p))); [discriminate|].
      apply IH. exact He.
Qed.







Lemma toLowerCase_app (a b : string) :
  toLowerCase (a ++ b) = toLowerCase a ++ toLowerCase b.
Proof.
  induction a as [|c a IH]; [reflexivity|].
  change (String c a ++ b) with (String c (a ++ b)).
  cbn [toLowerCase]. rewrite IH. reflexivity.
Qed.

Lemma replace_comma_underscore_app (a b : string) :
  replace_comma_underscore (a ++ b)
  = replace_comma_underscore a ++ replace_comma_underscore b.
Proof.
  induction a as [|c a IH]; [reflexivity|].
  change (String c a ++ b) with (String c (a ++ b)).
  cbn [replace_comma_underscore]. rewrite IH. reflexivity.
Qed.

(** Two adjacent spaces leave an empty piece after the first piece. *)
Lemma split_space_two_spaces (a b : string) :
  In "" (tl (split_space (a ++ "  " ++ b))).
Proof.
  induction a as [|c a IH].
  - change ("" ++ "  " ++ b) with (String " " (String " " b)).
    cbn [split_space Ascii.eqb Bool.eqb tl]. left. reflexivity.
  - change (String c a ++ "  " ++ b) with (String c (a ++ "  " ++ b)).
    cbn [split_space].
    destruct (Ascii.eqb c " ").
    + cbn [tl]. destruct (split_space (a ++ "  " ++ b)) as [|w ws];
        [destruct IH | right; exact IH].
    + destruct (split_space (a ++ "  " ++ b)) as [|w ws];
        [destruct IH | exact IH].
Qed.

Lemma words_comma_space (a b : string) : In "" (words (a ++ ", " ++ b)).
Proof.
  unfold words.
  rewrite toLowerCase_app, replace_comma_underscore_app.
  rewrite toLowerCase_app, replace_comma_underscore_app.
  change (replace_comma_underscore (toLowerCase ", ")) with "  ".
  pose proof (split_space_two_spaces
                (replace_comma_underscore (toLowerCase a))
                (replace_comma_underscore (toLowerCase b))) as H.
  destruct (split_space _) as [|w ws]; [destruct H | right; exact H].
Qed.

(** A label that lists two names separated by a comma and a space has an
    empty word, and the empty word matches every key: such a prediction
    above the 10% threshold makes the result positive, whatever the names
    are. *)
Theorem comma_separated_label_is_ewaste (predictions : list Prediction)
    (pred : Prediction) (a b : string) :
  In pred predictions ->
  className pred = a ++ ", " ++ b ->
  (1 # 10 < probability pred)%Q ->
  isEwaste (scanImage predictions) = true.
Proof.
  intros Hin Hname Hprob.
  rewrite (proj1 (scanImage_outcome predictions)).
  apply existsb_exists. exists pred. split; [exact Hin|].
  unfold hits_above_threshold. apply above_threshold_spec in Hprob. rewrite Hprob.
  cbn [andb]. unfold prediction_hits. apply existsb_exists. exists "".
  split; [rewrite Hname; apply words_comma_space|].
  unfold word_hits. apply existsb_exists.
  exists ("cellular_telephone", smartphones). split; [left; reflexivity|].
  apply empty_word_matches.
Qed.

Lemma comma_separated_label_is_ewaste_witness :
  isEwaste (scanImage [ {| className := "Egyptian cat"; probability := 2 # 10 |};
                        {| className := "tabby, tabby cat"; probability := 7 # 10 |} ])
  = true.
Proof.
  apply (comma_separated_label_is_ewaste _
           {| className := "tabby, tabby cat"; probability := 7 # 10 |}
           "tabby" "tabby cat").
  - right. left. reflexivity.
  - reflexivity.
  - reflexivity.
Defined.

End ScannerMore.

(** ** The label matcher against the specification's classifier *)

Section ClassifyFacts.
Import Scanner Classify.

Lemma pieces_only_spaces (s : string) :
  only_spaces s = true -> pieces s = split_space s.
Proof.
  induction s as [|c s IH]; [reflexivity|].
  cbn [only_spaces pieces split_space]. intros H.
  apply andb_true_iff in H as [Hc Hs]. rewrite (IH Hs).
  destruct (Ascii.eqb c " ") eqn:E.
  - apply Ascii.eqb_eq in E. subst c. reflexivity.
  - rewrite orb_false_r in Hc. apply negb_true_iff in Hc. rewrite Hc. reflexivity.
Qed.

Lemma filter_nonempty_all (l : list string) :
  forallb nonempty l = true -> List.filter nonempty l = l.
Proof.
  induction l as [|w l IH]; [reflexivity|].
  cbn [forallb List.filter]. intros H. apply andb_true_iff in H as [Hw Hl].
  rewrite Hw, (IH Hl). reflexivity.
Qed.

(** The pieces of [split(' ')] are the normalized words together with the
    empty pieces. *)
Lemma normalized_words_of_pieces (name : string) :
  only_spaces (replace_comma_underscore (toLowerCase name)) = true ->
  normalized_words name = List.filter nonempty (words name).
Proof.
  intros H. unfold normalized_words, split_whitespace, words.
  rewrite (pieces_only_spaces _ H). reflexivity.
Qed.

Lemma clean_label_words (name : string) :
  clean_label name = true -> words name = normalized_words name.
Proof.
  unfold clean_label. intros H. apply andb_true_iff in H as [Hs Hw].
  rewrite (normalized_words_of_pieces _ Hs), (filter_nonempty_all _ Hw). reflexivity.
Qed.

Lemma clean_label_nonempty (name : string) :
  clean_label name = true -> String.eqb name "" = false.
Proof.
  destruct name as [|c name]; [|reflexivity].
  vm_compute. discriminate.
Qed.

(** The two inner loops return at the first word that matches a key, with
    the first key it matches. *)
Lemma scan_keys_find predictions pred word entries :
  above_threshold (probability pred) = true ->
  scan_keys predictions pred word entries
  = option_map (fun entry => positive predictions pred (snd entry))
      (List.find (fun entry => matches word (fst entry)) entries).
Proof.
  intros Ha. induction entries as [|[key value] rest IH]; [reflexivity|].
  cbn [scan_keys List.find fst]. rewrite Ha.
  destruct (matches word key); [reflexivity | exact IH].
Qed.

Lemma scan_words_first_word predictions pred ws :
  above_threshold (probability pred) = true ->
  scan_words predictions pred ws
  = option_map (fun hit => positive predictions pred (snd (snd hit))) (first_word ws).
Proof.
  intros Ha. induction ws as [|w rest IH]; [reflexivity|].
  rewrite scan_words_cons, (scan_keys_find _ _ _ _ Ha).
  cbn [first_word]. unfold first_key.
  destruct (List.find (fun entry => matches w (fst entry)) EWASTE_LABEL_MAP);
    [reflexivity | exact IH].
Qed.

Lemma scan_predictions_classify (predictions todo : list Prediction) :
  forallb (fun p => clean_label (className p)) todo = true ->
  scan_predictions predictions todo = classify_from predictions todo.
Proof.
  induction todo as [|p rest IH]; [reflexivity|].
  cbn [forallb]. intros H. apply andb_true_iff in H as [Hp Hrest].
  rewrite scan_predictions_cons, (clean_label_words _ Hp). cbn [classify_from].
  destruct (above_threshold (probability p)) eqn:Ha.
  - rewrite (scan_words_first_word _ _ _ Ha).
    destruct (first_word (normalized_words (className p))) as [[w [k v]]|];
      [reflexivity | exact (IH Hrest)].
  - rewrite (scan_words_below _ _ _ Ha).
    destruct (first_word (normalized_words (className p))) as [[w [k v]]|];
      exact (IH Hrest).
Qed.

(** The specification's classifier decides by the first hit. *)
Lemma classify_from_first_hit (predictions todo : list Prediction)
    (pred : Prediction) (word key : string) (value : MapValue) :
  first_hit todo = Some (pred, word, key, value) ->
  above_threshold (probability pred) = true ->
  classify_from predictions todo = Some (positive predictions pred value).
Proof.
  induction todo as [|p rest IH]; [discriminate|].
  cbn [first_hit classify_from].
  destruct (first_word (normalized_words (className p))) as [[w [k v]]|].
  - intros [= <- <- <- <-] Ha. rewrite Ha. reflexivity.
  - exact IH.
Qed.

Lemma first_key_none (word : string) :
  first_key word = None <-> word_hits word = false.
Proof.
  unfold first_key, word_hits.
  induction EWASTE_LABEL_MAP as [|[key value] rest IH]; [split; reflexivity|].
  cbn [List.find existsb fst].
  destruct (matches word key); [split; discriminate | exact IH].
Qed.

Lemma first_word_none (ws : list string) :
  existsb word_hits ws = false -> first_word ws = None.
Proof.
  induction ws as [|w rest IH]; [reflexivity|].
  cbn [existsb first_word]. intros H. apply orb_false_iff in H as [Hw Hrest].
  apply first_key_none in Hw. rewrite Hw. exact (IH Hrest).
Qed.

Lemma classify_from_none (predictions todo : list Prediction) :
  existsb hit_above_threshold todo = false ->
  classify_from predictions todo = None.
Proof.
  induction todo as [|p rest IH]; [reflexivity|].
  cbn [existsb classify_from]. intros H. apply orb_false_iff in H as [Hp Hrest].
  unfold hit_above_threshold in Hp. apply andb_false_iff in Hp as [Hlow | Hno].
  - rewrite Hlow.
    destruct (first_word (normalized_words (className p))) as [[w [k v]]|];
      exact (IH Hrest).
  - rewrite (first_word_none _ Hno). exact (IH Hrest).
Qed.

(** C6.  The claim speaks of the normalized words of a label, split on
    whitespace.  On the predictions "tabby, tabby cat" at 50% and "laptop,
    laptop computer" at 30%, the words of the first label are tabby, tabby
    and cat, none of which matches a key: the first (prediction, word, key)
    hit in scan order is (laptop, "laptop", [laptop]), its prediction is
    above the 10% threshold, and by the claim the result carries the
    laptop's label, its probability 0.3 and the category of laptops.
    [scanImage] splits at single spaces, so the ", " of the first label
    leaves an empty piece, which every key contains: the result carries the
    cat's label, 0.5 and the category of the first key of the mapping,
    "Smartphones & Tablets". *)
Theorem cat_label_hides_the_laptop :
  normalized_words (className Demo.tabby) = [ "tabby"; "tabby"; "cat" ]
  /\ existsb word_hits (normalized_words (className Demo.tabby)) = false
  /\ first_hit [ Demo.tabby; Demo.laptop ] = Some (Demo.laptop, "laptop", "laptop", laptops)
  /\ (1 # 10 < probability Demo.laptop)%Q
  /\ classify [ Demo.tabby; Demo.laptop ]
     = {| label := "laptop, laptop computer";
          confidence := 3 # 10;
          isEwaste := true;
          category := Some "Laptops & Computers";
          categorySlug := Some "laptops";
          allPredictions := [ Demo.tabby; Demo.laptop ] |}
  /\ words (className Demo.tabby) = [ "tabby"; ""; "tabby"; "cat" ]
  /\ matches "" "cellular_telephone" = true
  /\ scanImage [ Demo.tabby; Demo.laptop ]
     = {| label := "tabby, tabby cat";
          confidence := 5 # 10;
          isEwaste := true;
          category := Some "Smartphones & Tablets";
          categorySlug := Some "smartphones";
          allPredictions := [ Demo.tabby; Demo.laptop ] |}.
Proof. repeat split; vm_compute; reflexivity. Qed.

(** C7.  On the single prediction "Siamese cat, Siamese" at 90%, the
    normalized words are siamese, cat and siamese; no key of the mapping
    matches any of them, so that by the claim the result is negative, with
    the label of the prediction and no category.  [scanImage] finds the
    empty piece that [split(' ')] leaves after the comma, which every key
    contains, and returns a positive result in the category "Smartphones &
    Tablets". *)
Theorem cat_label_is_reported_as_ewaste :
  normalized_words (className Demo.siamese) = [ "siamese"; "cat"; "siamese" ]
  /\ existsb hit_above_threshold [ Demo.siamese ] = false
  /\ classify [ Demo.siamese ]
     = {| label := "Siamese cat, Siamese";
          confidence := 9 # 10;
          isEwaste := false;
          category := None;
          categorySlug := None;
          allPredictions := [ Demo.siamese ] |}
  /\ words (className Demo.siamese) = [ "siamese"; "cat"; ""; "siamese" ]
  /\ scanImage [ Demo.siamese ]
     = {| label := "Siamese cat, Siamese";
          confidence := 9 # 10;
          isEwaste := true;
          category := Some "Smartphones & Tablets";
          categorySlug := Some "smartphones";
          allPredictions := [ Demo.siamese ] |}.
Proof. repeat split; vm_compute; reflexivity. Qed.

(** On labels whose pieces are their words (no separator at either end of
    the label, no two adjacent separators, no whitespace but spaces),
    [scanImage] returns what the specification's classifier returns: the
    same label, flag, category, slug and evidence, and the same confidence
    as a number. *)
Theorem scanImage_is_classify_on_clean_labels (predictions : list Prediction) :
  forallb (fun p => clean_label (className p)) predictions = true ->
  label (scanImage predictions) = label (classify predictions)
  /\ (confidence (scanImage predictions) == confidence (classify predictions))%Q
  /\ isEwaste (scanImage predictions) = isEwaste (classify predictions)
  /\ category (scanImage predictions) = category (classify predictions)
  /\ categorySlug (scanImage predictions) = categorySlug (classify predictions)
  /\ allPredictions (scanImage predictions) = allPredictions (classify predictions).
Proof.
  intros Hclean. unfold scanImage, classify.
  rewrite (scan_predictions_classify _ _ Hclean).
  destruct (classify_from predictions predictions) as [r|];
    [repeat split; reflexivity|].
  destruct predictions as [|top rest]; [repeat split; reflexivity|].
  cbn [forallb] in Hclean. apply andb_true_iff in Hclean as [Htop _].
  cbn [bestMatch negative label confidence isEwaste category categorySlug
       allPredictions label_or_unknown].
  rewrite (clean_label_nonempty _ Htop).
  split; [reflexivity|]. split; [apply probability_or_zero_top|].
  repeat split; reflexivity.
Qed.

Lemma scanImage_is_classify_on_clean_labels_witness :
  label (scanImage [ {| className := "golden retriever"; probability := 5 # 10 |};
                     {| className := "desktop computer"; probability := 3 # 10 |} ])
  = "desktop computer"
  /\ label (classify [ {| className := "golden retriever"; probability := 5 # 10 |};
                       {| className := "desktop computer"; probability := 3 # 10 |} ])
     = "desktop computer".
Proof.
  destruct (scanImage_is_classify_on_clean_labels
              [ {| className := "golden retriever"; probability := 5 # 10 |};
                {| className := "desktop computer"; probability := 3 # 10 |} ])
    as (Hlabel & _).
  - vm_compute. reflexivity.
  - split; [|vm_compute; reflexivity]. rewrite Hlabel. vm_compute. reflexivity.
Defined.

(** On such labels the first hit wins: when the first (prediction, word,
    key) hit among the normalized words, in scan order, belongs to a
    prediction whose probability exceeds 0.10, [scanImage] returns the
    positive result with that prediction's label and probability and the
    category and slug mapped to that key, whatever the probabilities of the
    predictions after it. *)
Theorem first_hit_wins_on_clean_labels (predictions : list Prediction)
    (pred : Prediction) (word key : string) (value : MapValue) :
  forallb (fun p => clean_label (className p)) predictions = true ->
  first_hit predictions = Some (pred, word, key, value) ->
  (1 # 10 < probability pred)%Q ->
  scanImage predictions
  = {| label := className pred;
       confidence := probability pred;
       isEwaste := true;
       category := Some (value_category value);
       categorySlug := Some (value_slug value);
       allPredictions := predictions |}.
Proof.
  intros Hclean Hhit Hprob. apply above_threshold_spec in Hprob.
  unfold scanImage. rewrite (scan_predictions_classify _ _ Hclean).
  rewrite (classify_from_first_hit _ _ _ _ _ _ Hhit Hprob). reflexivity.
Qed.

(** A golden retriever at 50% has no matching word; the desktop computer
    behind it at 30% is the first hit, on its word "desktop" and the key
    [desktop_computer], although the monitor after it has 60%. *)
Lemma first_hit_wins_on_clean_labels_witness :
  scanImage [ {| className := "golden retriever"; probability := 5 # 10 |};
              {| className := "desktop computer"; probability := 3 # 10 |};
              {| className := "monitor"; probability := 6 # 10 |} ]
  = {| label := "desktop computer";
       confidence := 3 # 10;
       isEwaste := true;
       category := Some "Laptops & Computers";
       categorySlug := Some "laptops";
       allPredictions :=
         [ {| className := "golden retriever"; probability := 5 # 10 |};
           {| className := "desktop computer"; probability := 3 # 10 |};
           {| className := "monitor"; probability := 6 # 10 |} ] |}.
Proof.
  apply (first_hit_wins_on_clean_labels
           [ {| className := "golden retriever"; probability := 5 # 10 |};
             {| className := "desktop computer"; probability := 3 # 10 |};
             {| className := "monitor"; probability := 6 # 10 |} ]
           {| className := "desktop computer"; probability := 3 # 10 |}
           "desktop" "desktop_computer" laptops).
  - vm_compute. reflexivity.
  - vm_compute. reflexivity.
  - reflexivity.
Defined.

(** On such labels, when no key matches any normalized word of a
    prediction above the 10% threshold, [scanImage] returns the negative
    result: not e-waste, no category, no slug, the label of the top-ranked
    prediction and its probability; on the empty list the label is
    "Unknown" and the confidence 0. *)
Theorem no_hit_is_negative_on_clean_labels (predictions : list Prediction) :
  forallb (fun p => clean_label (className p)) predictions = true ->
  existsb hit_above_threshold predictions = false ->
  isEwaste (scanImage predictions) = false
  /\ category (scanImage predictions) = None
  /\ categorySlug (scanImage predictions) = None
  /\ allPredictions (scanImage predictions) = predictions
  /\ match predictions with
     | [] =>
         label (scanImage predictions) = "Unknown"
         /\ confidence (scanImage predictions) = 0%Q
     | top :: _ =>
         label (scanImage predictions) = className top
         /\ (confidence (scanImage predictions) == probability top)%Q
     end.
Proof.
  intros Hclean Hno. unfold scanImage.
  rewrite (scan_predictions_classify _ _ Hclean), (classify_from_none _ _ Hno).
  repeat split; try reflexivity.
  destruct predictions as [|top rest]; [split; reflexivity|].
  cbn [forallb] in Hclean. apply andb_true_iff in Hclean as [Htop _].
  cbn [bestMatch label confidence label_or_unknown].
  rewrite (clean_label_nonempty _ Htop).
  split; [reflexivity | apply probability_or_zero_top].
Qed.

(** A golden retriever at 90% and a laptop at 5%: the only prediction with
    a matching word is below the threshold. *)
Lemma no_hit_is_negative_on_clean_labels_witness :
  isEwaste (scanImage [ {| className := "golden retriever"; probability := 9 # 10 |};
                        {| className := "laptop"; probability := 1 # 20 |} ]) = false
  /\ label (scanImage [ {| className := "golden retriever"; probability := 9 # 10 |};
                        {| className := "laptop"; probability := 1 # 20 |} ])
     = "golden retriever".
Proof.
  destruct (no_hit_is_negative_on_clean_labels
              [ {| className := "golden retriever"; probability := 9 # 10 |};
                {| className := "laptop"; probability := 1 # 20 |} ])
    as (He & _ & _ & _ & Hl & _).
  - vm_compute. reflexivity.
  - vm_compute. reflexivity.
  - split; [exact He | exact Hl].
Defined.

End ClassifyFacts.

(** ** More on the service functions *)

Section ServicesMore.
Import Firestore Services.

Lemma fresh_doc_plain (now : Z) (d : Doc) : fresh_doc now (plain d) = d.
Proof.
  apply map_eq. intros field. rewrite lookup_fresh_doc, lookup_plain.
  destruct (d !! field); reflexivity.
Qed.

Lemma lookup_apply_plain (now : Z) (w d : Doc) (field : string) :
  apply_writes now (plain w) d !! field
  = match w !! field with
    | Some v => Some v
    | None => d !! field
    end.
Proof.
  rewrite lookup_apply_writes, lookup_plain.
  destruct (w !! field); reflexivity.
Qed.


(** In the stored profile the caller's fields win over the defaults, the
    counters and the badge included; what the caller leaves out is the
    default: role 'donor', counters 0, badge 'seedling', not verified, the
    user id, and the client's time in [createdAt] and [updatedAt]. *)
Theorem createProfile_data_wins (clock : Clock) (userId : string)
    (data : Doc) (db : Database) :
  exists (profileData : Doc) (db' : Database),
    createProfile clock userId data db = (Ok profileData, db')
    /\ profiles db' !! userId = Some profileData
    /\ (forall field v, data !! field = Some v -> profileData !! field = Some v)
    /\ (data !! "id" = None -> profileData !! "id" = Some (VStr userId))
    /\ (data !! "role" = None -> profileData !! "role" = Some (VStr "donor"))
    /\ (data !! "greenCredits" = None -> profileData !! "greenCredits" = Some (VNum 0))
    /\ (data !! "totalItemsRecycled" = None ->
        profileData !! "totalItemsRecycled" = Some (VNum 0))
    /\ (data !! "totalWeightKg" = None -> profileData !! "totalWeightKg" = Some (VNum 0))
    /\ (data !! "co2SavedKg" = None -> profileData !! "co2SavedKg" = Some (VNum 0))
    /\ (data !! "streakDays" = None -> profileData !! "streakDays" = Some (VNum 0))
    /\ (data !! "badgeLevel" = None ->
        profileData !! "badgeLevel" = Some (VStr "seedling"))
    /\ (data !! "isVerified" = None -> profileData !! "isVerified" = Some (VBool false))
    /\ (data !! "createdAt" = None ->
        profileData !! "createdAt" = Some (VStr (toISOString clock)))
    /\ (data !! "updatedAt" = None ->
        profileData !! "updatedAt" = Some (VStr (toISOString clock))).
Proof.
  eexists _, _. split.
  { unfold createProfile, bind, setDoc, ret. rewrite fresh_doc_plain. reflexivity. }
  cbn [set_coll coll profiles].
  split; [apply lookup_insert_eq|].
  split.
  { intros field v Hdata. rewrite lookup_spread, Hdata. reflexivity. }
  repeat split; intros Hdata; rewrite lookup_spread, Hdata; reflexivity.
Qed.



(** [acceptPickup] is [updatePickupStatus] to 'matched' with the collector
    as additional data: the two calls have the same outcome on every
    database. *)
Theorem acceptPickup_is_status_update (clock : Clock) (pickupId collectorId : string)
    (db : Database) :
  acceptPickup clock pickupId collectorId db
  = updatePickupStatus clock pickupId "matched"
      (Some (obj [ ("collectorId", WVal (VStr collectorId)) ])) db.
Proof.
  unfold acceptPickup, updatePickupStatus.
  replace (spread (statusUpdate "matched")
             (default ∅ (Some (obj [ ("collectorId", WVal (VStr collectorId)) ]))))
    with (obj [ ("collectorId", WVal (VStr collectorId));
                ("status", WVal (VStr "matched"));
                ("matchedAt", WServerTimestamp);
                ("updatedAt", WServerTimestamp) ] : Writes);
    reflexivity.
Qed.

Ltac status_cases status :=
  unfold statusUpdate; cbv zeta;
  destruct (String.eqb status "matched"), (String.eqb status "collected"),
    (String.eqb status "completed"), (String.eqb status "cancelled").

Lemma statusUpdate_updatedAt (status : string) :
  statusUpdate status !! "updatedAt" = Some WServerTimestamp.
Proof. status_cases status; reflexivity. Qed.

Lemma statusUpdate_matchedAt (status : string) :
  statusUpdate status !! "matchedAt"
  = if String.eqb status "matched" then Some WServerTimestamp else None.
Proof. status_cases status; reflexivity. Qed.

Lemma statusUpdate_collectedAt_if (status : string) :
  statusUpdate status !! "collectedAt"
  = if String.eqb status "collected" then Some WServerTimestamp else None.
Proof. status_cases status; reflexivity. Qed.

Lemma statusUpdate_completedAt (status : string) :
  statusUpdate status !! "completedAt"
  = if String.eqb status "completed" then Some WServerTimestamp else None.
Proof. status_cases status; reflexivity. Qed.

Lemma statusUpdate_cancelledAt (status : string) :
  statusUpdate status !! "cancelledAt"
  = if String.eqb status "cancelled" then Some WServerTimestamp else None.
Proof. status_cases status; reflexivity. Qed.

Lemma statusUpdate_other (status field : string) :
  field <> "status" -> field <> "updatedAt" -> field <> "matchedAt" ->
  field <> "collectedAt" -> field <> "completedAt" -> field <> "cancelledAt" ->
  statusUpdate status !! field = None.
Proof.
  intros. status_cases status; unfold obj; cbn [rev app list_to_map foldr];
    simplify_map_eq; reflexivity.
Qed.

(** Without additional data, [updatePickupStatus] on an existing request
    writes the status, [updatedAt] and the one timestamp that belongs to the
    new status ([matchedAt], [collectedAt], [completedAt] or [cancelledAt],
    none for the other statuses); every other field of the request, the
    weights, the credits and the collector among them, keeps its value. *)
Theorem status_update_writes_status_and_stamp (clock : Clock) (pickupId status : string)
    (db : Database) (pickup : Doc) :
  pickups db !! pickupId = Some pickup ->
  exists (db' : Database) (pickup' : Doc),
    updatePickupStatus clock pickupId status None db = (Ok tt, db')
    /\ pickups db' = <[pickupId := pickup']> (pickups db)
    /\ pickup' !! "status" = Some (VStr status)
    /\ pickup' !! "updatedAt" = Some (VTime (serverTimestamp clock))
    /\ pickup' !! "matchedAt"
       = (if String.eqb status "matched" then Some (VTime (serverTimestamp clock))
          else pickup !! "matchedAt")
    /\ pickup' !! "collectedAt"
       = (if String.eqb status "collected" then Some (VTime (serverTimestamp clock))
          else pickup !! "collectedAt")
    /\ pickup' !! "completedAt"
       = (if String.eqb status "completed" then Some (VTime (serverTimestamp clock))
          else pickup !! "completedAt")
    /\ pickup' !! "cancelledAt"
       = (if String.eqb status "cancelled" then Some (VTime (serverTimestamp clock))
          else pickup !! "cancelledAt")
    /\ (forall field,
          field <> "status" -> field <> "updatedAt" -> field <> "matchedAt" ->
          field <> "collectedAt" -> field <> "completedAt" -> field <> "cancelledAt" ->
          pickup' !! field = pickup !! field).
Proof.
  intros Hpickup. eexists _, _. split.
  { unfold updatePickupStatus, updateDoc. cbn [coll]. rewrite Hpickup. reflexivity. }
  cbn [set_coll coll pickups default].
  split; [reflexivity|].
  split; [rewrite lookup_apply_writes, lookup_spread, lookup_empty, statusUpdate_status;
          reflexivity|].
  split; [rewrite lookup_apply_writes, lookup_spread, lookup_empty, statusUpdate_updatedAt;
          reflexivity|].
  split; [rewrite lookup_apply_writes, lookup_spread, lookup_empty, statusUpdate_matchedAt;
          destruct (String.eqb status "matched"); reflexivity|].
  split; [rewrite lookup_apply_writes, lookup_spread, lookup_empty,
            statusUpdate_collectedAt_if;
          destruct (String.eqb status "collected"); reflexivity|].
  split; [rewrite lookup_apply_writes, lookup_spread, lookup_empty, statusUpdate_completedAt;
          destruct (String.eqb status "completed"); reflexivity|].
  split; [rewrite lookup_apply_writes, lookup_spread, lookup_empty, statusUpdate_cancelledAt;
          destruct (String.eqb status "cancelled"); reflexivity|].
  intros field H1 H2 H3 H4 H5 H6.
  rewrite lookup_apply_writes, lookup_spread, lookup_empty,
    (statusUpdate_other status field H1 H2 H3 H4 H5 H6).
  reflexivity.
Qed.

(** The collected request of the small history is cancelled: it gets the
    stamp [cancelledAt] and keeps its collector. *)
Lemma status_update_writes_status_and_stamp_witness :
  exists (db' : Database) (pickup' : Doc),
    updatePickupStatus Demo.clock "0" "cancelled" None Demo.db_collected = (Ok tt, db')
    /\ pickups db' !! "0" = Some pickup'
    /\ pickup' !! "status" = Some (VStr "cancelled")
    /\ pickup' !! "cancelledAt" = Some (VTime 1700000000)
    /\ pickup' !! "collectorId" = Some (VStr "collector").
Proof.
  destruct (status_update_writes_status_and_stamp Demo.clock "0" "cancelled"
              Demo.db_collected Demo.collected_pickup)
    as (db' & pickup' & Hrun & Hpickups & Hstatus & _ & _ & _ & _ & Hcancel & Hother).
  - apply lookup_default. vm_compute. reflexivity.
  - exists db', pickup'. split; [exact Hrun|].
    split; [rewrite Hpickups; apply lookup_insert_eq|].
    split; [exact Hstatus|]. split; [exact Hcancel|].
    rewrite Hother by discriminate. vm_compute. reflexivity.
Defined.



Lemma stamps_other (field : string) :
  field <> "createdAt" -> field <> "updatedAt" ->
  (obj [ ("createdAt", WServerTimestamp); ("updatedAt", WServerTimestamp) ] : Writes)
    !! field = None.
Proof.
  intros. unfold obj. cbn [rev app list_to_map foldr]. simplify_map_eq. reflexivity.
Qed.

(** [createPickup] stores [data] under a new id with the server time in
    [createdAt] and [updatedAt] (also when [data] carries these fields) and
    returns the id; [getPickup] with that id reads the stored fields back
    and adds the id as field [id], unless [data] has a field [id] of its
    own, which then hides the document id.  [getPickup] returns null for an
    id without a document.  No existing request changes. *)
Theorem createPickup_reads_back (clock : Clock) (data : Doc) (db : Database) :
  exists (id : string) (db' : Database) (request : Doc),
    createPickup clock data db = (Ok id, db')
    /\ pickups db !! id = None
    /\ (forall other d, pickups db !! other = Some d -> pickups db' !! other = Some d)
    /\ getPickup id db' = (Ok (Some request), db')
    /\ request !! "createdAt" = Some (VTime (serverTimestamp clock))
    /\ request !! "updatedAt" = Some (VTime (serverTimestamp clock))
    /\ request !! "id" = Some (default (VStr id) (data !! "id"))
    /\ (forall field, field <> "id" -> field <> "createdAt" -> field <> "updatedAt" ->
          request !! field = data !! field)
    /\ (forall missing, pickups db' !! missing = None ->
          getPickup missing db' = (Ok None, db')).
Proof.
  eexists _, _, _. split; [reflexivity|].
  cbn [set_coll coll pickups].
  assert (Hnew := newDoc_is_new Pickups db). cbn [coll] in Hnew.
  split; [exact Hnew|].
  split.
  { intros other d Hd. rewrite lookup_insert_ne; [exact Hd | congruence]. }
  split.
  { unfold getPickup, bind, getDoc, ret. cbn [coll pickups].
    rewrite lookup_insert_eq. reflexivity. }
  split; [rewrite lookup_spread, lookup_fresh_doc, lookup_spread; reflexivity|].
  split; [rewrite lookup_spread, lookup_fresh_doc, lookup_spread; reflexivity|].
  split.
  { rewrite lookup_spread, lookup_fresh_doc, lookup_spread,
      (stamps_other "id") by discriminate.
    rewrite lookup_plain. destruct (data !! "id"); reflexivity. }
  split.
  { intros field Hid Hc Hu.
    rewrite lookup_spread, lookup_fresh_doc, lookup_spread, (stamps_other field Hc Hu),
      lookup_plain.
    destruct (data !! field) eqn:Hd; cbn [fmap option_fmap option_map resolve];
      [reflexivity|].
    unfold obj. cbn [rev app list_to_map foldr]. simplify_map_eq. reflexivity. }
  intros missing Hmissing. unfold getPickup, bind, getDoc, ret. cbn [coll pickups].
  rewrite Hmissing. reflexivity.
Qed.


(** The award keeps every field of the request other than [status],
    [actualWeightKg], [actualCreditsAwarded], [completedAt] and [updatedAt],
    and every field of the profile other than the four counters,
    [lastActivityAt] and [updatedAt]: the estimates, the collector, the
    streak, the badge and the verification flag stay as they were.  The
    request is stamped with the server time. *)
Theorem award_keeps_other_fields (clock : Clock) (pickupId : string) (w c : Q)
    (db : Database) (pickup profile : Doc) (donorId : string) (totalItems : Q) :
  pickups db !! pickupId = Some pickup ->
  pickup !! "donorId" = Some (VStr donorId) ->
  pickup !! "totalItems" = Some (VNum totalItems) ->
  profiles db !! donorId = Some profile ->
  exists (db' : Database) (pickup' profile' : Doc),
    completePickupAndAwardCredits clock pickupId w c db = (Ok tt, db')
    /\ pickups db' !! pickupId = Some pickup'
    /\ profiles db' !! donorId = Some profile'
    /\ pickup' !! "completedAt" = Some (VTime (serverTimestamp clock))
    /\ pickup' !! "updatedAt" = Some (VTime (serverTimestamp clock))
    /\ profile' !! "lastActivityAt" = Some (VStr (toISOString clock))
    /\ (forall field,
          field <> "status" -> field <> "actualWeightKg" ->
          field <> "actualCreditsAwarded" -> field <> "completedAt" ->
          field <> "updatedAt" ->
          pickup' !! field = pickup !! field)
    /\ (forall field,
          field <> "greenCredits" -> field <> "totalItemsRecycled" ->
          field <> "totalWeightKg" -> field <> "co2SavedKg" ->
          field <> "lastActivityAt" -> field <> "updatedAt" ->
          profile' !! field = profile !! field).
Proof.
  intros Hpickup Hdonor Hitems Hprofile. eexists _, _, _. split.
  { apply (award_succeeds clock pickupId w c db pickup profile donorId totalItems);
      assumption. }
  cbn [profiles pickups].
  split; [apply lookup_insert_eq|]. split; [apply lookup_insert_eq|].
  split; [rewrite lookup_apply_writes; reflexivity|].
  split; [rewrite lookup_apply_writes; reflexivity|].
  split; [rewrite lookup_apply_writes; reflexivity|].
  split.
  - intros field H1 H2 H3 H4 H5.
    rewrite lookup_apply_writes, (completedPickup_other w c field H1 H2 H3 H4 H5).
    reflexivity.
  - intros field H1 H2 H3 H4 H5 H6.
    rewrite lookup_apply_writes,
      (donorIncrements_other clock totalItems w c field H1 H2 H3 H4 H5 H6).
    reflexivity.
Qed.

Lemma award_keeps_other_fields_witness :
  exists (db' : Database) (pickup' profile' : Doc),
    completePickupAndAwardCredits Demo.clock "0" (1 # 2) 12 Demo.db_collected = (Ok tt, db')
    /\ pickups db' !! "0" = Some pickup'
    /\ profiles db' !! "donor" = Some profile'
    /\ pickup' !! "estimatedCredits" = Some (VNum 8)
    /\ profile' !! "streakDays" = Some (VNum 0).
Proof.
  destruct (award_keeps_other_fields Demo.clock "0" (1 # 2) 12 Demo.db_collected
              Demo.collected_pickup Demo.new_profile "donor" 2)
    as (db' & pickup' & profile' & Hrun & Hp & Hpr & _ & _ & _ & Hpickup & Hprofile).
  - apply lookup_default. vm_compute. reflexivity.
  - vm_compute. reflexivity.
  - vm_compute. reflexivity.
  - apply lookup_default. vm_compute. reflexivity.
  - exists db', pickup', profile'. split; [exact Hrun|].
    split; [exact Hp|]. split; [exact Hpr|].
    split.
    + rewrite Hpickup by discriminate. vm_compute. reflexivity.
    + rewrite Hprofile by discriminate. vm_compute. reflexivity.
Defined.

(** When the donor of the request has no profile, the award is refused as
    a whole: although the update of the request comes first in the batch,
    the request is not marked completed, and no credit transaction and no
    notification is written. *)
Theorem award_without_profile_changes_nothing (clock : Clock) (pickupId : string)
    (w c : Q) (db : Database) (pickup : Doc) (donorId : string) (totalItems : Q) :
  pickups db !! pickupId = Some pickup ->
  pickup !! "donorId" = Some (VStr donorId) ->
  pickup !! "totalItems" = Some (VNum totalItems) ->
  profiles db !! donorId = None ->
  completePickupAndAwardCredits clock pickupId w c db
  = (Err (NoDocumentToUpdate Profiles donorId), db).
Proof.
  intros Hpickup Hdonor Hitems Hprofile.
  unfold completePickupAndAwardCredits, bind, getDoc, read_string, read_number,
    commit, updateDoc, ret.
  cbn [coll]. rewrite Hpickup, Hdonor, Hitems.
  cbn [coll set_coll profiles pickups].
  rewrite Hpickup. cbn [coll set_coll profiles pickups].
  rewrite Hprofile. reflexivity.
Qed.

(** A request submitted for a user who never signed up. *)
Lemma award_without_profile_changes_nothing_witness :
  completePickupAndAwardCredits Demo.clock "0" 1 20 Demo.db_orphan
  = (Err (NoDocumentToUpdate Profiles "stranger"), Demo.db_orphan).
Proof.
  apply (award_without_profile_changes_nothing Demo.clock "0" 1 20 Demo.db_orphan
           Demo.orphan_pickup "stranger" 2).
  - apply lookup_default. vm_compute. reflexivity.
  - vm_compute. reflexivity.
  - vm_compute. reflexivity.
  - vm_compute. reflexivity.
Defined.

(** [markNotificationAsRead] is idempotent: it writes no timestamp, so a
    second call, at any later time, leaves the database exactly as the first
    call left it.  On an id without a notification it is refused and
    changes nothing. *)
Theorem markNotificationAsRead_idempotent (clock clock' : Clock)
    (notificationId : string) (db : Database) :
  after clock' (MarkNotificationAsRead notificationId)
    (after clock (MarkNotificationAsRead notificationId) db)
  = after clock (MarkNotificationAsRead notificationId) db
  /\ (notifications db !! notificationId = None ->
      markNotificationAsRead clock notificationId db
      = (Err (NoDocumentToUpdate Notifications notificationId), db)).
Proof.
  unfold after. cbn [call]. unfold markNotificationAsRead, updateDoc. cbn [coll].
  destruct (notifications db !! notificationId) as [notif|] eqn:Hnotif.
  - split; [|discriminate].
    cbn [snd set_coll coll notifications]. rewrite lookup_insert_eq.
    cbn [snd set_coll notifications profiles pickups pickupItems creditTransactions
           achievements ewasteCategories].
    rewrite !mark_read_doc, insert_insert_eq, insert_insert_eq. reflexivity.
  - split; [|reflexivity]. cbn [snd]. rewrite Hnotif. reflexivity.
Qed.

End ServicesMore.

(** ** The ledger and the balances *)

Section CallsFrame.
Import Firestore Services.

(** An invariant that depends on the profiles and the credit transactions
    only. *)
Variable I : Database -> Prop.

Hypothesis I_frame :
  forall (c : Collection) (m : Docs) (db : Database),
    c <> Profiles -> c <> CreditTransactions -> I db -> I (set_coll c m db).

Lemma frame_addPickupItems_loop (now : Z) (pickupId : string) (docs : list Doc) :
  keeps I (addPickupItems_loop now pickupId docs).
Proof.
  induction docs as [|item rest IH]; cbn [addPickupItems_loop].
  - apply keeps_ret.
  - apply (keeps_newDoc_setDoc I now PickupItems
             (fun _ => spread (plain item)
                         (obj [ ("pickupId", WVal (VStr pickupId));
                                ("createdAt", WServerTimestamp) ]))
             (fun _ => addPickupItems_loop now pickupId rest)).
    + intros db id HI _. apply I_frame; [discriminate | discriminate | exact HI].
    + intros _. exact IH.
Qed.

Lemma frame_seedAchievements_loop (now : Z) (todo : list Writes) :
  keeps I (seedAchievements_loop now todo).
Proof.
  induction todo as [|a rest IH]; cbn [seedAchievements_loop].
  - apply keeps_ret.
  - apply (keeps_newDoc_setDoc I now Achievements (fun _ => a)
             (fun _ => seedAchievements_loop now rest)).
    + intros db id HI _. apply I_frame; [discriminate | discriminate | exact HI].
    + intros _. exact IH.
Qed.

Lemma frame_seedEwasteCategories_loop (now : Z) (todo : list (string * Writes)) :
  keeps I (seedEwasteCategories_loop now todo).
Proof.
  induction todo as [|[slug c] rest IH]; cbn [seedEwasteCategories_loop].
  - apply keeps_ret.
  - apply keeps_bind; [|intros _; exact IH].
    apply keeps_setDoc. intros db HI.
    apply I_frame; [discriminate | discriminate | exact HI].
Qed.

(** The calls that write neither a profile nor a credit transaction. *)
Lemma frame_call (clock : Clock) (c : Call) :
  match c with
  | CreateProfile _ _ | UpdateProfile _ _ | AddCreditTransaction _
  | CompletePickupAndAwardCredits _ _ _ => False
  | _ => True
  end ->
  keeps I (call clock c).
Proof.
  destruct c; cbn [call]; intros Hc; try contradiction.
  - unfold ignore, createPickup. apply keeps_bind; [|intros _; apply keeps_ret].
    apply keeps_addDoc. intros db id HI _.
    apply I_frame; [discriminate | discriminate | exact HI].
  - unfold updatePickupStatus. apply keeps_updateDoc. intros db d HI _.
    apply I_frame; [discriminate | discriminate | exact HI].
  - unfold addPickupItems. apply keeps_commit, frame_addPickupItems_loop.
  - unfold ignore, createNotification. apply keeps_bind; [|intros _; apply keeps_ret].
    apply keeps_addDoc. intros db id HI _.
    apply I_frame; [discriminate | discriminate | exact HI].
  - unfold markNotificationAsRead. apply keeps_updateDoc. intros db d HI _.
    apply I_frame; [discriminate | discriminate | exact HI].
  - unfold seedAchievements. apply keeps_commit, frame_seedAchievements_loop.
  - unfold seedEwasteCategories. apply keeps_commit, frame_seedEwasteCategories_loop.
  - unfold acceptPickup. apply keeps_updateDoc. intros db d HI _.
    apply I_frame; [discriminate | discriminate | exact HI].
Qed.

End CallsFrame.

Section LedgerFacts.
Import Firestore Services.

Lemma ledger_total_insert (userId id : string) (tx : Doc) (txs : Docs) :
  txs !! id = None ->
  (ledger_total userId (<[id := tx]> txs) == amount_for userId tx + ledger_total userId txs)%Q.
Proof.
  intros Hnew. unfold ledger_total.
  apply (map_fold_insert Qeq (fun _ tx acc => amount_for userId tx + acc)%Q).
  - intros j z x y Hxy. rewrite Hxy. reflexivity.
  - intros. ring.
  - exact Hnew.
Qed.

Lemma amount_for_award (userId donorId pickupId : string) (now : Z) (w c : Q) :
  amount_for userId (fresh_doc now (creditTransaction donorId pickupId w c))
  = if String.eqb donorId userId then c else 0%Q.
Proof.
  unfold amount_for. rewrite !lookup_fresh_doc. reflexivity.
Qed.

Lemma balance_other (userId : string) (c : Collection) (m : Docs) (db : Database) :
  c <> Profiles -> balance userId (set_coll c m db) = balance userId db.
Proof. intros Hc. unfold balance. destruct c; try reflexivity. congruence. Qed.

Lemma reconciled_frame (c : Collection) (m : Docs) (db : Database) :
  c <> Profiles -> c <> CreditTransactions ->
  reconciled db -> reconciled (set_coll c m db).
Proof.
  intros Hp Hc H userId. rewrite (balance_other userId c m db Hp).
  destruct c; try apply H; congruence.
Qed.

Lemma reconciled_createProfile (clock : Clock) (userId : string) (data : Doc)
    (db : Database) :
  zero_baselines data -> profiles db !! userId = None ->
  reconciled db -> reconciled (after clock (CreateProfile userId data) db).
Proof.
  intros (Hg & _) Hnone H u. unfold after. cbn [call].
  unfold ignore, createProfile, bind, setDoc, ret. cbn [snd].
  rewrite fresh_doc_plain. unfold balance.
  cbn [set_coll coll profiles creditTransactions].
  destruct (decide (userId = u)) as [<-|Hne].
  - rewrite lookup_insert_eq. cbn [mbind option_bind].
    rewrite lookup_spread, Hg.
    change ((obj _ : Doc) !! "greenCredits") with (Some (VNum 0)).
    rewrite <- (H userId). unfold balance. rewrite Hnone. reflexivity.
  - rewrite lookup_insert_ne by exact Hne. apply (H u).
Qed.

Lemma reconciled_updateProfile (clock : Clock) (userId : string) (data : Doc)
    (db : Database) :
  data !! "greenCredits" = None ->
  reconciled db -> reconciled (after clock (UpdateProfile userId data) db).
Proof.
  intros Hg H u. unfold after. cbn [call]. unfold updateProfile, updateDoc. cbn [coll].
  destruct (profiles db !! userId) as [profile|] eqn:Hprofile; [|apply (H u)].
  cbn [snd]. unfold balance. cbn [set_coll profiles creditTransactions].
  destruct (decide (userId = u)) as [<-|Hne].
  - rewrite lookup_insert_eq. cbn [mbind option_bind].
    rewrite lookup_apply_plain, lookup_spread, Hg.
    change ((obj [ ("updatedAt", VStr (toISOString clock)) ] : Doc) !! "greenCredits")
      with (@None Value).
    rewrite <- (H userId). unfold balance. rewrite Hprofile. reflexivity.
  - rewrite lookup_insert_ne by exact Hne. apply (H u).
Qed.

(** An award is either refused, with no change, or applied as written out
    in [award_succeeds]. *)
Lemma award_cases (clock : Clock) (pickupId : string) (w c : Q) (db : Database) :
  (exists e, completePickupAndAwardCredits clock pickupId w c db = (Err e, db))
  \/ (exists (pickup profile : Doc) (donorId : string) (totalItems : Q),
        pickups db !! pickupId = Some pickup
        /\ pickup !! "donorId" = Some (VStr donorId)
        /\ pickup !! "totalItems" = Some (VNum totalItems)
        /\ profiles db !! donorId = Some profile).
Proof.
  destruct (completePickupAndAwardCredits clock pickupId w c db) as [[[]|e] db'] eqn:Hrun.
  - right. revert Hrun.
    unfold completePickupAndAwardCredits, bind, getDoc, read_string, read_number,
      throw, ret. cbn [coll].
    destruct (pickups db !! pickupId) as [pickup|] eqn:Hpickup; [|discriminate].
    destruct (pickup !! "donorId") as [[| | |donorId| | | |]|] eqn:Hdonor; try discriminate.
    destruct (pickup !! "totalItems") as [[| |n| | | | |]|] eqn:Hitems; try discriminate.
    unfold commit, bind, updateDoc. cbn [coll]. rewrite Hpickup.
    cbn [coll set_coll profiles pickups].
    destruct (profiles db !! donorId) as [profile|] eqn:Hprofile; [|discriminate].
    intros _. exists pickup, profile, donorId, n. repeat split; assumption.
  - left. exists e. rewrite (award_refused _ _ _ _ _ _ _ Hrun). reflexivity.
Qed.

Lemma reconciled_award (clock : Clock) (pickupId : string) (w c : Q) (db : Database) :
  reconciled db ->
  reconciled (after clock (CompletePickupAndAwardCredits pickupId w c) db).
Proof.
  intros H. unfold after. cbn [call].
  destruct (award_cases clock pickupId w c db)
    as [(e & ->) | (pickup & profile & donorId & n & Hp & Hd & Hn & Hpr)];
    [exact H|].
  rewrite (award_succeeds clock pickupId w c db pickup profile donorId n Hp Hd Hn Hpr).
  cbn [snd]. intros u. unfold balance. cbn [profiles creditTransactions].
  rewrite ledger_total_insert by apply (newDoc_is_new CreditTransactions).
  rewrite amount_for_award. specialize (H u). unfold balance in H.
  destruct (decide (donorId = u)) as [<-|Hne].
  - rewrite lookup_insert_eq, String.eqb_refl. cbn [mbind option_bind].
    rewrite Hpr in H. cbn [mbind option_bind] in H.
    rewrite lookup_apply_writes.
    change (donorIncrements clock n w c !! "greenCredits") with (Some (WIncrement c)).
    cbn [resolve].
    destruct (profile !! "greenCredits") as [[| |g| | | | |]|];
      rewrite <- H; ring.
  - rewrite lookup_insert_ne by exact Hne.
    destruct (String.eqb_spec donorId u) as [Heq|_]; [contradiction|].
    rewrite H. ring.
Qed.

(** From the empty database, as long as profiles are created with zero
    baselines for users who have none, [updateProfile] leaves
    [greenCredits] alone and no ledger entry is written by hand, the
    balance of every user equals the sum of the amounts of the user's
    credit transactions, whatever pickups, status changes, awards (also
    repeated or negative ones) and notifications happen in between. *)
Theorem ledger_reconciles_with_balance (db : Database) (userId : string) :
  ledger_reachable db ->
  (balance userId db == ledger_total userId (creditTransactions db))%Q.
Proof.
  intros Hreach. revert userId.
  change (reconciled db).
  induction Hreach as [|clock c db Hreach IH Hstep].
  - intros u. reflexivity.
  - destruct c; cbn [ledger_step] in Hstep;
      try (unfold after; apply keeps_snd; [|exact IH];
           apply frame_call; [apply reconciled_frame | exact Logic.I]).
    + destruct Hstep as [Hzero Hnone]. apply reconciled_createProfile; assumption.
    + apply reconciled_updateProfile; assumption.
    + contradiction.
    + apply reconciled_award. exact IH.
Qed.

Lemma ledger_reachable_db_completed : ledger_reachable Demo.db_completed.
Proof.
  unfold Demo.db_completed, Demo.db_collected, Demo.db_pending, Demo.db_profile,
    Demo.collection, Demo.submission, Demo.signup, after_all.
  cbn [fold_left].
  repeat (apply ledger_reachable_step; [|try exact Logic.I]).
  - apply ledger_reachable_empty.
  - split; [repeat split|]; vm_compute; reflexivity.
Qed.

(** The small history ends with a balance of 12 and one ledger entry of 12;
    a second award of 12 keeps the two sides equal. *)
Lemma ledger_reconciles_with_balance_witness :
  (balance "donor"
     (after Demo.clock (CompletePickupAndAwardCredits "0" (1 # 2) 12) Demo.db_completed)
   == ledger_total "donor"
        (creditTransactions
           (after Demo.clock (CompletePickupAndAwardCredits "0" (1 # 2) 12)
              Demo.db_completed)))%Q.
Proof.
  apply (ledger_reconciles_with_balance
           (after Demo.clock (CompletePickupAndAwardCredits "0" (1 # 2) 12)
              Demo.db_completed) "donor").
  apply ledger_reachable_step; [apply ledger_reachable_db_completed | exact Logic.I].
Defined.

End LedgerFacts.

(** ** The client-side store *)

Section StoreFacts.
Import AppStore.

Lemma unread_nonneg (ns : list Notification) : (0 <= unread ns)%Z.
Proof. unfold unread. lia. Qed.

(** From the initial state, whatever actions are dispatched, the unread
    count is never negative. *)
Theorem unread_count_never_negative (actions : list Action) :
  (0 <= unreadCount (run actions initial))%Z.
Proof.
  unfold run.
  assert (H : forall st, (0 <= unreadCount st)%Z ->
                         (0 <= unreadCount (fold_left (fun st a => dispatch a st)
                                              actions st))%Z).
  { induction actions as [|a rest IH]; intros st Hst; [exact Hst|].
    cbn [fold_left]. apply IH.
    destruct a; cbn [dispatch setProfile updateCredits setNotifications addNotification
                       markAsRead setIsOnline unreadCount]; lia. }
  apply H. cbn. lia.
Qed.

Lemma mark_map_id (nid : string) (ns : list Notification) :
  map id (map (fun n => if String.eqb (id n) nid then read n else n) ns) = map id ns.
Proof.
  induction ns as [|n rest IH]; [reflexivity|].
  cbn [map]. rewrite IH. destruct (String.eqb (id n) nid); reflexivity.
Qed.

Lemma mark_absent (nid : string) (ns : list Notification) :
  Forall (fun n => id n <> nid \/ isRead n = true) ns ->
  unread (map (fun n => if String.eqb (id n) nid then read n else n) ns) = unread ns.
Proof.
  unfold unread. intros H. f_equal. f_equal.
  induction H as [|n rest Hn _ IH]; [reflexivity|].
  cbn [map List.filter].
  destruct (String.eqb_spec (id n) nid) as [Heq|Hne].
  - destruct Hn as [Hn|Hn]; [contradiction|].
    cbn [read isRead negb]. rewrite Hn. cbn [negb]. exact IH.
  - destruct (negb (isRead n)); cbn [length]; rewrite IH; reflexivity.
Qed.

Lemma mark_present (nid : string) (ns : list Notification) (n : Notification) :
  NoDup (map id ns) -> In n ns -> id n = nid -> isRead n = false ->
  unread (map (fun n => if String.eqb (id n) nid then read n else n) ns)
  = (unread ns - 1)%Z.
Proof.
  intros Hnodup Hin Hid Hunread. revert Hnodup Hin.
  induction ns as [|m rest IH]; [intros _ []|].
  cbn [map]. intros Hnodup Hin. apply NoDup_cons in Hnodup as [Hfresh Hrest].
  destruct Hin as [->|Hin].
  - rewrite Hid, String.eqb_refl.
    assert (Habsent : Forall (fun k => id k <> nid \/ isRead k = true) rest).
    { apply Forall_forall. intros k Hk. left. intros Hk'.
      apply Hfresh. rewrite Hid, <- Hk'. apply list_elem_of_In. apply in_map.
      apply list_elem_of_In. exact Hk. }
    pose proof (mark_absent nid rest Habsent) as Hsame.
    unfold unread in *. cbn [List.filter read isRead negb].
    rewrite Hunread. cbn [negb length]. lia.
  - assert (Hne : id m <> nid).
    { intros Hm. apply Hfresh. rewrite Hm, <- Hid.
      apply list_elem_of_In. apply in_map. exact Hin. }
    destruct (String.eqb_spec (id m) nid) as [Heq|_]; [contradiction|].
    specialize (IH Hrest Hin). unfold unread in *. cbn [List.filter].
    destruct (negb (isRead m)); cbn [length]; lia.
Qed.

Lemma unread_positive (ns : list Notification) (n : Notification) :
  In n ns -> isRead n = false -> (1 <= unread ns)%Z.
Proof.
  intros Hin Hunread. unfold unread.
  assert (In n (List.filter (fun k => negb (isRead k)) ns)).
  { apply filter_In. split; [exact Hin|]. rewrite Hunread. reflexivity. }
  destruct (List.filter _ ns); [contradiction | cbn [length]; lia].
Qed.

(** When the count is accurate, the ids are distinct and the id names an
    unread notification of the list, [markAsRead] keeps the count accurate:
    afterwards it is again the number of unread notifications. *)
Theorem markAsRead_keeps_count_accurate (nid : string) (state : AppState)
    (n : Notification) :
  unreadCount state = unread (notifications state) ->
  NoDup (map id (notifications state)) ->
  In n (notifications state) -> id n = nid -> isRead n = false ->
  unreadCount (markAsRead nid state) = unread (notifications (markAsRead nid state))
  /\ unread (notifications (markAsRead nid state))
     = (unread (notifications state) - 1)%Z.
Proof.
  intros Hacc Hnodup Hin Hid Hunread. cbn [markAsRead unreadCount notifications].
  rewrite (mark_present nid _ n Hnodup Hin Hid Hunread), Hacc.
  pose proof (unread_positive _ n Hin Hunread). split; lia.
Qed.

Lemma markAsRead_keeps_count_accurate_witness :
  unreadCount (markAsRead "n1" Demo.inbox) = 0%Z
  /\ unread (notifications (markAsRead "n1" Demo.inbox)) = 0%Z.
Proof.
  destruct (markAsRead_keeps_count_accurate "n1" Demo.inbox Demo.hello) as [H1 H2].
  - reflexivity.
  - apply (bool_decide_eq_true_1 (NoDup _)). vm_compute. reflexivity.
  - left. reflexivity.
  - reflexivity.
  - reflexivity.
  - rewrite H1, H2. split; reflexivity.
Defined.

(** [markAsRead] lowers the count also when no unread notification has the
    id (the id is unknown, or its notification is already read): the list
    keeps its unread notifications, and an accurate positive count ends up
    one below their number. *)
Theorem markAsRead_miss_lowers_count (nid : string) (state : AppState) :
  unreadCount state = unread (notifications state) ->
  (0 < unreadCount state)%Z ->
  Forall (fun n => id n <> nid \/ isRead n = true) (notifications state) ->
  unread (notifications (markAsRead nid state)) = unread (notifications state)
  /\ unreadCount (markAsRead nid state)
     = (unread (notifications (markAsRead nid state)) - 1)%Z.
Proof.
  intros Hacc Hpos Hmiss. cbn [markAsRead unreadCount notifications].
  rewrite (mark_absent nid _ Hmiss). split; [reflexivity | lia].
Qed.

(** Marking the already read "n2" in an inbox with one unread notification
    leaves the count at 0 while one notification is still unread. *)
Lemma markAsRead_miss_lowers_count_witness :
  unread (notifications (markAsRead "n2" Demo.inbox)) = 1%Z
  /\ unreadCount (markAsRead "n2" Demo.inbox) = 0%Z.
Proof.
  destruct (markAsRead_miss_lowers_count "n2" Demo.inbox) as [H1 H2].
  - reflexivity.
  - reflexivity.
  - change (notifications Demo.inbox) with [ Demo.hello; Demo.seen ].
    constructor; [left; discriminate|].
    constructor; [right; reflexivity|]. constructor.
  - rewrite H2, H1. split; reflexivity.
Defined.

(** [markAsRead] keeps the length, the order and the ids of the list; after
    it every notification with the id is read and every notification with
    another id is as before; a second [markAsRead] with the same id does not
    change the list any more. *)
Theorem markAsRead_marks_by_id (nid : string) (state : AppState) :
  map id (notifications (markAsRead nid state)) = map id (notifications state)
  /\ Forall (fun n => id n = nid -> isRead n = true)
       (notifications (markAsRead nid state))
  /\ Forall2 (fun before after => id before <> nid -> after = before)
       (notifications state) (notifications (markAsRead nid state))
  /\ notifications (markAsRead nid (markAsRead nid state))
     = notifications (markAsRead nid state)
  /\ profile (markAsRead nid state) = profile state.
Proof.
  cbn [markAsRead notifications profile].
  split; [apply mark_map_id|].
  split.
  { induction (notifications state) as [|n rest IH]; [constructor|].
    cbn [map]. constructor; [|exact IH].
    destruct (String.eqb_spec (id n) nid) as [Heq|Hne]; [reflexivity|].
    intros Hid. contradiction. }
  split.
  { induction (notifications state) as [|n rest IH]; [constructor|].
    cbn [map]. constructor; [|exact IH].
    destruct (String.eqb_spec (id n) nid) as [Heq|Hne]; [contradiction | reflexivity]. }
  split; [|reflexivity].
  induction (notifications state) as [|n rest IH]; [reflexivity|].
  cbn [map]. rewrite IH. f_equal.
  destruct (String.eqb_spec (id n) nid) as [Heq|Hne].
  - cbn [read id]. rewrite Heq, String.eqb_refl. reflexivity.
  - destruct (String.eqb_spec (id n) nid); [contradiction | reflexivity].
Qed.

(** [addNotification] puts the notification in front and counts it as
    unread whether it is or not: an accurate count stays accurate for an
    unread notification and is one too high for a read one. *)
Theorem addNotification_counts_every_one (n : Notification) (state : AppState) :
  unreadCount state = unread (notifications state) ->
  notifications (addNotification n state) = n :: notifications state
  /\ unreadCount (addNotification n state)
     = (unread (notifications (addNotification n state))
        + (if isRead n then 1 else 0))%Z.
Proof.
  intros Hacc. cbn [addNotification unreadCount notifications].
  split; [reflexivity|]. rewrite Hacc. unfold unread. cbn [List.filter].
  destruct (isRead n); cbn [negb length]; lia.
Qed.

Lemma addNotification_counts_every_one_witness :
  unreadCount (addNotification Demo.seen Demo.inbox) = 2%Z
  /\ unread (notifications (addNotification Demo.seen Demo.inbox)) = 1%Z.
Proof.
  destruct (addNotification_counts_every_one Demo.seen Demo.inbox) as [_ H].
  - reflexivity.
  - rewrite H. split; reflexivity.
Defined.

(** [updateCredits] does nothing without a profile; with one it adds the
    amount to [greenCredits] and keeps every other field, the stored badge
    included; two updates in a row add up; the notifications and the count
    are not touched. *)
Theorem updateCredits_adds (a b : Q) (state : AppState) :
  (profile state = None -> updateCredits a state = state)
  /\ (forall p, profile state = Some p ->
        profile (updateCredits a state) = Some (with_credits p (greenCredits p + a))
        /\ badgeLevel (with_credits p (greenCredits p + a)) = badgeLevel p
        /\ exists q,
             profile (updateCredits b (updateCredits a state)) = Some (with_credits p q)
             /\ (q == greenCredits p + (a + b))%Q)
  /\ notifications (updateCredits a state) = notifications state
  /\ unreadCount (updateCredits a state) = unreadCount state.
Proof.
  split.
  { intros Hnone. destruct state as [pr ns c o]. cbn in Hnone. subst pr. reflexivity. }
  split; [|split; reflexivity].
  intros p Hp. unfold updateCredits. cbn [profile]. rewrite Hp.
  split; [reflexivity|]. split; [reflexivity|].
  eexists. split; [reflexivity|]. cbn [with_credits greenCredits]. ring.
Qed.

End StoreFacts.

(** ** The item step of the pickup form *)

Section ItemStepFacts.
Import PickupForm ItemStep.

Lemma find_none_absent (items : list FormItem) (category : string) :
  List.find (fun i => String.eqb (categoryId i) category) items = None ->
  ~ In category (map categoryId items).
Proof.
  intros Hfind Hin. apply in_map_iff in Hin as (i & Hid & Hin).
  pose proof (find_none _ _ Hfind i Hin) as Hneq. cbn beta in Hneq.
  rewrite Hid, String.eqb_refl in Hneq. discriminate.
Qed.

Lemma updateItem_ids (items : list FormItem) (category : string) (fv : FieldValue) :
  map categoryId (updateItem items category fv) = map categoryId items.
Proof.
  unfold updateItem. induction items as [|i rest IH]; [reflexivity|].
  cbn [map]. rewrite IH. destruct (String.eqb (categoryId i) category); [|reflexivity].
  destruct fv; reflexivity.
Qed.

Lemma updateItem_quantity (items : list FormItem) (category : string) (value : Q) :
  Forall whole_quantity items ->
  (exists z : Z, (1 <= z)%Z /\ (value == inject_Z z)%Q) ->
  Forall whole_quantity (updateItem items category (Quantity value)).
Proof.
  intros Hitems Hvalue. unfold updateItem.
  induction Hitems as [|i rest Hi _ IH]; [constructor|].
  cbn [map]. constructor; [|exact IH].
  destruct (String.eqb (categoryId i) category); [exact Hvalue | exact Hi].
Qed.

Lemma updateItem_condition (items : list FormItem) (category cond : string) :
  Forall whole_quantity items ->
  Forall whole_quantity (updateItem items category (Condition cond)).
Proof.
  intros Hitems. unfold updateItem.
  induction Hitems as [|i rest Hi _ IH]; [constructor|].
  cbn [map]. constructor; [|exact IH].
  destruct (String.eqb (categoryId i) category); exact Hi.
Qed.

Lemma filter_ids_NoDup (items : list FormItem) (keep : FormItem -> bool) :
  NoDup (map categoryId items) -> NoDup (map categoryId (List.filter keep items)).
Proof.
  induction items as [|i rest IH]; [intros; constructor|].
  cbn [map List.filter]. intros Hnodup.
  apply NoDup_cons in Hnodup as [Hfresh Hrest].
  destruct (keep i); [|apply IH, Hrest].
  cbn [map]. apply NoDup_cons. split; [|apply IH, Hrest].
  intros Hin. apply Hfresh.
  apply list_elem_of_In in Hin. apply in_map_iff in Hin as (k & Hid & Hk).
  apply filter_In in Hk as [Hk _].
  apply list_elem_of_In. apply in_map_iff. exists k. split; assumption.
Qed.

Lemma minus_quantity (q : Q) (z : Z) :
  (1 <= z)%Z -> (q == inject_Z z)%Q ->
  exists z' : Z, (1 <= z')%Z /\ (Math_max 1 (q - 1) == inject_Z z')%Q.
Proof.
  intros Hz Hq. unfold Math_max.
  destruct (Qle_bool 1 (q - 1)) eqn:Hle.
  - apply Qle_bool_iff in Hle. exists (z - 1)%Z.
    assert (Hq2 : (inject_Z 2 <= inject_Z z)%Q).
    { rewrite <- Hq. change (inject_Z 2) with 2%Q. lra. }
    rewrite <- Zle_Qle in Hq2. split; [lia|].
    unfold Z.sub. rewrite inject_Z_plus, inject_Z_opp, Hq.
    change (inject_Z 1) with 1%Q. reflexivity.
  - exists 1%Z. split; [lia | reflexivity].
Qed.

(** Every item list that the item step can produce, by toggling category
    tiles and pressing the buttons of the listed items, has pairwise
    distinct categories and whole quantities of at least 1: the minus
    button stops at 1. *)
Theorem produced_items_are_valid (items : list FormItem) :
  produced items ->
  NoDup (map categoryId items) /\ Forall whole_quantity items.
Proof.
  induction 1 as [|items cat Hprod [Hnodup Hwhole]
                   |items item Hprod [Hnodup Hwhole] Hin
                   |items item Hprod [Hnodup Hwhole] Hin
                   |items item cond Hprod [Hnodup Hwhole] Hin].
  - split; constructor.
  - unfold toggleCategory.
    destruct (List.find _ items) as [found|] eqn:Hfind.
    + split; [apply filter_ids_NoDup, Hnodup|].
      apply Forall_forall. intros i Hi. apply list_elem_of_In, filter_In in Hi as [Hi _].
      rewrite Forall_forall in Hwhole. apply Hwhole, list_elem_of_In, Hi.
    + split.
      * rewrite map_app. apply NoDup_app. split; [exact Hnodup|].
        split; [|cbn [map]; apply NoDup_singleton].
        intros x Hx Hx'. cbn [map categoryId] in Hx'.
        apply list_elem_of_singleton in Hx'. subst x.
        apply (find_none_absent _ _ Hfind). apply list_elem_of_In, Hx.
      * apply Forall_app. split; [exact Hwhole|].
        constructor; [|constructor]. exists 1%Z. split; [lia | reflexivity].
  - unfold minus. rewrite updateItem_ids. split; [exact Hnodup|].
    apply updateItem_quantity; [exact Hwhole|].
    rewrite Forall_forall in Hwhole.
    destruct (Hwhole item (proj2 (list_elem_of_In _ _) Hin)) as (z & Hz & Hq).
    apply (minus_quantity _ z Hz Hq).
  - unfold plus. rewrite updateItem_ids. split; [exact Hnodup|].
    apply updateItem_quantity; [exact Hwhole|].
    rewrite Forall_forall in Hwhole.
    destruct (Hwhole item (proj2 (list_elem_of_In _ _) Hin)) as (z & Hz & Hq).
    exists (z + 1)%Z. split; [lia|]. rewrite inject_Z_plus, Hq. reflexivity.
  - unfold setCondition. rewrite updateItem_ids. split; [exact Hnodup|].
    apply updateItem_condition, Hwhole.
Qed.

(** One phone, then the plus button. *)
Lemma produced_items_are_valid_witness :
  map quantity Demo.two_phones = [ (1 + 1)%Q ]
  /\ NoDup (map categoryId Demo.two_phones)
  /\ Forall whole_quantity Demo.two_phones.
Proof.
  split; [reflexivity|].
  apply (produced_items_are_valid Demo.two_phones).
  unfold Demo.two_phones. apply produced_plus.
  - unfold Demo.one_phone. apply produced_toggle, produced_empty.
  - left. reflexivity.
Defined.



End ItemStepFacts.

(** ** Seeding *)

Section SeedFacts.
Import Firestore Services.






(** One run of the loop of [seedAchievements] adds one document per
    achievement, under new ids. *)
Lemma seedAchievements_loop_run (now : Z) (todo : list Writes) (db : Database) :
  exists db' : Database,
    seedAchievements_loop now todo db = (Ok tt, db')
    /\ size (achievements db') = (size (achievements db) + length todo)%nat
    /\ (forall id d, achievements db !! id = Some d -> achievements db' !! id = Some d)
    /\ ewasteCategories db' = ewasteCategories db
    /\ profiles db' = profiles db
    /\ pickups db' = pickups db.
Proof.
  revert db. induction todo as [|a rest IH]; intros db.
  - exists db. cbn [seedAchievements_loop length]. rewrite Nat.add_0_r.
    repeat split; try reflexivity. intros; assumption.
  - cbn [seedAchievements_loop]. unfold bind at 1 2. unfold newDoc at 1. unfold setDoc at 1.
    cbn [coll].
    assert (Hnew := newDoc_is_new Achievements db). cbn [coll] in Hnew.
    destruct (IH (set_coll Achievements
                    (<[fresh (dom (achievements db)) := fresh_doc now a]>
                       (achievements db)) db))
      as (db' & Hrun & Hsize & Hold & He & Hp & Hpk).
    cbn [set_coll achievements ewasteCategories profiles pickups] in *.
    exists db'. split; [exact Hrun|].
    split; [rewrite Hsize, (map_size_insert_None _ _ _ Hnew); cbn [length]; lia|].
    split; [|repeat split; assumption].
    intros id d Hd. apply Hold. rewrite lookup_insert_ne; [exact Hd | congruence].
Qed.

(** [seedAchievements] writes its eight achievements under new ids: every
    run adds eight documents and keeps the ones that are there, so a second
    run stores every achievement twice. *)
Theorem seedAchievements_adds_eight (clock clock' : Clock) (db : Database) :
  size (achievements (after clock SeedAchievements db))
  = (size (achievements db) + 8)%nat
  /\ size (achievements (after clock' SeedAchievements (after clock SeedAchievements db)))
     = (size (achievements db) + 16)%nat
  /\ (forall id d, achievements db !! id = Some d ->
        achievements (after clock SeedAchievements db) !! id = Some d)
  /\ ewasteCategories (after clock SeedAchievements db) = ewasteCategories db.
Proof.
  assert (Hone : forall clk db0,
             exists db1,
               after clk SeedAchievements db0 = db1
               /\ size (achievements db1) = (size (achievements db0) + 8)%nat
               /\ (forall id d, achievements db0 !! id = Some d ->
                     achievements db1 !! id = Some d)
               /\ ewasteCategories db1 = ewasteCategories db0).
  { intros clk db0.
    destruct (seedAchievements_loop_run (serverTimestamp clk) seed_achievements db0)
      as (db1 & Hrun & Hsize & Hold & He & _).
    exists db1. unfold after. cbn [call]. unfold seedAchievements, commit.
    rewrite Hrun. cbn [snd]. split; [reflexivity|].
    split; [exact Hsize|]. split; [exact Hold | exact He]. }
  destruct (Hone clock db) as (db1 & -> & Hsize1 & Hold1 & He1).
  destruct (Hone clock' db1) as (db2 & -> & Hsize2 & _).
  split; [exact Hsize1|]. split; [lia|]. split; [exact Hold1 | exact He1].
Qed.

End SeedFacts.
